(** * web-base: the site configuration loader, the reviews accessor and
    the setup wizard

    A shallow embedding of [src/setup/index.ts] (the "Site Configuration
    Loader" part: [loadConfig], [loadReviews], [getReviewsForPage]) and the
    properties of it that the specification states; then the other exports
    of the loader ([getFullAddress], [getYearsInBusinessText]) and the setup
    wizard ([SetupWizard]) up to the writing of [config.yaml], with the
    properties that the code itself shows.

    The loader works on the untyped tree that [YAML.parse] returns, so the
    embedding has a type of JavaScript values and the handful of JavaScript
    operations the loader uses ([||], [??], [?.], property reads that throw on
    [null], [Array.prototype.map/filter/find/includes/slice],
    [String.prototype.replace(/\D/g, '')], template literals), each written
    out for every shape of value it can meet. *)

From Stdlib Require Import ZArith List String Ascii Bool Lia DecimalString.
From Stdlib Require DecimalPos.
Import ListNotations.
Local Open Scope string_scope.
Local Open Scope Z_scope.
Set Warnings "-register-all".

(** ** JavaScript values *)

(** Numbers.  The configuration holds years and counts; the model has the
    integers and [NaN].  Fractions and the infinities are outside the model. *)
Inductive number : Type :=
| Int (z : Z)
| NaN.

(** What [YAML.parse] and [JSON.parse] return, plus [undefined], which a
    property read yields for a missing key.  An object is its list of own
    properties in property order; parsed objects have pairwise distinct keys,
    and a read takes the first property with the key. *)
Inductive value : Type :=
| VUndefined
| VNull
| VBool (b : bool)
| VNum (n : number)
| VStr (s : string)
| VArr (items : list value)
| VObj (props : list (string * value)).

(** Exceptions the two loaders can raise. *)
Inductive exn : Type :=
| IOError        (* fs.readFileSync failed *)
| SyntaxError    (* YAML.parse / JSON.parse failed *)
| TypeError.     (* property read on null/undefined, call of a non-function *)

Inductive result (A : Type) : Type :=
| Ok (a : A)
| Throw (e : exn).
Arguments Ok {A} a.
Arguments Throw {A} e.

Definition bind {A B : Type} (r : result A) (k : A -> result B) : result B :=
  match r with
  | Ok a => k a
  | Throw e => Throw e
  end.

Notation "x <- e ;; k" := (bind e (fun x => k))
  (at level 61, e at next level, right associativity).

(** [try { body } catch { return fallback }] *)
Definition try_catch {A : Type} (body : result A) (fallback : A) : A :=
  match body with
  | Ok a => a
  | Throw _ => fallback
  end.

Fixpoint mapM {A B : Type} (f : A -> result B) (l : list A) : result (list B) :=
  match l with
  | [] => Ok []
  | x :: rest =>
      y <- f x ;;
      ys <- mapM f rest ;;
      Ok (y :: ys)
  end.

(** ** Operators *)

Definition nullish (v : value) : bool :=
  match v with
  | VUndefined | VNull => true
  | _ => false
  end.

(** ToBoolean *)
Definition truthy (v : value) : bool :=
  match v with
  | VUndefined | VNull => false
  | VBool b => b
  | VNum (Int z) => negb (z =? 0)
  | VNum NaN => false
  | VStr s => negb (s =? "")%string
  | VArr _ | VObj _ => true
  end.

(** [a || b] on values (both sides already evaluated). *)
Definition js_or (a b : value) : value := if truthy a then a else b.

(** [a ?? b] *)
Definition js_coalesce (a b : value) : value := if nullish a then b else a.

Fixpoint lookup (k : string) (props : list (string * value)) : value :=
  match props with
  | [] => VUndefined
  | (k', v) :: rest => if (k =? k')%string then v else lookup k rest
  end.

(** [v?.k]: [undefined] when [v] is [null] or [undefined], else the property.
    Arrays and primitives carry none of the property names the loaders read
    as data (they read no [length], no index and no prototype method this
    way), so only objects answer. *)
Definition get (v : value) (k : string) : value :=
  match v with
  | VObj props => lookup k props
  | _ => VUndefined
  end.

(** [v.k]: a property read, which throws on [null] and [undefined]. *)
Definition member (v : value) (k : string) : result value :=
  if nullish v then Throw TypeError else Ok (get v k).

Declare Scope js_scope.
Delimit Scope js_scope with js.
Bind Scope js_scope with value.
Notation "a || b" := (js_or a b) : js_scope.
Notation "a ?? b" := (js_coalesce a b) (at level 50, left associativity) : js_scope.
Notation "v ?. k" := (get v k) (at level 8, left associativity, format "v ?. k") : js_scope.

(** [a === s] for a string [s] (also SameValueZero against a string). *)
Definition strict_eq_str (a : value) (s : string) : bool :=
  match a with
  | VStr s' => (s' =? s)%string
  | _ => false
  end.

(** ** Strings *)

Definition is_digit (c : ascii) : bool :=
  let n := nat_of_ascii c in
  (Nat.leb 48 n && Nat.leb n 57)%bool.

(** [s.replace(/\D/g, '')]: drop every character that is not [0]..[9]. *)
Fixpoint digits_only (s : string) : string :=
  match s with
  | EmptyString => EmptyString
  | String c rest =>
      if is_digit c then String c (digits_only rest) else digits_only rest
  end.

(** [s.includes(p)]: [p] occurs in [s]. *)
Fixpoint is_substring (p s : string) : bool :=
  (String.prefix p s ||
   match s with
   | EmptyString => false
   | String _ rest => is_substring p rest
   end)%bool.

Definition string_of_Z (z : Z) : string := NilZero.string_of_int (Z.to_int z).
Definition string_of_nat (n : nat) : string := NilZero.string_of_uint (Nat.to_uint n).

(** ToString, as a template literal applies it, where it returns.  Integers
    print in decimal (the exponent form of magnitudes from 1e21 on is outside
    the model).  Where the conversion throws is [converts], below. *)
Fixpoint ToString (v : value) : string :=
  match v with
  | VUndefined => "undefined"
  | VNull => "null"
  | VBool true => "true"
  | VBool false => "false"
  | VNum (Int z) => string_of_Z z
  | VNum NaN => "NaN"
  | VStr s => s
  | VArr l =>
      String.concat ","
        (map (fun x => if nullish x then "" else ToString x) l)
  | VObj _ => "[object Object]"
  end.

(** Whether the conversion to a string returns ([String(v)], a template
    literal, [+] with a string, the entries of a [join]).  It throws a
    TypeError on a mapping with an own property [toString] - no value that a
    parser returns is callable, and the inherited [valueOf] returns the
    mapping itself - and on a list with such an entry. *)
Fixpoint converts (v : value) : bool :=
  match v with
  | VObj props => negb (existsb (fun e => (fst e =? "toString")%string) props)
  | VArr l => forallb (fun x => nullish x || converts x) l
  | _ => true
  end.

(** The conversion with its exception. *)
Definition to_string (v : value) : result string :=
  if converts v then Ok (ToString v) else Throw TypeError.

(** ** Arrays *)

(** [v.map(f)]; nothing but an array has a [map], and calling it throws. *)
Definition array_map (f : value -> result value) (v : value) : result value :=
  match v with
  | VArr l => l' <- mapM f l ;; Ok (VArr l')
  | _ => Throw TypeError
  end.

(** [v.filter(f)] *)
Definition array_filter (f : value -> bool) (v : value) : result value :=
  match v with
  | VArr l => Ok (VArr (filter f l))
  | _ => Throw TypeError
  end.

(** [l.find(f)] for a callback that may throw. *)
Fixpoint findM (f : value -> result bool) (l : list value) : result (option value) :=
  match l with
  | [] => Ok None
  | x :: rest =>
      b <- f x ;;
      if b then Ok (Some x) else findM f rest
  end.

(** [Object.entries(v)]: the own enumerable string-keyed properties.  An
    array answers with its indices, a string with its characters, a number or
    boolean with nothing; [null] and [undefined] throw.  (For an object the
    engine lists integer-like keys first; only membership in the result is
    used below.) *)
Fixpoint indexed (i : nat) (l : list value) : list (string * value) :=
  match l with
  | [] => []
  | x :: rest => (string_of_nat i, x) :: indexed (S i) rest
  end.

(** The characters of a string, one string each.  (A string is modelled as
    its sequence of 8-bit characters.) *)
Fixpoint chars (s : string) : list value :=
  match s with
  | EmptyString => []
  | String c rest => VStr (String c EmptyString) :: chars rest
  end.

Definition Object_entries (v : value) : result (list (string * value)) :=
  match v with
  | VUndefined | VNull => Throw TypeError
  | VObj props => Ok props
  | VArr l => Ok (indexed 0 l)
  | VStr s => Ok (indexed 0 (chars s))
  | VBool _ | VNum _ => Ok []
  end.

(** [v.includes(s)] for a string [s]: membership in an array, occurrence in
    a string; no other value has the method. *)
Definition includes (v : value) (s : string) : result bool :=
  match v with
  | VArr l => Ok (existsb (fun x => strict_eq_str x s) l)
  | VStr s' => Ok (is_substring s s')
  | _ => Throw TypeError
  end.

Fixpoint filterM {A : Type} (f : A -> result bool) (l : list A) : result (list A) :=
  match l with
  | [] => Ok []
  | x :: rest =>
      b <- f x ;;
      ys <- filterM f rest ;;
      Ok (if b then x :: ys else ys)
  end.

(** A callback body that reads properties of its argument with [.]: every
    such read throws when the argument is [null] or [undefined]. *)
Definition reads (v : value) (body : value) : result value :=
  if nullish v then Throw TypeError else Ok body.

(** ** Numbers *)

Fixpoint digits_value (acc : Z) (s : string) : option Z :=
  match s with
  | EmptyString => Some acc
  | String c rest =>
      if is_digit c
      then digits_value (10 * acc + Z.of_nat (nat_of_ascii c - 48)) rest
      else None
  end.

(** StringToNumber on signed decimal integer literals (and the empty string,
    which is 0); every other string is sent to [NaN].  This is the instance
    the worked examples run with; the development itself is parametric in the
    conversion (see [StringToNumber] below). *)
Definition decimalToNumber (s : string) : number :=
  let unsigned (r : string) :=
    match r with
    | EmptyString => None
    | _ => digits_value 0 r
    end in
  match s with
  | EmptyString => Int 0
  | String "-"%char r =>
      match unsigned r with Some z => Int (- z) | None => NaN end
  | String "+"%char r =>
      match unsigned r with Some z => Int z | None => NaN end
  | _ => match unsigned s with Some z => Int z | None => NaN end
  end.

Section Loader.

(** The engine's StringToNumber, cut down to the model's numbers. *)
Variable StringToNumber : string -> number.

Definition ToNumber (v : value) : number :=
  match v with
  | VUndefined => NaN
  | VNull => Int 0
  | VBool b => Int (if b then 1 else 0)
  | VNum n => n
  | VStr s => StringToNumber s
  | VArr _ | VObj _ => StringToNumber (ToString v)
  end.

(** [a - b].  The model subtracts exactly.  JavaScript's result is the same
    when the operands and the difference are safe integers (of magnitude
    below 2^53); beyond them it is rounded, which is outside the model. *)
Definition js_sub (a b : value) : value :=
  match ToNumber a, ToNumber b with
  | Int x, Int y => VNum (Int (x - y))
  | _, _ => VNum NaN
  end.

(** [l.slice(0, end)]: [end] undefined means the length, [NaN] means 0, a
    negative [end] counts back from the length. *)
Definition slice0 (end_ : value) (l : list value) : list value :=
  let len := Z.of_nat (List.length l) in
  let relativeEnd :=
    match end_ with
    | VUndefined => len
    | _ => match ToNumber end_ with Int z => z | NaN => 0 end
    end in
  let final :=
    if relativeEnd <? 0 then Z.max (len + relativeEnd) 0 else Z.min relativeEnd len in
  firstn (Z.to_nat final) l.

(** ** The configuration loader ([loadConfig]) *)

Local Open Scope js_scope.

(** [currentYear] is [new Date().getFullYear()]. *)
Variable currentYear : Z.

Definition yearFounded (config : value) : value :=
  config?."business"?."year_founded" || VNum (Int currentYear).

Definition yearsInBusiness (config : value) : value :=
  js_sub (VNum (Int currentYear)) (yearFounded config).

Definition business (config : value) : value :=
  VObj
    [ ("name", config?."business"?."name" || config?."site"?."name" || VStr "Acme Corp");
      ("legalName", config?."business"?."legal_name" || config?."business"?."name"
                    || config?."site"?."name" || VStr "Acme Corp");
      ("tagline", config?."business"?."tagline" || config?."site"?."tagline" || VStr "");
      ("description", config?."business"?."description" || config?."site"?."description"
                      || VStr "");
      ("yearFounded", yearFounded config);
      ("industry", config?."business"?."industry" || VStr "general") ].

Definition branding (config : value) : value :=
  VObj
    [ ("colors",
       VObj
         [ ("primary", config?."branding"?."colors"?."primary" || VStr "#2563eb");
           ("primaryDark", config?."branding"?."colors"?."primary_dark" || VStr "#1e40af");
           ("secondary", config?."branding"?."colors"?."secondary" || VStr "#64748b");
           ("accent", config?."branding"?."colors"?."accent" || VStr "#f59e0b");
           ("text", config?."branding"?."colors"?."text" || VStr "#1f2937");
           ("textLight", config?."branding"?."colors"?."text_light" || VStr "#6b7280");
           ("background", config?."branding"?."colors"?."background" || VStr "#ffffff");
           ("surface", config?."branding"?."colors"?."surface" || VStr "#f9fafb") ]);
      ("fonts",
       VObj
         [ ("heading", config?."branding"?."fonts"?."heading" || VStr "Inter");
           ("body", config?."branding"?."fonts"?."body" || VStr "Inter") ]);
      ("style", config?."branding"?."style" || VStr "modern");
      ("logo",
       VObj
         [ ("text", config?."branding"?."logo"?."text" || VStr "");
           ("showIcon", config?."branding"?."logo"?."show_icon" ?? VBool true) ]) ].

(** [(config.trust?.certifications || []).filter((c: string) => c)] *)
Definition certifications (config : value) : result value :=
  array_filter truthy (config?."trust"?."certifications" || VArr []).

Definition trust (config : value) : result value :=
  certs <- certifications config ;;
  Ok (VObj
    [ ("showYearsInBusiness", config?."trust"?."show_years_in_business" ?? VBool true);
      ("yearsInBusiness", yearsInBusiness config);
      ("customersServed", config?."trust"?."customers_served" || VStr "");
      ("satisfactionRate", config?."trust"?."satisfaction_rate" || VStr "");
      ("responseTime", config?."trust"?."response_time" || VStr "");
      ("certifications", certs);
      ("awards", config?."trust"?."awards" || VArr []);
      ("affiliations", config?."trust"?."affiliations" || VArr []);
      ("guarantees", config?."trust"?."guarantees" || VArr []) ]).

Definition cta (config : value) : value :=
  VObj
    [ ("primary",
       VObj
         [ ("text", config?."cta"?."primary"?."text" || VStr "Get Started");
           ("url", config?."cta"?."primary"?."url" || VStr "/contact") ]);
      ("secondary",
       VObj
         [ ("text", config?."cta"?."secondary"?."text" || VStr "Call Now");
           ("url", config?."cta"?."secondary"?."url"
                   || VStr ("tel:" ++ ToString (config?."contact"?."phone_raw" || VStr ""))) ]);
      ("urgency", config?."cta"?."urgency" || VStr "") ].

Definition service_item (s : value) : result value :=
  reads s
    (VObj
       [ ("name", s?."name" || VStr "");
         ("description", s?."description" || VStr "");
         ("icon", s?."icon" || VStr "star");
         ("url", s?."url" || VStr "") ]).

Definition services (config : value) : result value :=
  items <- array_map service_item (config?."services"?."items" || VArr []) ;;
  Ok (VObj
    [ ("enabled", config?."services"?."enabled" ?? VBool true);
      ("headline", config?."services"?."headline" || VStr "Our Services");
      ("subheadline", config?."services"?."subheadline" || VStr "");
      ("items", items) ]).

Definition value_prop_item (v : value) : result value :=
  reads v
    (VObj
       [ ("title", v?."title" || VStr "");
         ("description", v?."description" || VStr "");
         ("icon", v?."icon" || VStr "check") ]).

Definition valueProps (config : value) : result value :=
  items <- array_map value_prop_item (config?."value_props"?."items" || VArr []) ;;
  Ok (VObj
    [ ("enabled", config?."value_props"?."enabled" ?? VBool true);
      ("headline", config?."value_props"?."headline" || VStr "Why Choose Us");
      ("items", items) ]).

Definition features (config : value) : value :=
  VObj
    [ ("blog", config?."features"?."blog" ?? VBool true);
      ("contactForm", config?."features"?."contact_form" ?? VBool true);
      ("reviews", config?."features"?."reviews" ?? VBool true);
      ("servicesSection", config?."features"?."services_section" ?? VBool true);
      ("newsletter", config?."features"?."newsletter" ?? VBool false);
      ("chat", config?."features"?."chat" ?? VBool false);
      ("booking", config?."features"?."booking" ?? VBool false) ].

Definition seo (config : value) : value :=
  VObj
    [ ("titleTemplate", config?."seo"?."title_template"
                        || VStr ("%s | " ++ ToString (business config)?."name"));
      ("defaultTitle", config?."seo"?."default_title" || (business config)?."name");
      ("defaultDescription", config?."seo"?."default_description"
                             || (business config)?."description");
      ("keywords", config?."seo"?."keywords" || VArr []) ].

Definition legal (config : value) : value :=
  VObj
    [ ("copyrightHolder", config?."legal"?."copyright_holder" || (business config)?."name");
      ("privacyEmail", config?."legal"?."privacy_email" || config?."contact"?."email"
                       || VStr "");
      ("termsLastUpdated", config?."legal"?."terms_last_updated" || VStr "");
      ("privacyLastUpdated", config?."legal"?."privacy_last_updated" || VStr "") ].

Definition phoneDisplay (config : value) : value :=
  config?."contact"?."phone" || config?."contact"?."phone_local" || VStr "".

(** [phoneDisplay.replace(/\D/g, '')]: only a string has [replace]. *)
Definition replace_non_digits (v : value) : result value :=
  match v with
  | VStr s => Ok (VStr (digits_only s))
  | _ => Throw TypeError
  end.

(** [config.contact?.phone_raw || phoneDisplay.replace(/\D/g, '')]; the right
    operand runs only when the left one is falsy. *)
Definition phoneRaw (config : value) : result value :=
  if truthy config?."contact"?."phone_raw"
  then Ok config?."contact"?."phone_raw"
  else replace_non_digits (phoneDisplay config).

Definition hoursDetailed (config : value) : value :=
  config?."hours"?."detailed" || config?."hours" || VObj [].

Definition hours_structured_item (h : value) : result value :=
  reads h
    (VObj
       [ ("days", h?."days" || VArr []);
         ("open", h?."open" || VStr "");
         ("close", h?."close" || VStr "") ]).

Definition review_page (p : value) : result value :=
  reads p
    (VObj
       [ ("path", p?."path");
         ("layout", p?."layout" || VStr "standard");
         ("position", p?."position" || VStr "before-cta");
         ("maxReviews", p?."max_reviews" || VNum (Int 3)) ]).

(** The body of [loadConfig] from the parsed document on. *)
Definition resolve (config : value) : result value :=
  (* line 965, [config.business]: this read and every later [config.x]
     throw when the document parsed to null *)
  _ <- member config "business" ;;
  let business := business config in
  let branding := branding config in
  trust <- trust config ;;
  let cta := cta config in
  services <- services config ;;
  valueProps <- valueProps config ;;
  let features := features config in
  let seo := seo config in
  let legal := legal config in
  let phoneDisplay := phoneDisplay config in
  phoneRaw <- phoneRaw config ;;
  let hoursDetailed := hoursDetailed config in
  hoursStructured <- array_map hours_structured_item
                       (config?."hours"?."structured" || VArr []) ;;
  pages <- array_map review_page (config?."reviews"?."pages" || VArr []) ;;
  Ok (VObj
    [ ("name", business?."name");
      ("tagline", business?."tagline");
      ("description", business?."description");
      ("url", config?."site"?."url" || VStr "");
      ("defaultOgImage", config?."site"?."default_og_image" || VStr "/images/og-image.png");
      ("contact",
       VObj
         [ ("email", config?."contact"?."email" || VStr "");
           ("phone", phoneDisplay);
           ("phoneRaw", phoneRaw);
           ("phoneLocal", phoneDisplay);
           ("address",
            VObj
              [ ("street", config?."contact"?."address"?."street" || VStr "");
                ("suite", config?."contact"?."address"?."suite" || VStr "");
                ("city", config?."contact"?."address"?."city" || VStr "");
                ("state", config?."contact"?."address"?."state" || VStr "");
                ("zip", config?."contact"?."address"?."zip" || VStr "");
                ("country", config?."contact"?."address"?."country" || VStr "") ]);
           ("serviceArea", config?."contact"?."service_area" || VStr "") ]);
      ("social",
       VObj
         [ ("facebook", config?."social"?."facebook" || VStr "");
           ("instagram", config?."social"?."instagram" || VStr "");
           ("twitter", config?."social"?."twitter" || VStr "");
           ("linkedin", config?."social"?."linkedin" || VStr "");
           ("youtube", config?."social"?."youtube" || VStr "");
           ("tiktok", config?."social"?."tiktok" || VStr "");
           ("pinterest", config?."social"?."pinterest" || VStr "");
           ("yelp", config?."social"?."yelp" || VStr "");
           ("googleBusiness", config?."social"?."google_business" || VStr "");
           ("nextdoor", config?."social"?."nextdoor" || VStr "");
           ("bbb", config?."social"?."bbb" || VStr "");
           ("whatsapp", config?."social"?."whatsapp" || VStr "") ]);
      ("hours",
       VObj
         [ ("display", config?."hours"?."display" || VStr "Mon-Fri: 9AM-5PM");
           ("monday", hoursDetailed?."monday" || VStr "");
           ("tuesday", hoursDetailed?."tuesday" || VStr "");
           ("wednesday", hoursDetailed?."wednesday" || VStr "");
           ("thursday", hoursDetailed?."thursday" || VStr "");
           ("friday", hoursDetailed?."friday" || VStr "");
           ("saturday", hoursDetailed?."saturday" || VStr "");
           ("sunday", hoursDetailed?."sunday" || VStr "") ]);
      ("hoursStructured", hoursStructured);
      ("navigation", config?."navigation"?."main" || VArr []);
      ("footerLinks",
       VObj
         [ ("quickLinks", config?."navigation"?."footer"?."quick_links"
                          || config?."navigation"?."footer"?."quickLinks" || VArr []);
           ("legal", config?."navigation"?."footer"?."legal" || VArr []) ]);
      ("analytics",
       VObj
         [ ("googleAnalytics",
            VObj
              [ ("enabled", config?."analytics"?."google_analytics"?."enabled" || VBool false);
                ("measurementId", config?."analytics"?."google_analytics"?."measurement_id"
                                  || VStr "") ]);
           ("googleTagManager",
            VObj
              [ ("enabled", config?."analytics"?."google_tag_manager"?."enabled" || VBool false);
                ("containerId", config?."analytics"?."google_tag_manager"?."container_id"
                                || VStr "") ]);
           ("googleSiteVerification", config?."analytics"?."google_site_verification"
                                      || VStr "") ]);
      ("reviews",
       VObj
         [ ("enabled", config?."reviews"?."enabled" ?? VBool true);
           ("pages", pages);
           ("tagged", config?."reviews"?."tagged" || VObj []) ]);
      ("copyright",
       VStr ("© " ++ string_of_Z currentYear ++ " " ++ ToString legal?."copyrightHolder"
             ++ ". All rights reserved."));
      ("business", business);
      ("branding", branding);
      ("trust", trust);
      ("cta", cta);
      ("services", services);
      ("valueProps", valueProps);
      ("features", features);
      ("seo", seo);
      ("legal", legal);
      ("locale", config?."site"?."locale" || VStr "en-US");
      ("timezone", config?."site"?."timezone" || VStr "America/New_York") ]).

(** What reading and parsing a file came to. *)
Inductive file_read : Type :=
| Missing
| Unparsable
| Parsed (data : value).

Definition read_parse (file : file_read) : result value :=
  match file with
  | Missing => Throw IOError
  | Unparsable => Throw SyntaxError
  | Parsed data => Ok data
  end.

(** [loadConfig()], with the state of [config.yaml] as its argument. *)
Definition loadConfig (file : file_read) : result value :=
  config <- read_parse file ;;
  resolve config.

(** ** The reviews accessor ([loadReviews], [getReviewsForPage]) *)

Definition review_item (r : value) : result value :=
  reads r
    (VObj
       [ ("id", r?."id");
         ("author", r?."author");
         ("rating", r?."rating");
         ("date", r?."date");
         ("text", r?."text");
         ("hasPhoto", r?."hasPhoto" || VBool false) ]).

(** [loadReviews()], with the state of [data/reviews.json] as its argument. *)
Definition loadReviews (file : file_read) : list value :=
  try_catch
    (data <- read_parse file ;;
     reviews <- member data "reviews" ;;
     match reviews || VArr [] with
     | VArr l => mapM review_item l
     | _ => Throw TypeError
     end)
    [].

Definition no_reviews : value := VObj [("reviews", VArr []); ("config", VNull)].

(** [siteConfig.reviews.pages.find(p => p.path === pagePath)] *)
Definition find_page (pages : value) (pagePath : string) : result value :=
  match pages with
  | VArr l =>
      found <- findM (fun p => path <- member p "path" ;; Ok (strict_eq_str path pagePath)) l ;;
      Ok (match found with Some p => p | None => VUndefined end)
  | _ => Throw TypeError
  end.

(** [Object.entries(tagged).filter(([_, pages]) => pages.includes(pagePath))
      .map(([id]) => id)] *)
Definition taggedReviewIds (tagged : value) (pagePath : string) : result (list string) :=
  entries <- Object_entries tagged ;;
  kept <- filterM (fun e => includes (snd e) pagePath) entries ;;
  Ok (map fst kept).

(** [taggedReviewIds.includes(r.id)] *)
Definition id_tagged (ids : list string) (r : value) : bool :=
  existsb (fun id => strict_eq_str r?."id" id) ids.

Definition getReviewsForPage (siteConfig : value) (file : file_read) (pagePath : string)
  : result value :=
  reviews <- member siteConfig "reviews" ;;
  enabled <- member reviews "enabled" ;;
  if negb (truthy enabled) then Ok no_reviews else
  pages <- member reviews "pages" ;;
  pageConfig <- find_page pages pagePath ;;
  if negb (truthy pageConfig) then Ok no_reviews else
  let allReviews := loadReviews file in
  tagged <- member reviews "tagged" ;;
  taggedReviewIds <- taggedReviewIds tagged pagePath ;;
  let pageReviews :=
    slice0 pageConfig?."maxReviews" (filter (id_tagged taggedReviewIds) allReviews) in
  Ok (VObj [("reviews", VArr pageReviews); ("config", pageConfig)]).

End Loader.

(** ** The declared types

    The interfaces of the source ([SiteConfig] and its parts) as a checker on
    values, and the mirror of them on the input side: what the loader reads
    from [config.yaml], every field optional. *)

Inductive ty : Type :=
| TString
| TNumber
| TBoolean
| TEnum (allowed : list string)        (* a union of string literals *)
| TOpt (t : ty)                        (* [t], [null] or [undefined] *)
| TArray (t : ty)
| TRecord (t : ty)                     (* [Record<string, t>] *)
| TObject (fields : list (string * ty))
| TNavItem.                            (* [NavItem], which is recursive *)

Definition is_string (v : value) : bool :=
  match v with VStr _ => true | _ => false end.
Definition is_number (v : value) : bool :=
  match v with VNum _ => true | _ => false end.
Definition is_boolean (v : value) : bool :=
  match v with VBool _ => true | _ => false end.
Definition is_object (v : value) : bool :=
  match v with VObj _ => true | _ => false end.

(** [interface NavItem { name: string; href: string; children?: NavItem[] }] *)
Fixpoint nav_item (v : value) : bool :=
  match v with
  | VObj props =>
      is_string (lookup "name" props) && is_string (lookup "href" props) &&
      (fix children (ps : list (string * value)) : bool :=
         match ps with
         | [] => true
         | (k, c) :: rest =>
             if (k =? "children")%string
             then match c with
                  | VUndefined => true
                  | VArr l => forallb nav_item l
                  | _ => false
                  end
             else children rest
         end) props
  | _ => false
  end.

Fixpoint has_type (t : ty) (v : value) {struct t} : bool :=
  match t with
  | TString => is_string v
  | TNumber => is_number v
  | TBoolean => is_boolean v
  | TEnum allowed =>
      match v with
      | VStr s => existsb (String.eqb s) allowed
      | _ => false
      end
  | TOpt t' => nullish v || has_type t' v
  | TArray t' =>
      match v with
      | VArr l => forallb (has_type t') l
      | _ => false
      end
  | TRecord t' =>
      match v with
      | VObj props => forallb (fun p => has_type t' (snd p)) props
      | _ => false
      end
  | TObject fields =>
      is_object v &&
      (fix all (fs : list (string * ty)) : bool :=
         match fs with
         | [] => true
         | (k, t') :: rest => has_type t' (get v k) && all rest
         end) fields
  | TNavItem => nav_item v
  end.

Fixpoint field_ty (k : string) (fields : list (string * ty)) : option ty :=
  match fields with
  | [] => None
  | (k', t) :: rest => if (k =? k')%string then Some t else field_ty k rest
  end.

Definition is_opt (t : ty) : bool :=
  match t with TOpt _ => true | _ => false end.

(** A property of an object literal lines up with a declared field. *)
Definition lines_up (f : string * ty) (p : string * value) : Prop :=
  fst f = fst p /\ has_type (snd f) (snd p) = true.

(** Pairwise distinct keys. *)
Fixpoint distinct (ks : list string) : bool :=
  match ks with
  | [] => true
  | k :: rest => negb (existsb (String.eqb k) rest) && distinct rest
  end.

(** *** [SiteConfig] and its parts, as the source declares them *)

Definition LayoutTy : ty := TEnum ["featured"; "standard"; "compact"; "carousel"; "3-row"].
Definition PositionTy : ty := TEnum ["before-cta"; "after-cta"; "after-hero"].
Definition StyleTy : ty := TEnum ["modern"; "classic"; "playful"; "minimal"].

Definition FooterLinksTy : ty :=
  TObject [("quickLinks", TArray TNavItem); ("legal", TArray TNavItem)].

(** [suite] is declared optional; the loader fills it like the others. *)
Definition AddressTy : ty :=
  TObject [("street", TString); ("suite", TString); ("city", TString);
           ("state", TString); ("zip", TString); ("country", TString)].

Definition ContactTy : ty :=
  TObject [("email", TString); ("phone", TString); ("phoneRaw", TString);
           ("phoneLocal", TString); ("address", AddressTy); ("serviceArea", TString)].

Definition SocialTy : ty :=
  TObject [("facebook", TString); ("instagram", TString); ("twitter", TString);
           ("linkedin", TString); ("youtube", TString); ("tiktok", TString);
           ("pinterest", TString); ("yelp", TString); ("googleBusiness", TString);
           ("nextdoor", TString); ("bbb", TString); ("whatsapp", TString)].

Definition HoursTy : ty :=
  TObject [("display", TString); ("monday", TString); ("tuesday", TString);
           ("wednesday", TString); ("thursday", TString); ("friday", TString);
           ("saturday", TString); ("sunday", TString)].

Definition HoursStructuredTy : ty :=
  TObject [("days", TArray TString); ("open", TString); ("close", TString)].

Definition AnalyticsTy : ty :=
  TObject
    [("googleAnalytics", TObject [("enabled", TBoolean); ("measurementId", TString)]);
     ("googleTagManager", TObject [("enabled", TBoolean); ("containerId", TString)]);
     ("googleSiteVerification", TString)].

Definition ReviewPageConfigTy : ty :=
  TObject [("path", TString); ("layout", LayoutTy); ("position", PositionTy);
           ("maxReviews", TNumber)].

Definition ReviewsConfigTy : ty :=
  TObject [("enabled", TBoolean); ("pages", TArray ReviewPageConfigTy);
           ("tagged", TRecord (TArray TString))].

Definition BusinessTy : ty :=
  TObject [("name", TString); ("legalName", TString); ("tagline", TString);
           ("description", TString); ("yearFounded", TNumber); ("industry", TString)].

Definition BrandingColorsTy : ty :=
  TObject [("primary", TString); ("primaryDark", TString); ("secondary", TString);
           ("accent", TString); ("text", TString); ("textLight", TString);
           ("background", TString); ("surface", TString)].

Definition BrandingTy : ty :=
  TObject [("colors", BrandingColorsTy);
           ("fonts", TObject [("heading", TString); ("body", TString)]);
           ("style", StyleTy);
           ("logo", TObject [("text", TString); ("showIcon", TBoolean)])].

Definition TrustTy : ty :=
  TObject [("showYearsInBusiness", TBoolean); ("yearsInBusiness", TNumber);
           ("customersServed", TString); ("satisfactionRate", TString);
           ("responseTime", TString); ("certifications", TArray TString);
           ("awards", TArray TString); ("affiliations", TArray TString);
           ("guarantees", TArray TString)].

Definition CTATy : ty :=
  TObject [("primary", TObject [("text", TString); ("url", TString)]);
           ("secondary", TObject [("text", TString); ("url", TString)]);
           ("urgency", TString)].

Definition ServiceItemTy : ty :=
  TObject [("name", TString); ("description", TString); ("icon", TString);
           ("url", TString)].

Definition ServicesTy : ty :=
  TObject [("enabled", TBoolean); ("headline", TString); ("subheadline", TString);
           ("items", TArray ServiceItemTy)].

Definition ValuePropItemTy : ty :=
  TObject [("title", TString); ("description", TString); ("icon", TString)].

Definition ValuePropsTy : ty :=
  TObject [("enabled", TBoolean); ("headline", TString); ("items", TArray ValuePropItemTy)].

Definition FeaturesTy : ty :=
  TObject [("blog", TBoolean); ("contactForm", TBoolean); ("reviews", TBoolean);
           ("servicesSection", TBoolean); ("newsletter", TBoolean); ("chat", TBoolean);
           ("booking", TBoolean)].

Definition SEOTy : ty :=
  TObject [("titleTemplate", TString); ("defaultTitle", TString);
           ("defaultDescription", TString); ("keywords", TArray TString)].

Definition LegalTy : ty :=
  TObject [("copyrightHolder", TString); ("privacyEmail", TString);
           ("termsLastUpdated", TString); ("privacyLastUpdated", TString)].

(** The fields are listed in the order of the object that [loadConfig]
    returns. *)
Definition SiteConfigTy : ty :=
  TObject
    [("name", TString); ("tagline", TString); ("description", TString); ("url", TString);
     ("defaultOgImage", TString); ("contact", ContactTy); ("social", SocialTy);
     ("hours", HoursTy); ("hoursStructured", TArray HoursStructuredTy);
     ("navigation", TArray TNavItem); ("footerLinks", FooterLinksTy);
     ("analytics", AnalyticsTy); ("reviews", ReviewsConfigTy); ("copyright", TString);
     ("business", BusinessTy); ("branding", BrandingTy); ("trust", TrustTy);
     ("cta", CTATy); ("services", ServicesTy); ("valueProps", ValuePropsTy);
     ("features", FeaturesTy); ("seo", SEOTy); ("legal", LegalTy);
     ("locale", TString); ("timezone", TString)].

(** *** The input side

    The fields [loadConfig] reads from the parsed document, each one optional
    ([null] or missing) and of its declared type when given.  Two things are
    not optional: an entry of [reviews.pages] carries its [path], which the
    loader copies without a default, and the entries of the sequences the
    loader maps over are objects. *)

Definition OptString : ty := TOpt TString.

Definition RawBusinessTy : ty :=
  TObject
    [ ("name", OptString);
      ("legal_name", OptString);
      ("tagline", OptString);
      ("description", OptString);
      ("year_founded", TOpt TNumber);
      ("industry", OptString) ].

Definition RawSiteTy : ty :=
  TObject
    [ ("name", OptString);
      ("tagline", OptString);
      ("description", OptString);
      ("url", OptString);
      ("default_og_image", OptString);
      ("locale", OptString);
      ("timezone", OptString) ].

Definition RawBrandingTy : ty :=
  TObject
    [ ("colors", TOpt (TObject
          [ ("primary", OptString);
            ("primary_dark", OptString);
            ("secondary", OptString);
            ("accent", OptString);
            ("text", OptString);
            ("text_light", OptString);
            ("background", OptString);
            ("surface", OptString) ]));
      ("fonts", TOpt (TObject [("heading", OptString); ("body", OptString)]));
      ("style", TOpt StyleTy);
      ("logo", TOpt (TObject [("text", OptString); ("show_icon", TOpt TBoolean)])) ].

Definition RawTrustTy : ty :=
  TObject
    [ ("show_years_in_business", TOpt TBoolean);
      ("customers_served", OptString);
      ("satisfaction_rate", OptString);
      ("response_time", OptString);
      ("certifications", TOpt (TArray OptString));
      ("awards", TOpt (TArray TString));
      ("affiliations", TOpt (TArray TString));
      ("guarantees", TOpt (TArray TString)) ].

Definition RawCTATy : ty :=
  TObject
    [ ("primary", TOpt (TObject [("text", OptString); ("url", OptString)]));
      ("secondary", TOpt (TObject [("text", OptString); ("url", OptString)]));
      ("urgency", OptString) ].

Definition RawContactTy : ty :=
  TObject
    [ ("email", OptString);
      ("phone", OptString);
      ("phone_local", OptString);
      ("phone_raw", OptString);
      ("address", TOpt (TObject
          [ ("street", OptString);
            ("suite", OptString);
            ("city", OptString);
            ("state", OptString);
            ("zip", OptString);
            ("country", OptString) ]));
      ("service_area", OptString) ].

Definition RawServiceItemTy : ty :=
  TObject
    [ ("name", OptString);
      ("description", OptString);
      ("icon", OptString);
      ("url", OptString) ].

Definition RawServicesTy : ty :=
  TObject
    [ ("enabled", TOpt TBoolean);
      ("headline", OptString);
      ("subheadline", OptString);
      ("items", TOpt (TArray RawServiceItemTy)) ].

Definition RawValuePropItemTy : ty :=
  TObject
    [ ("title", OptString);
      ("description", OptString);
      ("icon", OptString) ].

Definition RawValuePropsTy : ty :=
  TObject
    [ ("enabled", TOpt TBoolean);
      ("headline", OptString);
      ("items", TOpt (TArray RawValuePropItemTy)) ].

Definition RawFeaturesTy : ty :=
  TObject
    [ ("blog", TOpt TBoolean);
      ("contact_form", TOpt TBoolean);
      ("reviews", TOpt TBoolean);
      ("services_section", TOpt TBoolean);
      ("newsletter", TOpt TBoolean);
      ("chat", TOpt TBoolean);
      ("booking", TOpt TBoolean) ].

Definition RawSEOTy : ty :=
  TObject
    [ ("title_template", OptString);
      ("default_title", OptString);
      ("default_description", OptString);
      ("keywords", TOpt (TArray TString)) ].

Definition RawLegalTy : ty :=
  TObject
    [ ("copyright_holder", OptString);
      ("privacy_email", OptString);
      ("terms_last_updated", OptString);
      ("privacy_last_updated", OptString) ].

Definition RawSocialTy : ty :=
  TObject
    [ ("facebook", OptString);
      ("instagram", OptString);
      ("twitter", OptString);
      ("linkedin", OptString);
      ("youtube", OptString);
      ("tiktok", OptString);
      ("pinterest", OptString);
      ("yelp", OptString);
      ("google_business", OptString);
      ("nextdoor", OptString);
      ("bbb", OptString);
      ("whatsapp", OptString) ].

Definition RawWeekdaysTy : ty :=
  TObject
    [ ("monday", OptString);
      ("tuesday", OptString);
      ("wednesday", OptString);
      ("thursday", OptString);
      ("friday", OptString);
      ("saturday", OptString);
      ("sunday", OptString) ].

Definition RawHoursStructuredTy : ty :=
  TObject
    [ ("days", TOpt (TArray TString));
      ("open", OptString);
      ("close", OptString) ].

Definition RawHoursTy : ty :=
  TObject
    [ ("display", OptString);
      ("monday", OptString);
      ("tuesday", OptString);
      ("wednesday", OptString);
      ("thursday", OptString);
      ("friday", OptString);
      ("saturday", OptString);
      ("sunday", OptString);
      ("detailed", TOpt RawWeekdaysTy);
      ("structured", TOpt (TArray RawHoursStructuredTy)) ].

Definition RawNavigationTy : ty :=
  TObject
    [ ("main", TOpt (TArray TNavItem));
      ("footer", TOpt (TObject [("quick_links", TOpt (TArray TNavItem)); ("quickLinks", TOpt (TArray TNavItem)); ("legal", TOpt (TArray TNavItem))])) ].

Definition RawAnalyticsTy : ty :=
  TObject
    [ ("google_analytics", TOpt (TObject [("enabled", TOpt TBoolean); ("measurement_id", OptString)]));
      ("google_tag_manager", TOpt (TObject [("enabled", TOpt TBoolean); ("container_id", OptString)]));
      ("google_site_verification", OptString) ].

Definition RawReviewPageTy : ty :=
  TObject
    [ ("path", TString);
      ("layout", TOpt LayoutTy);
      ("position", TOpt PositionTy);
      ("max_reviews", TOpt TNumber) ].

Definition RawReviewsTy : ty :=
  TObject
    [ ("enabled", TOpt TBoolean);
      ("pages", TOpt (TArray RawReviewPageTy));
      ("tagged", TOpt (TRecord (TArray TString))) ].

Definition RawConfigTy : ty :=
  TObject
    [ ("business", TOpt RawBusinessTy);
      ("site", TOpt RawSiteTy);
      ("branding", TOpt RawBrandingTy);
      ("trust", TOpt RawTrustTy);
      ("cta", TOpt RawCTATy);
      ("contact", TOpt RawContactTy);
      ("services", TOpt RawServicesTy);
      ("value_props", TOpt RawValuePropsTy);
      ("features", TOpt RawFeaturesTy);
      ("seo", TOpt RawSEOTy);
      ("legal", TOpt RawLegalTy);
      ("social", TOpt RawSocialTy);
      ("hours", TOpt RawHoursTy);
      ("navigation", TOpt RawNavigationTy);
      ("analytics", TOpt RawAnalyticsTy);
      ("reviews", TOpt RawReviewsTy) ].

(** ** What the specification speaks of

    The specification's own notions, to state its sentences with: the
    weekdays, a page entry matching a path, a review being tagged for a path. *)

Definition weekdays : list string :=
  ["monday"; "tuesday"; "wednesday"; "thursday"; "friday"; "saturday"; "sunday"].

(** "the page config whose path equals the argument (exact string match)" *)
Definition page_matches (pagePath : string) (p : value) : bool :=
  strict_eq_str p?."path"%js pagePath.



(** Where the accessor throws after it has found the page: the scan of
    [reviews.tagged] calls [includes] on each of its values, which a list and
    a string have.  (After it [slice] converts [maxReviews] to a number,
    which throws where the conversion to a string does, see [converts].) *)
Definition has_includes (v : value) : bool :=
  match v with
  | VArr _ | VStr _ => true
  | _ => false
  end.

Definition scannable (tagged : value) : bool :=
  match Object_entries tagged with
  | Ok entries => forallb (fun e => has_includes (snd e)) entries
  | Throw _ => false
  end.

Fixpoint all_digits (s : string) : bool :=
  match s with
  | EmptyString => true
  | String c rest => is_digit c && all_digits rest
  end.

(** ** Worked inputs *)

(** [reviews: { pages: [null] }], as YAML gives for a list with an empty entry. *)
Definition config_null_page : value :=
  VObj [("reviews", VObj [("pages", VArr [VNull])])].

(** Only a display phone: no [phone_raw], no [cta.secondary.url]. *)
Definition config_display_phone : value :=
  VObj [("contact", VObj [("phone", VStr "(555) 555-0100")])].

(** Flat weekday hours next to an empty [detailed] mapping. *)
Definition config_empty_detailed : value :=
  VObj [("hours", VObj [("monday", VStr "9-5"); ("detailed", VObj [])])].

(** Flat and detailed hours that differ. *)
Definition config_both_hours : value :=
  VObj [("hours", VObj [("monday", VStr "9-5");
                        ("detailed", VObj [("monday", VStr "8-6")])])].

(** A certification list with an empty entry. *)
Definition config_blank_certification : value :=
  VObj [("trust", VObj [("certifications", VArr [VStr "A"; VStr ""; VStr "B"])])].

Definition config_partial_items : value :=
  VObj [("services", VObj [("items", VArr [VObj [("name", VStr "Roofing")]; VObj []])]);
        ("value_props", VObj [("items", VArr [VObj [("title", VStr "Fast")]])]);
        ("trust", VObj [("certifications", VArr [VStr "A"; VStr "B"])])].

Definition config_founded_1990 : value :=
  VObj [("business", VObj [("year_founded", VNum (Int 1990))]);
        ("trust", VObj [("years_in_business", VNum (Int 99))])].

Definition config_names : value :=
  VObj [("business", VObj [("name", VStr "X")]); ("site", VObj [("name", VStr "Y")])].

(** The specification's reviews example: reviews A, B, C; A and B tagged for
    [/contact], C for [/about]; a page entry for [/contact]. *)
Definition example_tagged : value :=
  VObj [("A", VArr [VStr "/contact"]); ("B", VArr [VStr "/contact"]);
        ("C", VArr [VStr "/about"])].

Definition example_reviews (enabled : bool) (maxReviews : Z) : value :=
  VObj [("enabled", VBool enabled);
        ("pages", VArr [VObj [("path", VStr "/contact"); ("layout", VStr "standard");
                              ("position", VStr "before-cta");
                              ("maxReviews", VNum (Int maxReviews))]]);
        ("tagged", example_tagged)].

Definition example_site (enabled : bool) (maxReviews : Z) : value :=
  VObj [("reviews", example_reviews enabled maxReviews)].

Definition example_review (id : string) : value :=
  VObj [("id", VStr id); ("author", VStr "Sam"); ("rating", VNum (Int 5));
        ("date", VStr "2024-01-15"); ("text", VStr "Great"); ("hasPhoto", VBool false)].

Definition example_dataset : file_read :=
  Parsed (VObj [("reviews", VArr [example_review "A"; example_review "B";
                                   example_review "C"])]).

(** The field of a result at a path: [field r ["a"; "b"]] is [r.a.b]. *)
Definition field (r : result value) (path : list string) : result value :=
  v <- r ;; Ok (fold_left get path v).

(** ** Where the loader throws

    One condition per step of [resolve] that can throw, read off the code:
    the document itself must not be null; what stands for
    [trust.certifications] must have a [filter]; what stands for
    [services.items], [value_props.items], [hours.structured] and
    [reviews.pages] must have a [map] and no null entry; and the display
    phone must have a [replace] unless [contact.phone_raw] is given. *)

Definition filterable (v : value) : bool :=
  match v with VArr _ => true | _ => false end.

Definition mappable (v : value) : bool :=
  match v with
  | VArr l => forallb (fun x => negb (nullish x)) l
  | _ => false
  end.

Definition returns_normally (config : value) : bool :=
  (negb (nullish config)
   && filterable (config?."trust"?."certifications" || VArr [])
   && mappable (config?."services"?."items" || VArr [])
   && mappable (config?."value_props"?."items" || VArr [])
   && (truthy config?."contact"?."phone_raw"
       || is_string (config?."contact"?."phone" || config?."contact"?."phone_local"
                     || VStr ""))
   && mappable (config?."hours"?."structured" || VArr [])
   && mappable (config?."reviews"?."pages" || VArr []))%bool%js.

(** A document whose fields are given as [null], and one with a field of the
    wrong type. *)
Definition config_null_fields : value :=
  VObj [("business", VNull);
        ("contact", VObj [("phone", VNull); ("address", VNull)]);
        ("hours", VObj [("detailed", VNull); ("structured", VNull)]);
        ("services", VObj [("items", VArr [VObj [("name", VNull)]])]);
        ("reviews", VObj [("pages", VArr [VObj [("path", VStr "/contact")]]);
                          ("tagged", VNull)])].

Definition config_numeric_name : value :=
  VObj [("business", VObj [("name", VNum (Int 5))])].

Definition config_numeric_phone : value :=
  VObj [("contact", VObj [("phone", VNum (Int 5555550100))])].

(** A tag without pages, as YAML gives for [A:] with nothing after it. *)
Definition config_null_tag : value :=
  VObj [("reviews", VObj [("pages", VArr [VObj [("path", VStr "/contact")]]);
                          ("tagged", VObj [("A", VNull)])])].


(** ** The other exports of the loader ([getFullAddress],
    [getYearsInBusinessText]) *)

Local Open Scope js_scope.

(** [parts.join(sep)]: [null] and [undefined] entries print as nothing. *)
Definition array_join (sep : string) (parts : list value) : string :=
  String.concat sep (map (fun x => if nullish x then "" else ToString x) parts).

Definition getFullAddress (siteConfig : value) : result value :=
  contact <- member siteConfig "contact" ;;
  addr <- member contact "address" ;;
  street <- member addr "street" ;;
  let parts := [street] in
  let parts := if truthy addr?."suite" then (parts ++ [addr?."suite"])%list else parts in
  let parts :=
    (parts ++ [VStr (ToString addr?."city" ++ ", " ++ ToString addr?."state"
                     ++ " " ++ ToString addr?."zip")])%list in
  Ok (VStr (array_join ", " parts)).

Section Years.

Variable StringToNumber : string -> number.

(** [v < n] for a number [n]: both sides go through ToNumber, and a
    comparison with [NaN] is false. *)
Definition js_lt_number (v : value) (n : Z) : bool :=
  match ToNumber StringToNumber v with
  | Int z => z <? n
  | NaN => false
  end.

(** [v === n] for a number [n] *)
Definition strict_eq_number (v : value) (n : Z) : bool :=
  match v with
  | VNum (Int z) => z =? n
  | _ => false
  end.

Definition getYearsInBusinessText (siteConfig : value) : result value :=
  trust <- member siteConfig "trust" ;;
  years <- member trust "yearsInBusiness" ;;
  if js_lt_number years 1 then Ok (VStr "New business")
  else if strict_eq_number years 1 then Ok (VStr "1 year in business")
  else Ok (VStr (ToString years ++ "+ years in business")).

End Years.


(** ** The setup wizard ([SetupWizard])

    The wizard reads lines from the terminal and writes [config.yaml].  Its
    functions are embedded as functions of the lines typed: a prompt takes
    the line it was answered with, and a sequence of prompts takes the list
    of lines still to come. *)

Module Wizard.

(** *** String operations *)

Definition code (c : ascii) : nat := nat_of_ascii c.

(** White space as [trim] and [parseInt] see it, in UTF-8: the ASCII
    characters TAB, LF, VT, FF, CR and SP; U+00A0; U+1680, U+2000..U+200A,
    U+2028, U+2029, U+202F, U+205F, U+3000 and U+FEFF. *)
Definition ascii_space (c : ascii) : bool :=
  existsb (Nat.eqb (code c)) [9; 10; 11; 12; 13; 32]%nat.

Definition space2 (a b : ascii) : bool :=
  ((code a =? 194) && (code b =? 160))%nat%bool.

Definition space3 (a b c : ascii) : bool :=
  (((code a =? 225) && (code b =? 154) && (code c =? 128))
   || ((code a =? 226) && (code b =? 128)
       && (((128 <=? code c) && (code c <=? 138))
           || (code c =? 168) || (code c =? 169) || (code c =? 175)))
   || ((code a =? 226) && (code b =? 129) && (code c =? 159))
   || ((code a =? 227) && (code b =? 128) && (code c =? 128))
   || ((code a =? 239) && (code b =? 187) && (code c =? 191)))%nat%bool.

(** Drop the white space a string starts with.  With [backwards] the string
    is a reversed one, in which the bytes of a character come last first. *)
Fixpoint strip_spaces (backwards : bool) (s : string) : string :=
  match s with
  | String c1 r1 =>
      if ascii_space c1 then strip_spaces backwards r1 else
      match r1 with
      | String c2 r2 =>
          if (if backwards then space2 c2 c1 else space2 c1 c2)
          then strip_spaces backwards r2 else
          match r2 with
          | String c3 r3 =>
              if (if backwards then space3 c3 c2 c1 else space3 c1 c2 c3)
              then strip_spaces backwards r3 else s
          | EmptyString => s
          end
      | EmptyString => s
      end
  | EmptyString => s
  end.

Definition reverse (s : string) : string :=
  string_of_list_ascii (rev (list_ascii_of_string s)).

Definition trimStart (s : string) : string := strip_spaces false s.
Definition trimEnd (s : string) : string := reverse (strip_spaces true (reverse s)).

(** [s.trim()] *)
Definition trim (s : string) : string := trimEnd (trimStart s).

(** [s.toLowerCase()] on the letters A..Z.  (The wizard lower-cases an answer
    only to test whether it starts with y; no character outside ASCII
    lower-cases to y.) *)
Definition lower (c : ascii) : ascii :=
  if ((65 <=? code c) && (code c <=? 90))%nat%bool then ascii_of_nat (code c + 32) else c.

Fixpoint toLowerCase (s : string) : string :=
  match s with
  | EmptyString => EmptyString
  | String c rest => String (lower c) (toLowerCase rest)
  end.

Fixpoint drop (n : nat) (s : string) : string :=
  match n, s with
  | S n', String _ rest => drop n' rest
  | _, _ => s
  end.

(** [s.replace(pattern, '')] for a string pattern: the first occurrence goes. *)
Fixpoint remove_first (pattern s : string) : string :=
  if String.prefix pattern s then drop (String.length pattern) s
  else match s with
       | EmptyString => EmptyString
       | String c rest => String c (remove_first pattern rest)
       end.

(** A method that only strings have, called on a value. *)
Definition string_method {A : Type} (f : string -> A) (v : value) : result A :=
  match v with
  | VStr s => Ok (f s)
  | _ => Throw TypeError
  end.

(** *** [parseInt] *)

Definition digit_value (radix : Z) (c : ascii) : option Z :=
  let n := Z.of_nat (code c) in
  let d := if ((48 <=? n) && (n <=? 57))%bool then Some (n - 48)
           else if ((97 <=? n) && (n <=? 122))%bool then Some (n - 87)
           else if ((65 <=? n) && (n <=? 90))%bool then Some (n - 55)
           else None in
  match d with
  | Some x => if x <? radix then Some x else None
  | None => None
  end.

(** The value of the longest prefix of digits; [None] when there is none. *)
Fixpoint digits_prefix (radix : Z) (acc : option Z) (s : string) : option Z :=
  match s with
  | EmptyString => acc
  | String c rest =>
      match digit_value radix c with
      | Some d =>
          digits_prefix radix
            (Some (radix * match acc with Some a => a | None => 0 end + d)) rest
      | None => acc
      end
  end.

(** [parseInt(input)]: leading white space, a sign, [0x] or [0X] for
    hexadecimal, then the digits up to the first character that is none.
    (The result is the exact integer: the rounding that JavaScript applies
    to a numeral beyond 2^53 is outside the model.) *)
Definition parseInt (input : string) : number :=
  let s := trimStart input in
  let '(sign, s) :=
    match s with
    | String "-"%char rest => (-1, rest)
    | String "+"%char rest => (1, rest)
    | _ => (1, s)
    end in
  let '(radix, s) :=
    match s with
    | String "0"%char (String "x"%char rest) => (16, rest)
    | String "0"%char (String "X"%char rest) => (16, rest)
    | _ => (10, s)
    end in
  match digits_prefix radix None s with
  | Some z => Int (sign * z)
  | None => NaN
  end.

(** *** The prompts, as functions of the line typed *)

(** The hint that [prompt] builds before it asks,
    [defaultValue ? ` (${defaultValue})` : ''] (without its colour codes): a
    truthy default is converted to a string, which can throw. *)
Definition hint (defaultValue : value) : result string :=
  if truthy defaultValue
  then shown <- to_string defaultValue ;; Ok (" (" ++ shown ++ ")")
  else Ok "".

(** What [prompt] resolves to, once it has asked:
    [answer.trim() || defaultValue] *)
Definition prompt (answer : string) (defaultValue : value) : value :=
  VStr (trim answer) || defaultValue.

(** A default that [prompt] can show: the hint does not throw. *)
Definition presentable (defaultValue : value) : bool :=
  converts defaultValue || negb (truthy defaultValue).

(** [promptYesNo] and [promptChoice] ask with a string as the default (the
    empty one, and [String(defaultIndex + 1)]), of which the hint cannot
    throw. *)
Definition promptYesNo (line : string) (defaultYes : bool) : result bool :=
  let answer := prompt line (VStr "") in
  if strict_eq_str answer "" then Ok defaultYes
  else
    lowered <- string_method toLowerCase answer ;;
    Ok (String.prefix "y" lowered).

(** [choices[index]] *)
Definition element (choices : list string) (index : number) : value :=
  match index with
  | Int i =>
      if i <? 0 then VUndefined
      else match nth_error choices (Z.to_nat i) with
           | Some c => VStr c
           | None => VUndefined
           end
  | NaN => VUndefined
  end.

Definition promptChoice (choices : list string) (defaultIndex : Z) (line : string)
  : value :=
  let answer := prompt line (VStr (string_of_Z (defaultIndex + 1))) in
  let index :=
    match parseInt (ToString answer) with
    | Int z => Int (z - 1)
    | NaN => NaN
    end in
  element choices index || element choices (Int defaultIndex).


(** *** [SetupData]

    The fields hold values: what the site crawl found is copied into them
    unchecked. *)

Record BusinessData : Type :=
  { name : value; legalName : value; tagline : value; description : value;
    yearFounded : value; industry : value }.

Record SiteData : Type := { url : value; locale : value; timezone : value }.

Record AddressData : Type :=
  { street : value; suite : value; city : value; state : value; zip : value;
    country : value }.

Record ContactData : Type :=
  { email : value; phone : value; phoneRaw : value; address : AddressData;
    serviceArea : value }.

Record SocialData : Type :=
  { facebook : value; instagram : value; twitter : value; linkedin : value;
    youtube : value; yelp : value; googleBusiness : value }.

Record BrandingData : Type :=
  { primaryColor : value; secondaryColor : value; accentColor : value }.

Record CtaData : Type := { primaryText : value; primaryUrl : value }.

Record SetupData : Type :=
  { business : BusinessData; site : SiteData; contact : ContactData;
    social : SocialData; branding : BrandingData; cta : CtaData }.

(** What [extractFromWebsite] returns: a [Partial<SetupData>] with these four
    parts. *)
Record Extracted : Type :=
  { ex_business : BusinessData; ex_contact : ContactData; ex_social : SocialData;
    ex_branding : BrandingData }.

(** *** A run of prompts

    [Done a rest]: finished with [a], the lines [rest] not read;
    [Failed f]: an exception ended the wizard; [Starved]: a prompt found no
    line to read, and the wizard never goes on. *)

Inductive failure : Type :=
| NoTemplate            (* Error('No config template found') *)
| Raised (e : exn).

Inductive outcome (A : Type) : Type :=
| Done (a : A) (rest : list string)
| Failed (f : failure)
| Starved.
Arguments Done {A} a rest.
Arguments Failed {A} f.
Arguments Starved {A}.

Definition wizard (A : Type) : Type := list string -> outcome A.

Definition ret {A : Type} (a : A) : wizard A := fun input => Done a input.

Definition then_ {A B : Type} (w : wizard A) (k : A -> wizard B) : wizard B :=
  fun input =>
    match w input with
    | Done a rest => k a rest
    | Failed f => Failed f
    | Starved => Starved
    end.

Notation "x <~ w ;; k" := (then_ w (fun x => k))
  (at level 61, w at next level, right associativity).

Definition lift {A : Type} (r : result A) : wizard A :=
  fun input =>
    match r with
    | Ok a => Done a input
    | Throw e => Failed (Raised e)
    end.

(** [await this.prompt(question, defaultValue)]: the hint is built first,
    then the line is read. *)
Definition ask (defaultValue : value) : wizard value :=
  fun input =>
    match hint defaultValue with
    | Throw e => Failed (Raised e)
    | Ok _ =>
        match input with
        | [] => Starved
        | line :: rest => Done (prompt line defaultValue) rest
        end
    end.

(** [await this.promptYesNo(question, defaultYes)] *)
Definition askYesNo (defaultYes : bool) : wizard bool :=
  fun input =>
    match input with
    | [] => Starved
    | line :: rest => lift (promptYesNo line defaultYes) rest
    end.

(** [await this.promptChoice(question, choices, defaultIndex)] *)
Definition askChoice (choices : list string) (defaultIndex : Z) : wizard value :=
  fun input =>
    match input with
    | [] => Starved
    | line :: rest => Done (promptChoice choices defaultIndex line) rest
    end.

Section Run.

(** [new Date().getFullYear()] *)
Variable currentYear : Z.

Definition defaults : SetupData :=
  {| business :=
       {| name := VStr "Acme Corp"; legalName := VStr "";
          tagline := VStr "Quality Solutions for Your Business"; description := VStr "";
          yearFounded := VNum (Int currentYear); industry := VStr "general" |};
     site :=
       {| url := VStr "https://acme.com"; locale := VStr "en-US";
          timezone := VStr "America/New_York" |};
     contact :=
       {| email := VStr "hello@acme.com"; phone := VStr "(555) 555-0100";
          phoneRaw := VStr "+15555550100";
          address :=
            {| street := VStr "123 Main Street"; suite := VStr "";
               city := VStr "Springfield"; state := VStr "ST"; zip := VStr "12345";
               country := VStr "USA" |};
          serviceArea := VStr "" |};
     social :=
       {| facebook := VStr ""; instagram := VStr ""; twitter := VStr "";
          linkedin := VStr ""; youtube := VStr ""; yelp := VStr "";
          googleBusiness := VStr "" |};
     branding :=
       {| primaryColor := VStr "#2563eb"; secondaryColor := VStr "#1e40af";
          accentColor := VStr "#f59e0b" |};
     cta := {| primaryText := VStr "Get Started"; primaryUrl := VStr "/contact" |} |}.

(** *** [extractFromWebsite]

    [crawl] is what running the crawler and reading its output file came to:
    [Missing] when the crawler is not installed, failed, left no file, or left
    one that could not be read or removed.  The lines that show the name, the
    phone, the e-mail address and the primary colour found are printed inside
    the [try]: one of them that cannot be converted to a string makes the
    extraction return [null]. *)

(** [if (v) this.print(`  ... ${v}`)]: a truthy value is converted to a
    string for the line printed. *)
Definition printed (v : value) : result unit :=
  if truthy v then line <- to_string v ;; Ok tt else Ok tt.

Definition mapExtracted (extracted : value) : result Extracted :=
  if nullish extracted then Throw TypeError else
  let mapped :=
     {| ex_business :=
          {| name := extracted?."business"?."name" || VStr "";
             legalName := extracted?."business"?."name" || VStr "";
             tagline := extracted?."business"?."tagline" || VStr "";
             description := extracted?."business"?."description" || VStr "";
             yearFounded := extracted?."business"?."year_founded" || VNum (Int currentYear);
             industry := VStr "general" |};
        ex_contact :=
          {| email := extracted?."contact"?."email" || VStr "";
             phone := extracted?."contact"?."phone" || VStr "";
             phoneRaw := extracted?."contact"?."phone_raw" || VStr "";
             address :=
               {| street := extracted?."contact"?."address"?."street" || VStr "";
                  suite := VStr "";
                  city := extracted?."contact"?."address"?."city" || VStr "";
                  state := extracted?."contact"?."address"?."state" || VStr "";
                  zip := extracted?."contact"?."address"?."zip" || VStr "";
                  country := extracted?."contact"?."address"?."country" || VStr "USA" |};
             serviceArea := VStr "" |};
        ex_social :=
          {| facebook := extracted?."social"?."facebook" || VStr "";
             instagram := extracted?."social"?."instagram" || VStr "";
             twitter := extracted?."social"?."twitter" || VStr "";
             linkedin := extracted?."social"?."linkedin" || VStr "";
             youtube := extracted?."social"?."youtube" || VStr "";
             yelp := extracted?."social"?."yelp" || VStr "";
             googleBusiness := extracted?."social"?."google_business" || VStr "" |};
        ex_branding :=
          {| primaryColor := extracted?."colors"?."primary" || VStr "#2563eb";
             secondaryColor := extracted?."colors"?."secondary" || VStr "#1e40af";
             accentColor := extracted?."colors"?."accent" || VStr "#f59e0b" |} |} in
  (* "Show what was found" *)
  _ <- printed (name (ex_business mapped)) ;;
  _ <- printed (phone (ex_contact mapped)) ;;
  _ <- printed (email (ex_contact mapped)) ;;
  _ <- printed (primaryColor (ex_branding mapped)) ;;
  Ok mapped.

Definition extractFromWebsite (crawl : file_read) : option Extracted :=
  try_catch
    (extracted <- read_parse crawl ;;
     mapped <- mapExtracted extracted ;;
     Ok (Some mapped))
    None.

(** The merge in [run].  Each of the four parts that [extractFromWebsite]
    returns has every key of the part it is spread over, so the spread takes
    the extracted part whole; [site] and [cta] are not among them. *)
Definition merge (data : SetupData) (extracted : Extracted) : SetupData :=
  {| business := ex_business extracted;
     site := site data;
     contact := ex_contact extracted;
     social := ex_social extracted;
     branding := ex_branding extracted;
     cta := cta data |}.

(** *** The questions *)

Definition industries : list string :=
  ["general"; "plumbing"; "hvac"; "electrical"; "landscaping"; "construction";
   "cleaning"; "other"].

Definition collectBusinessInfo (data : SetupData) : wizard SetupData :=
  let b := business data in
  name' <~ ask (name b) ;;
  legalName' <~ ask name' ;;
  tagline' <~ ask (tagline b) ;;
  descriptionDefault <~ lift (if truthy (description b) then Ok (description b)
                              else
                                printed <- to_string name' ;;
                                Ok (VStr (printed
                                          ++ " provides professional services and solutions."))) ;;
  description' <~ ask descriptionDefault ;;
  yearDefault <~ lift (to_string (yearFounded b)) ;;
  yearInput <~ ask (VStr yearDefault) ;;
  let yearFounded' := VNum (parseInt (ToString yearInput)) || VNum (Int currentYear) in
  industry' <~ askChoice industries 0 ;;
  ret {| business :=
           {| name := name'; legalName := legalName'; tagline := tagline';
              description := description'; yearFounded := yearFounded';
              industry := industry' |};
         site := site data; contact := contact data; social := social data;
         branding := branding data; cta := cta data |}.

Definition collectSiteInfo (data : SetupData) : wizard SetupData :=
  shown <~ lift (without_https <- string_method (remove_first "https://") (url (site data)) ;;
                 Ok (VStr (remove_first "http://" without_https))) ;;
  domain <~ ask shown ;;
  is_http <~ lift (string_method (String.prefix "http") domain) ;;
  let domain := if is_http then domain else VStr ("https://" ++ ToString domain) in
  ret {| business := business data;
         site := {| url := domain; locale := locale (site data);
                    timezone := timezone (site data) |};
         contact := contact data; social := social data; branding := branding data;
         cta := cta data |}.

Definition collectContactInfo (data : SetupData) : wizard SetupData :=
  let c := contact data in
  let a := address c in
  email' <~ ask (email c) ;;
  phone' <~ ask (phone c) ;;
  digits <~ lift (replace_non_digits phone') ;;
  let phoneRaw' := VStr ("+1" ++ ToString digits) in
  street' <~ ask (street a) ;;
  address' <~ (if truthy street'
               then
                 suite' <~ ask (VStr "") ;;
                 city' <~ ask (city a) ;;
                 state' <~ ask (state a) ;;
                 zip' <~ ask (zip a) ;;
                 ret {| street := street'; suite := suite'; city := city';
                        state := state'; zip := zip'; country := country a |}
               else
                 ret {| street := street'; suite := suite a; city := city a;
                        state := state a; zip := zip a; country := country a |}) ;;
  serviceArea' <~ ask (VStr "") ;;
  ret {| business := business data; site := site data;
         contact := {| email := email'; phone := phone'; phoneRaw := phoneRaw';
                       address := address'; serviceArea := serviceArea' |};
         social := social data; branding := branding data; cta := cta data |}.

Definition collectSocialMedia (data : SetupData) : wizard SetupData :=
  let s := social data in
  facebook' <~ ask (facebook s) ;;
  instagram' <~ ask (instagram s) ;;
  linkedin' <~ ask (linkedin s) ;;
  yelp' <~ ask (yelp s) ;;
  googleBusiness' <~ ask (googleBusiness s) ;;
  ret {| business := business data; site := site data; contact := contact data;
         social := {| facebook := facebook'; instagram := instagram';
                      twitter := twitter s; linkedin := linkedin';
                      youtube := youtube s; yelp := yelp';
                      googleBusiness := googleBusiness' |};
         branding := branding data; cta := cta data |}.

Definition colorPreset (primary secondary accent : string) : value :=
  VObj [("primary", VStr primary); ("secondary", VStr secondary); ("accent", VStr accent)].

Definition colorPresets : list (string * value) :=
  [ ("Blue (Professional)", colorPreset "#2563eb" "#1e40af" "#f59e0b");
    ("Green (Nature/Health)", colorPreset "#059669" "#047857" "#f59e0b");
    ("Red (Bold/Urgent)", colorPreset "#dc2626" "#b91c1c" "#fbbf24");
    ("Purple (Creative)", colorPreset "#7c3aed" "#6d28d9" "#f59e0b");
    ("Orange (Energetic)", colorPreset "#ea580c" "#c2410c" "#2563eb");
    ("Custom colors", colorPreset "" "" "") ].

Definition collectBranding (data : SetupData) : wizard SetupData :=
  let b := branding data in
  choice <~ askChoice (map fst colorPresets) 0 ;;
  let preset := lookup (ToString choice) colorPresets in
  primary <~ lift (member preset "primary") ;;
  branding' <~ (if truthy primary
                then ret {| primaryColor := primary; secondaryColor := preset?."secondary";
                            accentColor := preset?."accent" |}
                else
                  primaryColor' <~ ask (primaryColor b) ;;
                  secondaryColor' <~ ask (secondaryColor b) ;;
                  accentColor' <~ ask (accentColor b) ;;
                  ret {| primaryColor := primaryColor'; secondaryColor := secondaryColor';
                         accentColor := accentColor' |}) ;;
  ret {| business := business data; site := site data; contact := contact data;
         social := social data; branding := branding'; cta := cta data |}.

Definition ctaOptions : list string :=
  ["Get Started"; "Get a Free Quote"; "Contact Us"; "Schedule Consultation"; "Call Now";
   "Custom text"].

Definition collectCTA (data : SetupData) : wizard SetupData :=
  choice <~ askChoice ctaOptions 0 ;;
  primaryText' <~ (if strict_eq_str choice "Custom text"
                   then ask (VStr "Get Started")
                   else ret choice) ;;
  tel <~ lift (to_string (phoneRaw (contact data))) ;;
  mailto <~ lift (to_string (email (contact data))) ;;
  let urlOptions := ["/contact"; "tel:" ++ tel; "mailto:" ++ mailto] in
  primaryUrl' <~ askChoice urlOptions 0 ;;
  ret {| business := business data; site := site data; contact := contact data;
         social := social data; branding := branding data;
         cta := {| primaryText := primaryText'; primaryUrl := primaryUrl' |} |}.


(** *** [generateConfig] *)

Fixpoint update (k : string) (x : value) (props : list (string * value))
  : list (string * value) :=
  match props with
  | [] => [(k, x)]
  | (k', v) :: rest =>
      if (k =? k')%string then (k, x) :: rest else (k', v) :: update k x rest
  end.

(** [v.k = x] in strict code (a class body is strict).  An object takes the
    property, in place if it has the key and at the end if not; [null],
    [undefined] and a primitive throw; an array takes it beside its
    elements, where [YAML.stringify] does not look. *)
Definition set_prop (v : value) (k : string) (x : value) : result value :=
  match v with
  | VObj props => Ok (VObj (update k x props))
  | VArr l => Ok (VArr l)
  | _ => Throw TypeError
  end.

(** The values that take a property: [v.k = x] does not throw on them. *)
Definition takes_properties (v : value) : bool :=
  match v with
  | VObj _ | VArr _ => true
  | _ => false
  end.

(** [config.section.k = x]: the section is changed where it stands.  (The
    template is a tree: no YAML alias makes one object of two sections.) *)
Definition set_in (config : value) (section k : string) (x : value) : result value :=
  s <- member config section ;;
  s' <- set_prop s k x ;;
  set_prop config section s'.

(** The template: [config.example.yaml] if it exists, else [config.yaml]. *)
Definition readTemplate (example existing : file_read) : wizard value :=
  fun input =>
    match example, existing with
    | Missing, Missing => Failed NoTemplate
    | Missing, _ => lift (read_parse existing) input
    | _, _ => lift (read_parse example) input
    end.

(** The tree that [generateConfig] hands to [YAML.stringify].  Its template
    literals convert the name and the tagline to strings, and its [+] the raw
    phone: in [run] the name and the tagline have been through a prompt,
    which has converted them for its hint or put a string in their place, and
    the raw phone is a string, so that these conversions return. *)
Definition generateConfig (data : SetupData) (config : value) : result value :=
  let b := business data in
  let c := contact data in
  let a := address c in
  let s := social data in
  config <- set_prop config "business"
              (VObj [("name", name b); ("legal_name", legalName b);
                     ("tagline", tagline b); ("description", description b);
                     ("year_founded", yearFounded b); ("industry", industry b)]) ;;
  config <- set_prop config "site"
              (VObj [("url", url (site data)); ("locale", locale (site data));
                     ("timezone", timezone (site data));
                     ("default_og_image", VStr "/images/og-image.png")]) ;;
  config <- set_prop config "contact"
              (VObj [("email", email c); ("phone", phone c); ("phone_raw", phoneRaw c);
                     ("address",
                      VObj [("street", street a); ("suite", suite a); ("city", city a);
                            ("state", state a); ("zip", zip a); ("country", country a)]);
                     ("service_area", serviceArea c)]) ;;
  config <- set_prop config "social"
              (VObj [("facebook", facebook s); ("instagram", instagram s);
                     ("twitter", twitter s); ("linkedin", linkedin s);
                     ("youtube", youtube s); ("yelp", yelp s);
                     ("google_business", googleBusiness s); ("tiktok", VStr "");
                     ("pinterest", VStr ""); ("nextdoor", VStr ""); ("bbb", VStr "");
                     ("whatsapp", VStr "")]) ;;
  config <- set_in config "branding" "colors"
              (VObj [("primary", primaryColor (branding data));
                     ("primary_dark", secondaryColor (branding data));
                     ("secondary", VStr "#64748b");
                     ("accent", accentColor (branding data));
                     ("text", VStr "#1f2937"); ("text_light", VStr "#6b7280");
                     ("background", VStr "#ffffff"); ("surface", VStr "#f9fafb")]) ;;
  config <- set_prop config "cta"
              (VObj [("primary",
                      VObj [("text", primaryText (cta data));
                            ("url", primaryUrl (cta data))]);
                     ("secondary",
                      VObj [("text", VStr "Call Now");
                            ("url", VStr ("tel:" ++ ToString (phoneRaw c)))]);
                     ("urgency", VStr "")]) ;;
  config <- set_in config "contact_form" "recipient_email" (email c) ;;
  config <- set_in config "contact_form" "subject_prefix"
              (VStr ("[" ++ ToString (name b) ++ " Contact]")) ;;
  without_https <- string_method (remove_first "https://") (url (site data)) ;;
  config <- set_in config "email" "from_email"
              (VStr (ToString (name b) ++ " <noreply@"
                     ++ remove_first "http://" without_https ++ ">")) ;;
  config <- set_in config "email" "reply_to" (email c) ;;
  config <- set_in config "seo" "title_template" (VStr ("%s | " ++ ToString (name b))) ;;
  config <- set_in config "seo" "default_title"
              (VStr (ToString (name b) ++ " - " ++ ToString (tagline b))) ;;
  config <- set_in config "legal" "copyright_holder" (name b) ;;
  set_in config "legal" "privacy_email" (email c).

(** The sections that [generateConfig] assigns into, where it replaces the
    others whole. *)
Definition patched_sections : list string :=
  ["branding"; "contact_form"; "email"; "seo"; "legal"].

(** A template with room for these assignments: a mapping in which each of
    the sections takes a property. *)
Definition usable_template (template : value) : bool :=
  is_object template
  && forallb (fun s => takes_properties template?.s) patched_sections.

(** *** [run], up to the writing of [config.yaml]

    [crawl url] is what the site crawl of [url] came to; [example] and
    [existing] are the states of [config.example.yaml] and [config.yaml].
    The result is the collected data and the tree written to [config.yaml];
    the steps after it (logo, favicon, blog post, [astro.config.mjs]) write
    other files. *)
Definition run (crawl : string -> file_read) (example existing : file_read)
  : wizard (SetupData * value) :=
  hasExistingSite <~ askYesNo false ;;
  data <~ (if hasExistingSite : bool
           then
             existingUrl <~ ask (VStr "") ;;
             if truthy existingUrl
             then match extractFromWebsite (crawl (ToString existingUrl)) with
                  | Some extracted => ret (merge defaults extracted)
                  | None => ret defaults
                  end
             else ret defaults
           else ret defaults) ;;
  data <~ collectBusinessInfo data ;;
  data <~ collectSiteInfo data ;;
  data <~ collectContactInfo data ;;
  data <~ collectSocialMedia data ;;
  data <~ collectBranding data ;;
  data <~ collectCTA data ;;
  template <~ readTemplate example existing ;;
  config <~ lift (generateConfig data template) ;;
  ret (data, config).

End Run.

End Wizard.

(** ** Worked inputs for the wizard *)

(** A template with the five sections the wizard assigns into, and two
    sections of its own. *)
Definition example_template : value :=
  VObj
    [ ("branding", VObj [("style", VStr "modern")]);
      ("contact_form", VObj [("enabled", VBool true)]);
      ("email", VObj []);
      ("seo", VObj [("keywords", VArr [VStr "plumbing"])]);
      ("legal", VObj []);
      ("services", VObj [("headline", VStr "What we do")]);
      ("hours", VObj [("monday", VStr "9-5")]) ].

(** The answers of a user who declines the crawl and then presses Enter at
    each of the 23 questions that follow. *)
Definition all_defaults : list string := "n" :: repeat ""%string 23.

(** The data after a crawl that found the phone as a number (and nothing
    else). *)
Definition crawled_numeric_phone : Wizard.SetupData :=
  match Wizard.extractFromWebsite 2026
          (Parsed (VObj [("contact", VObj [("phone", VNum (Int 5550134))])])) with
  | Some extracted => Wizard.merge (Wizard.defaults 2026) extracted
  | None => Wizard.defaults 2026
  end.

(** A mapping with an entry [toString], which no conversion to a string
    gets past. *)
Definition unshowable : value := VObj [("toString", VNum (Int 1))].

(** The data after a crawl that returned [from]. *)
Definition crawled (from : value) : Wizard.SetupData :=
  match Wizard.extractFromWebsite 2026 (Parsed from) with
  | Some extracted => Wizard.merge (Wizard.defaults 2026) extracted
  | None => Wizard.defaults 2026
  end.

(** The defaults with another phone on file. *)
Definition with_phone (phone : value) : Wizard.SetupData :=
  let d := Wizard.defaults 2026 in
  let c := Wizard.contact d in
  {| Wizard.business := Wizard.business d;
     Wizard.site := Wizard.site d;
     Wizard.contact :=
       {| Wizard.email := Wizard.email c; Wizard.phone := phone;
          Wizard.phoneRaw := Wizard.phoneRaw c; Wizard.address := Wizard.address c;
          Wizard.serviceArea := Wizard.serviceArea c |};
     Wizard.social := Wizard.social d;
     Wizard.branding := Wizard.branding d;
     Wizard.cta := Wizard.cta d |}.

(** * Properties *)

(** ** The operators *)

Local Open Scope js_scope.

Lemma truthy_not_nullish (v : value) : truthy v = true -> nullish v = false.
Proof. destruct v; simpl; congruence. Qed.

Lemma nullish_get (v : value) (k : string) : nullish v = true -> v?.k = VUndefined.
Proof. destruct v; simpl; congruence. Qed.

Lemma or_truthy (a b : value) : truthy a = true -> a || b = a.
Proof. unfold js_or; intros ->; reflexivity. Qed.

Lemma or_falsy (a b : value) : truthy a = false -> a || b = b.
Proof. unfold js_or; intros ->; reflexivity. Qed.

Lemma bind_ok {A B : Type} (r : result A) (k : A -> result B) (b : B) :
  bind r k = Ok b -> exists a, r = Ok a /\ k a = Ok b.
Proof. destruct r; simpl; [eauto | discriminate]. Qed.

(** ** Typing of the operators *)

Lemma has_type_opt_inv (t : ty) (v : value) :
  has_type (TOpt t) v = true -> nullish v = false -> has_type t v = true.
Proof. simpl; intros H Hn; rewrite Hn in H; exact H. Qed.

Lemma or_typed (t : ty) (a b : value) :
  has_type (TOpt t) a = true -> has_type t b = true -> has_type t (a || b) = true.
Proof.
  intros Ha Hb; unfold js_or; destruct (truthy a) eqn:E; [|exact Hb].
  apply has_type_opt_inv; [exact Ha | now apply truthy_not_nullish].
Qed.

Lemma or_typed_opt (t : ty) (a b : value) :
  has_type (TOpt t) a = true -> has_type (TOpt t) b = true ->
  has_type (TOpt t) (a || b) = true.
Proof. intros Ha Hb; unfold js_or; destruct (truthy a); assumption. Qed.

Lemma coalesce_typed (t : ty) (a b : value) :
  has_type (TOpt t) a = true -> has_type t b = true -> has_type t (a ?? b) = true.
Proof.
  intros Ha Hb; unfold js_coalesce; destruct (nullish a) eqn:E; [exact Hb|].
  now apply has_type_opt_inv.
Qed.

Lemma has_type_object (fields : list (string * ty)) (v : value) :
  has_type (TObject fields) v = true <->
  is_object v = true /\ forall k t, In (k, t) fields -> has_type t v?.k = true.
Proof.
  simpl; rewrite andb_true_iff.
  apply and_iff_compat_l.
  induction fields as [|[k t] rest IH].
  - split; [intros _ ? ? [] | reflexivity].
  - rewrite andb_true_iff, IH; split.
    + intros [H1 H2] k' t' [E|Hin]; [inversion E; subst; exact H1 | now apply H2].
    + intros H; split; [apply H; now left | intros k' t' Hin; apply H; now right].
Qed.

Lemma field_ty_In (k : string) (fields : list (string * ty)) (t : ty) :
  field_ty k fields = Some t -> In (k, t) fields.
Proof.
  induction fields as [|[k' t'] rest IH]; simpl; [discriminate|].
  destruct (String.eqb_spec k k') as [->|_].
  - intros E; inversion E; now left.
  - intros E; right; now apply IH.
Qed.

(** Reading a declared field of an object of a declared shape. *)
Lemma get_field (fields : list (string * ty)) (v : value) (k : string) (t : ty) :
  has_type (TObject fields) v = true -> field_ty k fields = Some t ->
  has_type t v?.k = true.
Proof.
  intros H E; apply has_type_object in H; apply H; now apply field_ty_In.
Qed.

(** Reading an optional field through [?.]. *)
Lemma get_opt_field (fields : list (string * ty)) (v : value) (k : string) (t : ty) :
  has_type (TOpt (TObject fields)) v = true -> field_ty k fields = Some t ->
  is_opt t = true -> has_type t v?.k = true.
Proof.
  intros H E Ho; destruct (nullish v) eqn:Hn.
  - rewrite nullish_get by exact Hn; destruct t; try discriminate; reflexivity.
  - eapply get_field; [apply has_type_opt_inv; eassumption | exact E].
Qed.

Lemma lines_up_key (fields : list (string * ty)) (props : list (string * value))
      (k : string) (t : ty) :
  Forall2 lines_up fields props -> In (k, t) fields ->
  existsb (String.eqb k) (map fst props) = true.
Proof.
  induction 1 as [|[k1 t1] [k1' v1] fs ps [Hk _] _ IH]; simpl; [intros []|].
  simpl in Hk; subst k1'; intros [E|Hin].
  - inversion E; subst; now rewrite String.eqb_refl.
  - rewrite IH by exact Hin; apply orb_true_r.
Qed.

(** An object literal whose properties line up with the declared fields. *)
Lemma object_literal (fields : list (string * ty)) (props : list (string * value)) :
  Forall2 lines_up fields props ->
  distinct (map fst props) = true ->
  has_type (TObject fields) (VObj props) = true.
Proof.
  intros H D; apply has_type_object; split; [reflexivity|].
  simpl; induction H as [|[k t] [k' v] fs ps [Hk Hv] Hrest IH]; [intros ? ? []|].
  simpl in *; subst k'; apply andb_true_iff in D as [D1 D2].
  apply negb_true_iff in D1.
  intros k0 t0 [E|Hin].
  - inversion E; subst; rewrite String.eqb_refl; exact Hv.
  - destruct (String.eqb_spec k0 k) as [->|_]; [|now apply IH].
    rewrite (lines_up_key _ _ _ _ Hrest Hin) in D1; discriminate.
Qed.

Lemma filter_truthy_typed (t : ty) (l : list value) :
  forallb (has_type (TOpt t)) l = true ->
  forallb (has_type t) (filter truthy l) = true.
Proof.
  induction l as [|x l IH]; simpl; [reflexivity|].
  rewrite andb_true_iff; intros [Hx Hl].
  destruct (truthy x) eqn:E; simpl; [|now apply IH].
  rewrite IH by exact Hl; rewrite andb_true_r.
  destruct (nullish x) eqn:N; [|exact Hx].
  apply truthy_not_nullish in E; congruence.
Qed.

Lemma mapM_typed (f : value -> result value) (tin tout : ty) (l : list value) :
  (forall x, has_type tin x = true ->
             exists y, f x = Ok y /\ has_type tout y = true) ->
  forallb (has_type tin) l = true ->
  exists l', mapM f l = Ok l' /\ forallb (has_type tout) l' = true.
Proof.
  intros Hf; induction l as [|x l IH]; simpl.
  - intros _; exists []; split; reflexivity.
  - rewrite andb_true_iff; intros [Hx Hl].
    destruct (Hf x Hx) as (y & -> & Hy), (IH Hl) as (l' & -> & Hl'); simpl.
    exists (y :: l'); split; [reflexivity|]; simpl; now rewrite Hy, Hl'.
Qed.

Lemma array_map_typed (f : value -> result value) (tin tout : ty) (v : value) :
  (forall x, has_type tin x = true ->
             exists y, f x = Ok y /\ has_type tout y = true) ->
  has_type (TArray tin) v = true ->
  exists out, array_map f v = Ok out /\ has_type (TArray tout) out = true.
Proof.
  intros Hf Hv; destruct v; try discriminate; simpl in Hv |- *.
  destruct (mapM_typed f tin tout items Hf Hv) as (l' & -> & Hl'); simpl.
  exists (VArr l'); split; [reflexivity | exact Hl'].
Qed.

Lemma reads_object (v body : value) : is_object v = true -> reads v body = Ok body.
Proof. destruct v; try discriminate; reflexivity. Qed.

(** Typing a field read, an operator application, a literal. *)
Ltac raw H :=
  lazymatch goal with
  | |- has_type _ (get (get _ _) _) = true =>
      eapply get_opt_field; [raw H | reflexivity | reflexivity]
  | |- has_type _ (get _ _) = true =>
      eapply get_field; [exact H | reflexivity]
  end.

Ltac typed H :=
  first
    [ assumption
    | lazymatch goal with
      | |- has_type (TOpt _) (_ || _) = true => apply or_typed_opt; typed H
      | |- has_type _ (_ || _) = true => apply or_typed; typed H
      | |- has_type _ (_ ?? _) = true => apply coalesce_typed; typed H
      | |- has_type _ (get _ _) = true => raw H
      | |- has_type _ (VObj (_ :: _)) = true =>
          apply object_literal;
          [ repeat first
              [ apply Forall2_nil
              | apply Forall2_cons; [split; [reflexivity | cbn [fst snd]; typed H] | ] ]
          | reflexivity ]
      | |- _ => reflexivity
      end ].

(** ** The loader is total and type-correct on inputs of the declared shape *)

Section Typing.

Variable StringToNumber : string -> number.
Variable currentYear : Z.
Variable config : value.
Hypothesis Hraw : has_type RawConfigTy config = true.

Lemma js_sub_typed (a b : value) : has_type TNumber (js_sub StringToNumber a b) = true.
Proof.
  unfold js_sub; destruct (ToNumber StringToNumber a), (ToNumber StringToNumber b);
    reflexivity.
Qed.

Lemma yearFounded_typed : has_type TNumber (yearFounded currentYear config) = true.
Proof. unfold yearFounded; typed Hraw. Qed.

Lemma business_typed : has_type BusinessTy (business currentYear config) = true.
Proof. pose proof yearFounded_typed; unfold business, BusinessTy; typed Hraw. Qed.

Lemma business_name_typed : has_type TString (business currentYear config)?."name" = true.
Proof. eapply get_field; [apply business_typed | reflexivity]. Qed.

Lemma business_description_typed :
  has_type TString (business currentYear config)?."description" = true.
Proof. eapply get_field; [apply business_typed | reflexivity]. Qed.

Lemma branding_typed : has_type BrandingTy (branding config) = true.
Proof. unfold branding, BrandingTy; typed Hraw. Qed.

Lemma certifications_typed :
  exists v, certifications config = Ok v /\ has_type (TArray TString) v = true.
Proof.
  unfold certifications.
  assert (H : has_type (TArray OptString) (config?."trust"?."certifications" || VArr []) = true)
    by typed Hraw.
  destruct (config?."trust"?."certifications" || VArr []); try discriminate.
  eexists; split; [reflexivity|]; now apply filter_truthy_typed.
Qed.

Lemma trust_typed :
  exists v, trust StringToNumber currentYear config = Ok v /\ has_type TrustTy v = true.
Proof.
  unfold trust; destruct certifications_typed as (certs & -> & Hc); cbn [bind].
  eexists; split; [reflexivity|].
  pose proof (js_sub_typed (VNum (Int currentYear)) (yearFounded currentYear config)).
  unfold TrustTy, yearsInBusiness; typed Hraw.
Qed.

Lemma cta_typed : has_type CTATy (cta config) = true.
Proof. unfold cta, CTATy; typed Hraw. Qed.

Lemma service_item_typed (s : value) :
  has_type RawServiceItemTy s = true ->
  exists y, service_item s = Ok y /\ has_type ServiceItemTy y = true.
Proof.
  intros Hs; unfold service_item; rewrite reads_object by (now destruct s).
  eexists; split; [reflexivity|]; unfold ServiceItemTy; typed Hs.
Qed.

Lemma services_typed :
  exists v, services config = Ok v /\ has_type ServicesTy v = true.
Proof.
  unfold services.
  destruct (array_map_typed service_item RawServiceItemTy ServiceItemTy
              (config?."services"?."items" || VArr []) service_item_typed)
    as (items & -> & Hi); [typed Hraw|]; cbn [bind].
  eexists; split; [reflexivity|]; unfold ServicesTy; typed Hraw.
Qed.

Lemma value_prop_item_typed (v : value) :
  has_type RawValuePropItemTy v = true ->
  exists y, value_prop_item v = Ok y /\ has_type ValuePropItemTy y = true.
Proof.
  intros Hv; unfold value_prop_item; rewrite reads_object by (now destruct v).
  eexists; split; [reflexivity|]; unfold ValuePropItemTy; typed Hv.
Qed.

Lemma valueProps_typed :
  exists v, valueProps config = Ok v /\ has_type ValuePropsTy v = true.
Proof.
  unfold valueProps.
  destruct (array_map_typed value_prop_item RawValuePropItemTy ValuePropItemTy
              (config?."value_props"?."items" || VArr []) value_prop_item_typed)
    as (items & -> & Hi); [typed Hraw|]; cbn [bind].
  eexists; split; [reflexivity|]; unfold ValuePropsTy; typed Hraw.
Qed.

Lemma features_typed : has_type FeaturesTy (features config) = true.
Proof. unfold features, FeaturesTy; typed Hraw. Qed.

Lemma seo_typed : has_type SEOTy (seo currentYear config) = true.
Proof.
  pose proof business_name_typed; pose proof business_description_typed.
  unfold seo, SEOTy; typed Hraw.
Qed.

Lemma legal_typed : has_type LegalTy (legal currentYear config) = true.
Proof. pose proof business_name_typed; unfold legal, LegalTy; typed Hraw. Qed.

Lemma phoneDisplay_typed : has_type TString (phoneDisplay config) = true.
Proof. unfold phoneDisplay; typed Hraw. Qed.

Lemma phoneRaw_typed :
  exists v, phoneRaw config = Ok v /\ has_type TString v = true.
Proof.
  unfold phoneRaw.
  assert (H : has_type OptString config?."contact"?."phone_raw" = true) by typed Hraw.
  destruct (truthy config?."contact"?."phone_raw") eqn:E.
  - eexists; split; [reflexivity|].
    apply has_type_opt_inv; [exact H | now apply truthy_not_nullish].
  - pose proof phoneDisplay_typed as Hd.
    destruct (phoneDisplay config); try discriminate.
    eexists; split; reflexivity.
Qed.

Lemma hoursDetailed_day (day : string) :
  field_ty day [("monday", OptString); ("tuesday", OptString); ("wednesday", OptString);
                ("thursday", OptString); ("friday", OptString); ("saturday", OptString);
                ("sunday", OptString)] = Some OptString ->
  has_type OptString (hoursDetailed config)?.day = true.
Proof.
  intros Hday; unfold hoursDetailed.
  assert (Hd : has_type (TOpt RawWeekdaysTy) config?."hours"?."detailed" = true)
    by typed Hraw.
  assert (Hh : has_type (TOpt RawHoursTy) config?."hours" = true) by typed Hraw.
  destruct (truthy config?."hours"?."detailed") eqn:Ed.
  - rewrite (or_truthy _ config?."hours" Ed), (or_truthy _ (VObj []) Ed).
    eapply get_opt_field; [exact Hd | exact Hday | reflexivity].
  - rewrite (or_falsy _ config?."hours" Ed).
    destruct (truthy config?."hours") eqn:Eh;
      [rewrite (or_truthy _ _ Eh) | rewrite (or_falsy _ _ Eh); reflexivity].
    eapply get_opt_field; [exact Hh | | reflexivity].
    simpl in Hday |- *.
    repeat match goal with
           | H : (if (?a =? ?b)%string then _ else _) = _ |- _ =>
               destruct (String.eqb_spec a b); [subst; reflexivity|]
           end.
    discriminate.
Qed.

Lemma hours_structured_item_typed (h : value) :
  has_type RawHoursStructuredTy h = true ->
  exists y, hours_structured_item h = Ok y /\ has_type HoursStructuredTy y = true.
Proof.
  intros Hh; unfold hours_structured_item; rewrite reads_object by (now destruct h).
  eexists; split; [reflexivity|]; unfold HoursStructuredTy; typed Hh.
Qed.

Lemma review_page_typed (p : value) :
  has_type RawReviewPageTy p = true ->
  exists y, review_page p = Ok y /\ has_type ReviewPageConfigTy y = true.
Proof.
  intros Hp; unfold review_page; rewrite reads_object by (now destruct p).
  eexists; split; [reflexivity|]; unfold ReviewPageConfigTy; typed Hp.
Qed.

Lemma resolve_typed :
  exists siteConfig,
    resolve StringToNumber currentYear config = Ok siteConfig /\
    has_type SiteConfigTy siteConfig = true.
Proof.
  unfold resolve.
  assert (Hobj : member config "business" = Ok config?."business")
    by (destruct config; try discriminate; reflexivity).
  rewrite Hobj; cbn [bind].
  destruct trust_typed as (trust_ & -> & Htrust); cbn [bind].
  destruct services_typed as (services_ & -> & Hservices); cbn [bind].
  destruct valueProps_typed as (valueProps_ & -> & HvalueProps); cbn [bind].
  destruct phoneRaw_typed as (phoneRaw_ & -> & HphoneRaw); cbn [bind].
  destruct (array_map_typed hours_structured_item RawHoursStructuredTy HoursStructuredTy
              (config?."hours"?."structured" || VArr []) hours_structured_item_typed)
    as (hoursStructured_ & -> & HhoursStructured); [typed Hraw|]; cbn [bind].
  destruct (array_map_typed review_page RawReviewPageTy ReviewPageConfigTy
              (config?."reviews"?."pages" || VArr []) review_page_typed)
    as (pages_ & -> & Hpages); [typed Hraw|]; cbn [bind].
  eexists; split; [reflexivity|].
  pose proof business_typed; pose proof branding_typed; pose proof cta_typed.
  pose proof features_typed; pose proof seo_typed; pose proof legal_typed.
  pose proof phoneDisplay_typed.
  pose proof (get_field _ _ "name" _ business_typed eq_refl).
  pose proof (get_field _ _ "tagline" _ business_typed eq_refl).
  pose proof (get_field _ _ "description" _ business_typed eq_refl).
  pose proof (or_typed TString _ (VStr "") (hoursDetailed_day "monday" eq_refl) eq_refl).
  pose proof (or_typed TString _ (VStr "") (hoursDetailed_day "tuesday" eq_refl) eq_refl).
  pose proof (or_typed TString _ (VStr "") (hoursDetailed_day "wednesday" eq_refl) eq_refl).
  pose proof (or_typed TString _ (VStr "") (hoursDetailed_day "thursday" eq_refl) eq_refl).
  pose proof (or_typed TString _ (VStr "") (hoursDetailed_day "friday" eq_refl) eq_refl).
  pose proof (or_typed TString _ (VStr "") (hoursDetailed_day "saturday" eq_refl) eq_refl).
  pose proof (or_typed TString _ (VStr "") (hoursDetailed_day "sunday" eq_refl) eq_refl).
  unfold SiteConfigTy; typed Hraw.
Qed.

End Typing.

(** ** What a successful run of the loader returned *)

Lemma digits_only_all_digits (s : string) : all_digits (digits_only s) = true.
Proof.
  induction s as [|c s IH]; simpl; [reflexivity|].
  destruct (is_digit c) eqn:E; simpl; [rewrite E|]; exact IH.
Qed.

Lemma digits_only_fixes_digits (s : string) : all_digits s = true -> digits_only s = s.
Proof.
  induction s as [|c s IH]; simpl; [reflexivity|].
  rewrite andb_true_iff; intros [-> Hs]; now rewrite IH.
Qed.

Lemma mapM_reads (body : value -> value) (l out : list value) :
  mapM (fun x => reads x (body x)) l = Ok out ->
  out = map body l /\ forallb (fun x => negb (nullish x)) l = true.
Proof.
  revert out; induction l as [|x l IH]; simpl; intros out H.
  - split; congruence.
  - apply bind_ok in H as (y & Hy & H); apply bind_ok in H as (ys & Hys & H).
    unfold reads in Hy; destruct (nullish x); [discriminate|].
    destruct (IH _ Hys) as [-> Hl]; simpl; split; [congruence | exact Hl].
Qed.

Lemma array_map_reads (body : value -> value) (v out : value) :
  array_map (fun x => reads x (body x)) v = Ok out ->
  exists l, v = VArr l /\ out = VArr (map body l) /\
            forallb (fun x => negb (nullish x)) l = true.
Proof.
  destruct v; try discriminate; simpl; intros H.
  apply bind_ok in H as (l' & Hl' & H); apply mapM_reads in Hl' as [-> Hn].
  exists items; repeat split; congruence.
Qed.

(** Unfold a successful [resolve]: one hypothesis per step that can throw,
    and the returned object in place of the result. *)
Ltac resolve_inv H :=
  unfold resolve in H;
  let Hmember := fresh "Hmember" in
  let Htrust := fresh "Htrust" in
  let Hcerts := fresh "Hcerts" in
  let Hservices := fresh "Hservices" in
  let HvalueProps := fresh "HvalueProps" in
  let HphoneRaw := fresh "HphoneRaw" in
  let Hstructured := fresh "Hstructured" in
  let Hpages := fresh "Hpages" in
  apply bind_ok in H as (? & Hmember & H);
  apply bind_ok in H as (? & Htrust & H);
  apply bind_ok in H as (? & Hservices & H);
  apply bind_ok in H as (? & HvalueProps & H);
  apply bind_ok in H as (? & HphoneRaw & H);
  apply bind_ok in H as (? & Hstructured & H);
  apply bind_ok in H as (? & Hpages & H);
  unfold trust in Htrust; apply bind_ok in Htrust as (? & Hcerts & Htrust);
  unfold services in Hservices; apply bind_ok in Hservices as (? & Hservices & ?);
  unfold valueProps in HvalueProps; apply bind_ok in HvalueProps as (? & HvalueProps & ?);
  repeat match goal with E : Ok _ = Ok _ |- _ => injection E as E; subst end.

Section Claims.

Variable StringToNumber : string -> number.
Variable currentYear : Z.


(** C7.  The resolved business name is [business.name] if given, else
    [site.name] if given, else "Acme Corp"; the resolved [legalName] is
    [business.legal_name] if given, else the resolved business name.  (Given
    is JavaScript's truthy: set, and not the empty string.)  The top-level
    [name] is the same value. *)
Theorem business_name_chain (config siteConfig : value) :
  resolve StringToNumber currentYear config = Ok siteConfig ->
  let name := config?."business"?."name" in
  let site_name := config?."site"?."name" in
  let legal_name := config?."business"?."legal_name" in
  let resolved_name := siteConfig?."business"?."name" in
  (truthy name = true -> resolved_name = name) /\
  (truthy name = false -> truthy site_name = true -> resolved_name = site_name) /\
  (truthy name = false -> truthy site_name = false -> resolved_name = VStr "Acme Corp") /\
  (truthy legal_name = true -> siteConfig?."business"?."legalName" = legal_name) /\
  (truthy legal_name = false -> siteConfig?."business"?."legalName" = resolved_name) /\
  siteConfig?."name" = resolved_name.
Proof.
  intros H name site_name legal_name resolved_name.
  assert (En : resolved_name = name || site_name || VStr "Acme Corp")
    by (resolve_inv H; reflexivity).
  assert (El : siteConfig?."business"?."legalName"
               = legal_name || name || site_name || VStr "Acme Corp")
    by (resolve_inv H; reflexivity).
  assert (Et : siteConfig?."name" = resolved_name) by (resolve_inv H; reflexivity).
  clear H; repeat split.
  - intros T; now rewrite En, (or_truthy name site_name T), (or_truthy name _ T).
  - intros F T; now rewrite En, (or_falsy name site_name F), (or_truthy site_name _ T).
  - intros F F'; now rewrite En, (or_falsy name site_name F), (or_falsy site_name _ F').
  - intros T; now rewrite El, (or_truthy legal_name name T),
                          (or_truthy legal_name site_name T), (or_truthy legal_name _ T).
  - intros F; now rewrite El, En, (or_falsy legal_name name F).
  - exact Et.
Qed.

(** C6 (as amended).  The display phone is [contact.phone] if given, else
    [contact.phone_local] if given, else the empty string.  The raw phone is
    [contact.phone_raw] if given; else, when the display phone is a string,
    that string with every character that is not one of [0]..[9] removed and
    every digit kept, in order; else (a display phone that is not a string,
    as YAML gives for an unquoted number) the loader throws a TypeError.
    What the loader returns as [contact.phone] and [contact.phoneRaw] are
    these two.  Removing non-digits leaves a digits-only string as it is, so
    it is idempotent, and "(555) 555-0100" gives "5555550100". *)
Theorem phone_chain (config : value) :
  let phone := config?."contact"?."phone" in
  let phone_local := config?."contact"?."phone_local" in
  let phone_raw := config?."contact"?."phone_raw" in
  let display := phoneDisplay config in
  (truthy phone = true -> display = phone) /\
  (truthy phone = false -> truthy phone_local = true -> display = phone_local) /\
  (truthy phone = false -> truthy phone_local = false -> display = VStr "") /\
  (truthy phone_raw = true -> phoneRaw config = Ok phone_raw) /\
  (truthy phone_raw = false ->
   forall s, display = VStr s -> phoneRaw config = Ok (VStr (digits_only s))) /\
  (truthy phone_raw = false -> is_string display = false ->
   phoneRaw config = Throw TypeError /\
   forall siteConfig, resolve StringToNumber currentYear config <> Ok siteConfig) /\
  (forall siteConfig,
      resolve StringToNumber currentYear config = Ok siteConfig ->
      siteConfig?."contact"?."phone" = display /\
      phoneRaw config = Ok siteConfig?."contact"?."phoneRaw") /\
  (forall s, list_ascii_of_string (digits_only s)
             = filter is_digit (list_ascii_of_string s)) /\
  (forall c, is_digit c = true <-> In c (list_ascii_of_string "0123456789")) /\
  (forall s, all_digits (digits_only s) = true) /\
  (forall s, all_digits s = true -> digits_only s = s) /\
  (forall s, digits_only (digits_only s) = digits_only s) /\
  digits_only "(555) 555-0100" = "5555550100"%string.
Proof.
  intros phone phone_local phone_raw display.
  assert (Ed : display = phone || phone_local || VStr "") by reflexivity.
  assert (Hret : forall siteConfig,
             resolve StringToNumber currentYear config = Ok siteConfig ->
             siteConfig?."contact"?."phone" = display /\
             phoneRaw config = Ok siteConfig?."contact"?."phoneRaw").
  { intros siteConfig H; split; resolve_inv H; [reflexivity | assumption]. }
  assert (Er : phoneRaw config
               = if truthy phone_raw then Ok phone_raw else replace_non_digits display)
    by reflexivity.
  split; [|split; [|split; [|split; [|split; [|split; [|split; [|split;
    [|split; [|split; [|split; [|split]]]]]]]]]]].
  - intros T; now rewrite Ed, (or_truthy phone phone_local T), (or_truthy phone _ T).
  - intros F T; now rewrite Ed, (or_falsy phone phone_local F), (or_truthy phone_local _ T).
  - intros F F'; now rewrite Ed, (or_falsy phone phone_local F), (or_falsy phone_local _ F').
  - intros T; now rewrite Er, T.
  - intros F s Hs; now rewrite Er, F, Hs.
  - intros F Hs.
    assert (Et : phoneRaw config = Throw TypeError)
      by (rewrite Er, F; destruct display; try reflexivity; discriminate).
    split; [exact Et|].
    intros siteConfig H; destruct (Hret siteConfig H) as [_ E]; congruence.
  - exact Hret.
  - induction s as [|c s IH]; [reflexivity|]; simpl.
    destruct (is_digit c); simpl; now rewrite IH.
  - intros c; split.
    + destruct c as [[|] [|] [|] [|] [|] [|] [|] [|]]; try discriminate;
        intros _; simpl; tauto.
    + simpl; intros H; repeat (destruct H as [<-|H]; [reflexivity|]); contradiction.
  - exact digits_only_all_digits.
  - exact digits_only_fixes_digits.
  - intros s; apply digits_only_fixes_digits, digits_only_all_digits.
  - reflexivity.
Qed.

(** C5.  The resolved [trust.yearsInBusiness] is the current year minus the
    resolved [business.yearFounded] - for a year founded [y] that is a safe
    integer, as the current year and the difference are, the number
    [currentYear - y]; without [business.year_founded] the year founded is
    the current year and the difference 0; and the value depends on the
    document through [business.year_founded] alone, so that no other field
    of it, whatever its name, is read for it. *)
Theorem yearsInBusiness_derived (config siteConfig : value) :
  resolve StringToNumber currentYear config = Ok siteConfig ->
  let founded := siteConfig?."business"?."yearFounded" in
  let years := siteConfig?."trust"?."yearsInBusiness" in
  years = js_sub StringToNumber (VNum (Int currentYear)) founded /\
  (forall y, founded = VNum (Int y) ->
             Z.abs currentYear < 2 ^ 53 ->
             Z.abs y < 2 ^ 53 ->
             Z.abs (currentYear - y) < 2 ^ 53 ->
             years = VNum (Int (currentYear - y))) /\
  (nullish config?."business"?."year_founded" = true ->
   founded = VNum (Int currentYear) /\ years = VNum (Int 0)) /\
  (forall config' siteConfig',
     resolve StringToNumber currentYear config' = Ok siteConfig' ->
     config'?."business"?."year_founded" = config?."business"?."year_founded" ->
     siteConfig'?."trust"?."yearsInBusiness" = years).
Proof.
  intros H founded years.
  assert (Ef : founded = yearFounded currentYear config) by (resolve_inv H; reflexivity).
  assert (Ey : years = yearsInBusiness StringToNumber currentYear config)
    by (resolve_inv H; reflexivity).
  unfold yearsInBusiness in Ey; rewrite <- Ef in Ey.
  split; [exact Ey|split; [|split]].
  - intros y Hy _ _ _; rewrite Ey, Hy; unfold js_sub; simpl; reflexivity.
  - intros Hn. assert (founded = VNum (Int currentYear)) as E.
    { rewrite Ef; unfold yearFounded; apply or_falsy.
      destruct (config?."business"?."year_founded"); try discriminate; reflexivity. }
    split; [exact E|]. rewrite Ey, E; unfold js_sub; simpl; now rewrite Z.sub_diag.
  - intros config' siteConfig' H' E.
    assert (E' : siteConfig'?."trust"?."yearsInBusiness"
                 = yearsInBusiness StringToNumber currentYear config')
      by (resolve_inv H'; reflexivity).
    rewrite E', Ey, Ef; unfold yearsInBusiness, yearFounded; now rewrite E.
Qed.


(** C3 (as amended).  For each weekday: if [hours.detailed] is truthy (any
    mapping, an empty one too), the resolved string comes from
    [hours.detailed] alone; otherwise ([hours.detailed] missing, null or
    another falsy value) it comes from the flat [hours] object.  An empty
    string stands in for a missing weekday. *)
Theorem hours_either_or (config siteConfig : value) (day : string) :
  resolve StringToNumber currentYear config = Ok siteConfig ->
  In day weekdays ->
  let detailed := config?."hours"?."detailed" in
  (truthy detailed = true -> siteConfig?."hours"?.day = detailed?.day || VStr "") /\
  (truthy detailed = false -> siteConfig?."hours"?.day = config?."hours"?.day || VStr "").
Proof.
  intros H Hday detailed.
  assert (E : siteConfig?."hours"?.day = (hoursDetailed config)?.day || VStr "").
  { resolve_inv H; simpl in Hday.
    repeat (destruct Hday as [<-|Hday]; [reflexivity|]); destruct Hday. }
  rewrite E; unfold hoursDetailed; fold detailed; clear E H; split; intros T.
  - now rewrite (or_truthy detailed _ T), (or_truthy detailed _ T).
  - rewrite (or_falsy detailed _ T).
    destruct (truthy config?."hours") eqn:Th;
      [now rewrite (or_truthy _ _ Th) | rewrite (or_falsy _ _ Th)].
    destruct (config?."hours"); try discriminate; reflexivity.
Qed.

(** C4 (as amended).  When the loader returns, [services.items] and
    [value_props.items] are resolved entry by entry: as many entries out as
    in, each at its place, each sub-field defaulted on its own (icon "star"
    for a service and "check" for a value prop, the empty string for the
    others).  [trust.certifications] keeps, in order, its truthy entries
    only. *)
Theorem sequences_item_by_item (config siteConfig : value) :
  resolve StringToNumber currentYear config = Ok siteConfig ->
  (exists items out,
      config?."services"?."items" || VArr [] = VArr items /\
      siteConfig?."services"?."items" = VArr out /\
      List.length out = List.length items /\
      forall i s, nth_error items i = Some s ->
        exists o, nth_error out i = Some o /\
                  o?."name" = s?."name" || VStr "" /\
                  o?."description" = s?."description" || VStr "" /\
                  o?."icon" = s?."icon" || VStr "star" /\
                  o?."url" = s?."url" || VStr "") /\
  (exists items out,
      config?."value_props"?."items" || VArr [] = VArr items /\
      siteConfig?."valueProps"?."items" = VArr out /\
      List.length out = List.length items /\
      forall i v, nth_error items i = Some v ->
        exists o, nth_error out i = Some o /\
                  o?."title" = v?."title" || VStr "" /\
                  o?."description" = v?."description" || VStr "" /\
                  o?."icon" = v?."icon" || VStr "check") /\
  (exists items,
      config?."trust"?."certifications" || VArr [] = VArr items /\
      siteConfig?."trust"?."certifications" = VArr (filter truthy items)).
Proof.
  intros H; resolve_inv H.
  apply array_map_reads in Hservices as (ls & Els & -> & _).
  apply array_map_reads in HvalueProps as (lv & Elv & -> & _).
  unfold certifications in Hcerts.
  destruct (config?."trust"?."certifications" || VArr []) as [| | | | |lc|] eqn:Elc;
    try discriminate; injection Hcerts as <-.
  split; [|split].
  - eexists ls, _; split; [exact Els|split; [reflexivity|split; [apply length_map|]]].
    intros i s Hi; eexists; split; [apply map_nth_error, Hi|]; repeat split.
  - eexists lv, _; split; [exact Elv|split; [reflexivity|split; [apply length_map|]]].
    intros i s Hi; eexists; split; [apply map_nth_error, Hi|]; repeat split.
  - exists lc; split; reflexivity.
Qed.

(** The default of [cta.secondary.url] comes from [contact.phone_raw] as
    written in the document. *)
Lemma cta_secondary_url_default (config siteConfig : value) :
  resolve StringToNumber currentYear config = Ok siteConfig ->
  truthy config?."cta"?."secondary"?."url" = false ->
  siteConfig?."cta"?."secondary"?."url"
  = VStr ("tel:" ++ ToString (config?."contact"?."phone_raw" || VStr "")).
Proof.
  intros H F.
  assert (E : siteConfig?."cta"?."secondary"?."url"
              = config?."cta"?."secondary"?."url"
                || VStr ("tel:" ++ ToString (config?."contact"?."phone_raw" || VStr "")))
    by (resolve_inv H; reflexivity).
  now rewrite E, or_falsy.
Qed.

(** Where C2 does hold: the default is "tel:" followed by the resolved
    [phoneRaw] when [contact.phone_raw] is given, and when the resolved
    [phoneRaw] is empty. *)
Lemma cta_secondary_url_when_phone_raw_given (config siteConfig : value) :
  resolve StringToNumber currentYear config = Ok siteConfig ->
  truthy config?."cta"?."secondary"?."url" = false ->
  truthy config?."contact"?."phone_raw" = true
  \/ siteConfig?."contact"?."phoneRaw" = VStr "" ->
  siteConfig?."cta"?."secondary"?."url"
  = VStr ("tel:" ++ ToString siteConfig?."contact"?."phoneRaw").
Proof.
  intros H F Hraw; rewrite (cta_secondary_url_default _ _ H F).
  assert (Er : phoneRaw config = Ok siteConfig?."contact"?."phoneRaw")
    by (resolve_inv H; assumption).
  unfold phoneRaw in Er.
  destruct (truthy config?."contact"?."phone_raw") eqn:T.
  - rewrite (or_truthy _ _ T); congruence.
  - rewrite (or_falsy _ _ T); destruct Hraw as [Hc| ->]; [discriminate | reflexivity].
Qed.

End Claims.

(** ** The reviews accessor on a configuration of the declared type *)

Lemma findM_find (pagePath : string) (l : list value) :
  forallb (fun p => negb (nullish p)) l = true ->
  findM (fun p => path <- member p "path" ;; Ok (strict_eq_str path pagePath)) l
  = Ok (find (page_matches pagePath) l).
Proof.
  induction l as [|p l IH]; simpl; [reflexivity|].
  rewrite andb_true_iff; intros [Hp Hl].
  unfold member; apply negb_true_iff in Hp; rewrite Hp; simpl.
  unfold page_matches at 1; destruct (strict_eq_str p?."path" pagePath);
    [reflexivity | now apply IH].
Qed.



Lemma page_matches_object (pagePath : string) (p : value) :
  page_matches pagePath p = true -> truthy p = true.
Proof. destruct p; try discriminate; reflexivity. Qed.


Section Accessor.

Variable StringToNumber : string -> number.


Lemma slice0_nil (end_ : value) : slice0 StringToNumber end_ [] = [].
Proof. unfold slice0; now rewrite firstn_nil. Qed.





(** C8.  If the resolved [reviews.enabled] is false, [getReviewsForPage]
    returns no reviews and no page config, whatever the path, the page
    entries, the tags and the state of the dataset file. *)
Theorem reviews_disabled (siteConfig : value) (file : file_read) (pagePath : string) :
  nullish siteConfig?."reviews" = false ->
  truthy siteConfig?."reviews"?."enabled" = false ->
  getReviewsForPage StringToNumber siteConfig file pagePath = Ok no_reviews.
Proof.
  intros Hr He; unfold getReviewsForPage, member.
  assert (Hs : nullish siteConfig = false) by (destruct siteConfig; try discriminate; reflexivity).
  rewrite Hs; cbn [bind]; rewrite Hr; cbn [bind]; now rewrite He.
Qed.


Lemma filterM_has_includes (pagePath : string) (entries : list (string * value)) :
  (forallb (fun e => has_includes (snd e)) entries = true ->
   exists kept, filterM (fun e => includes (snd e) pagePath) entries = Ok kept) /\
  (forallb (fun e => has_includes (snd e)) entries = false ->
   filterM (fun e => includes (snd e) pagePath) entries = Throw TypeError).
Proof.
  induction entries as [|[k v] entries [IHok IHthrow]]; simpl;
    [split; [eauto | discriminate]|].
  split.
  - rewrite andb_true_iff; intros [Hv He]; destruct (IHok He) as [kept ->].
    destruct v; try discriminate; simpl; eauto.
  - intros H; destruct v; try reflexivity; simpl in *;
      rewrite (IHthrow H); reflexivity.
Qed.

Lemma taggedReviewIds_scannable (tagged : value) (pagePath : string) :
  (scannable tagged = true -> exists ids, taggedReviewIds tagged pagePath = Ok ids) /\
  (scannable tagged = false -> taggedReviewIds tagged pagePath = Throw TypeError).
Proof.
  unfold scannable, taggedReviewIds.
  destruct (Object_entries tagged) as [entries|e] eqn:E; cbn [bind].
  - destruct (filterM_has_includes pagePath entries) as [Hok Hthrow]; split; intros H.
    + destruct (Hok H) as [kept ->]; cbn [bind]; eauto.
    + now rewrite (Hthrow H).
  - split; [discriminate|]; intros _.
    destruct tagged; simpl in E; try discriminate; now injection E as <-.
Qed.

(** The accessor on a configuration the loader returned, once the page is
    found: what is left is the scan of the tags. *)
Lemma getReviewsForPage_found
      (currentYear : Z) (config siteConfig : value) (file : file_read)
      (pagePath : string) :
  resolve StringToNumber currentYear config = Ok siteConfig ->
  truthy siteConfig?."reviews"?."enabled" = true ->
  exists pages,
    siteConfig?."reviews"?."pages" = VArr pages /\
    forall pageConfig,
      find (page_matches pagePath) pages = Some pageConfig ->
      getReviewsForPage StringToNumber siteConfig file pagePath
      = (ids <- taggedReviewIds siteConfig?."reviews"?."tagged" pagePath ;;
         Ok (VObj [("reviews",
                    VArr (slice0 StringToNumber pageConfig?."maxReviews"
                            (filter (id_tagged ids) (loadReviews file))));
                   ("config", pageConfig)])).
Proof.
  intros H He.
  assert (Hp : exists l, siteConfig?."reviews"?."pages" = VArr (map
                 (fun p => VObj [("path", p?."path");
                                 ("layout", p?."layout" || VStr "standard");
                                 ("position", p?."position" || VStr "before-cta");
                                 ("maxReviews", p?."max_reviews" || VNum (Int 3))]) l)).
  { resolve_inv H.
    match goal with
    | E : array_map review_page _ = Ok _ |- _ =>
        apply array_map_reads in E as (l & _ & -> & _)
    end.
    exists l; reflexivity. }
  destruct Hp as [l Hp].
  assert (Hs : nullish siteConfig = false) by (resolve_inv H; reflexivity).
  assert (Hr : nullish siteConfig?."reviews" = false) by (resolve_inv H; reflexivity).
  eexists; split; [exact Hp|].
  intros pageConfig Ef.
  unfold getReviewsForPage, member.
  rewrite Hs; cbn [bind]; rewrite Hr; cbn [bind].
  rewrite He, Hp; cbn [negb bind find_page].
  rewrite findM_find, Ef; cbn [bind].
  - apply find_some in Ef as [_ Em]; rewrite (page_matches_object _ _ Em); cbn [negb].
    reflexivity.
  - clear; induction l as [|p l IH]; [reflexivity | exact IH].
Qed.

(** C10 (as amended).  On a configuration the loader returned, with reviews
    enabled and a page entry matching the path, a missing or unparsable
    dataset file is absorbed by [loadReviews] as the empty list.  If every
    value in [reviews.tagged] has an [includes] (a list, or a string) and the
    page's [maxReviews] has a conversion (as every number, string and plain
    mapping has), [getReviewsForPage] does not throw, and returns that page
    entry with an empty review sequence.  If a value in [reviews.tagged] has
    no [includes], it throws a TypeError. *)
Theorem dataset_failure_keeps_config
        (currentYear : Z) (config siteConfig : value) (file : file_read)
        (pagePath : string) :
  resolve StringToNumber currentYear config = Ok siteConfig ->
  file = Missing \/ file = Unparsable ->
  truthy siteConfig?."reviews"?."enabled" = true ->
  loadReviews file = [] /\
  exists pages,
    siteConfig?."reviews"?."pages" = VArr pages /\
    forall pageConfig,
      find (page_matches pagePath) pages = Some pageConfig ->
      (scannable siteConfig?."reviews"?."tagged" = true ->
       converts pageConfig?."maxReviews" = true ->
       getReviewsForPage StringToNumber siteConfig file pagePath
       = Ok (VObj [("reviews", VArr []); ("config", pageConfig)])) /\
      (scannable siteConfig?."reviews"?."tagged" = false ->
       getReviewsForPage StringToNumber siteConfig file pagePath = Throw TypeError).
Proof.
  intros H Hfile He.
  assert (Hl : loadReviews file = []) by (destruct Hfile as [->| ->]; reflexivity).
  split; [exact Hl|].
  destruct (getReviewsForPage_found currentYear config siteConfig file pagePath H He)
    as (pages & Hp & Hfound).
  exists pages; split; [exact Hp|].
  intros pageConfig Ef; rewrite (Hfound pageConfig Ef), Hl.
  destruct (taggedReviewIds_scannable siteConfig?."reviews"?."tagged" pagePath)
    as [Hok Hthrow].
  split.
  - intros Hs _; destruct (Hok Hs) as [ids ->]; cbn [bind filter].
    now rewrite slice0_nil.
  - intros Hs; now rewrite (Hthrow Hs).
Qed.

End Accessor.

(** ** The configuration the accessor reads is the loader's result *)

Lemma resolved_reviews_section (StringToNumber : string -> number) (currentYear : Z)
      (config siteConfig : value) :
  resolve StringToNumber currentYear config = Ok siteConfig ->
  nullish siteConfig?."reviews" = false /\
  siteConfig?."reviews"?."enabled" = config?."reviews"?."enabled" ?? VBool true.
Proof. intros H; resolve_inv H; split; reflexivity. Qed.

Lemma resolved_reviews_typed (StringToNumber : string -> number) (currentYear : Z)
      (config siteConfig : value) :
  has_type RawConfigTy config = true ->
  resolve StringToNumber currentYear config = Ok siteConfig ->
  has_type ReviewsConfigTy siteConfig?."reviews" = true.
Proof.
  intros Hraw H.
  destruct (resolve_typed StringToNumber currentYear config Hraw) as (sc & E & Ht).
  rewrite E in H; injection H as <-.
  eapply get_field; [exact Ht | reflexivity].
Qed.

(** ** Where the loader throws *)

Lemma array_map_mappable (body : value -> value) (v : value) :
  mappable v = true ->
  exists l, v = VArr l /\ array_map (fun x => reads x (body x)) v = Ok (VArr (map body l)).
Proof.
  destruct v; try discriminate; simpl; intros H; exists items; split; [reflexivity|].
  induction items as [|x l IH]; simpl in *; [reflexivity|].
  apply andb_true_iff in H as [Hx Hl]; apply negb_true_iff in Hx.
  unfold reads at 1; rewrite Hx; simpl.
  specialize (IH Hl); destruct (mapM _ l); simpl in *; congruence.
Qed.

Lemma resolve_returns_iff (StringToNumber : string -> number) (currentYear : Z)
      (config : value) :
  (exists siteConfig, resolve StringToNumber currentYear config = Ok siteConfig)
  <-> returns_normally config = true.
Proof.
  unfold returns_normally; rewrite !andb_true_iff; split.
  - intros [sc H]; resolve_inv H.
    apply array_map_reads in Hservices as (? & -> & _ & ?).
    apply array_map_reads in HvalueProps as (? & -> & _ & ?).
    apply array_map_reads in Hstructured as (? & -> & _ & ?).
    apply array_map_reads in Hpages as (? & -> & _ & ?).
    unfold member in Hmember; destruct (nullish config) eqn:Hn; [discriminate|].
    unfold certifications in Hcerts.
    destruct (config?."trust"?."certifications" || VArr []); try discriminate.
    unfold phoneRaw, phoneDisplay in HphoneRaw.
    destruct (truthy config?."contact"?."phone_raw"); [repeat split; assumption|].
    destruct (config?."contact"?."phone" || config?."contact"?."phone_local" || VStr "");
      try discriminate.
    repeat split; assumption.
  - intros [[[[[[Hn Hc] Hs] Hv] Hp] Hh] Hg].
    apply negb_true_iff in Hn.
    unfold resolve, member; rewrite Hn; cbn [bind].
    unfold trust, certifications.
    destruct (config?."trust"?."certifications" || VArr []); try discriminate.
    cbn [array_filter bind].
    unfold services, service_item.
    destruct (array_map_mappable
                (fun s => VObj [("name", s?."name" || VStr "");
                                ("description", s?."description" || VStr "");
                                ("icon", s?."icon" || VStr "star");
                                ("url", s?."url" || VStr "")]) _ Hs) as (? & _ & ->).
    cbn [bind]; unfold valueProps, value_prop_item.
    destruct (array_map_mappable
                (fun v => VObj [("title", v?."title" || VStr "");
                                ("description", v?."description" || VStr "");
                                ("icon", v?."icon" || VStr "check")]) _ Hv) as (? & _ & ->).
    cbn [bind]; unfold hours_structured_item, review_page.
    destruct (array_map_mappable
                (fun h => VObj [("days", h?."days" || VArr []);
                                ("open", h?."open" || VStr "");
                                ("close", h?."close" || VStr "")]) _ Hh) as (? & _ & ->).
    destruct (array_map_mappable
                (fun p => VObj [("path", p?."path");
                                ("layout", p?."layout" || VStr "standard");
                                ("position", p?."position" || VStr "before-cta");
                                ("maxReviews", p?."max_reviews" || VNum (Int 3))]) _ Hg)
      as (? & _ & ->).
    assert (exists p, phoneRaw config = Ok p) as [p ->].
    { unfold phoneRaw, phoneDisplay.
      destruct (truthy config?."contact"?."phone_raw"); [eauto|].
      destruct (config?."contact"?."phone" || config?."contact"?."phone_local" || VStr "");
        try discriminate; simpl; eauto. }
    cbn [bind]; eauto.
Qed.

(** * Totality of the loader, and the worked inputs *)

(** C1 (as amended).  For every parsed document that has the declared shape
    (a mapping whose fields, where given and not null, have their declared
    types; the empty mapping included), [loadConfig] returns normally and its
    result has type [SiteConfig]: every field present and of its declared
    type.  An unreadable or unparsable document makes it throw. *)
Theorem loadConfig_total_on_declared_shapes
        (StringToNumber : string -> number) (currentYear : Z) :
  (forall config,
      has_type RawConfigTy config = true ->
      exists siteConfig,
        loadConfig StringToNumber currentYear (Parsed config) = Ok siteConfig /\
        has_type SiteConfigTy siteConfig = true) /\
  loadConfig StringToNumber currentYear Missing = Throw IOError /\
  loadConfig StringToNumber currentYear Unparsable = Throw SyntaxError.
Proof.
  split; [|split; reflexivity].
  intros config Hraw; exact (resolve_typed StringToNumber currentYear config Hraw).
Qed.

Lemma loadConfig_total_on_declared_shapes_witness :
  has_type RawConfigTy config_null_fields = true /\
  exists siteConfig,
    loadConfig decimalToNumber 2026 (Parsed config_null_fields) = Ok siteConfig /\
    has_type SiteConfigTy siteConfig = true.
Proof.
  split; [reflexivity|].
  exact (proj1 (loadConfig_total_on_declared_shapes decimalToNumber 2026)
               config_null_fields eq_refl).
Defined.

(** C1 as stated fails: the document [reviews: { pages: [null] }] parses, and
    [loadConfig] throws a TypeError on it. *)
Lemma loadConfig_throws_on_null_page :
  loadConfig decimalToNumber 2026 (Parsed config_null_page) = Throw TypeError.
Proof. reflexivity. Qed.

(** More of the same: an empty document (it parses to [null]), a numeric
    display phone without [phone_raw], a field of the wrong type, which is
    passed on as it is, and a page entry without a [path]. *)
Lemma loadConfig_throws_on_empty_document :
  loadConfig decimalToNumber 2026 (Parsed VNull) = Throw TypeError.
Proof. reflexivity. Qed.

Lemma loadConfig_throws_on_numeric_phone :
  loadConfig decimalToNumber 2026 (Parsed config_numeric_phone) = Throw TypeError.
Proof. reflexivity. Qed.

Lemma loadConfig_keeps_wrong_type :
  exists siteConfig,
    loadConfig decimalToNumber 2026 (Parsed config_numeric_name) = Ok siteConfig /\
    siteConfig?."name" = VNum (Int 5) /\
    has_type SiteConfigTy siteConfig = false.
Proof. eexists; split; [reflexivity|split; reflexivity]. Qed.

Lemma loadConfig_page_without_path :
  field (loadConfig decimalToNumber 2026
           (Parsed (VObj [("reviews", VObj [("pages", VArr [VObj []])])])))
        ["reviews"; "pages"]
  = Ok (VArr [VObj [("path", VUndefined); ("layout", VStr "standard");
                    ("position", VStr "before-cta"); ("maxReviews", VNum (Int 3))]]).
Proof. reflexivity. Qed.

(** C2 at the failing input.  With only a display phone in the document, the
    resolved [phoneRaw] is derived from it, but the default of
    [cta.secondary.url] is still built from the missing [contact.phone_raw]. *)
Theorem cta_secondary_url_misses_derived_phoneRaw :
  field (loadConfig decimalToNumber 2026 (Parsed config_display_phone))
        ["contact"; "phoneRaw"] = Ok (VStr "5555550100") /\
  field (loadConfig decimalToNumber 2026 (Parsed config_display_phone))
        ["cta"; "secondary"; "url"] = Ok (VStr "tel:").
Proof. split; reflexivity. Qed.

(** C3 as stated fails: [hours.detailed] is present and empty, the flat
    [hours.monday] is "9-5", and the resolved [monday] is the empty string. *)
Lemma hours_empty_detailed_not_flat :
  field (Ok config_empty_detailed) ["hours"; "detailed"] = Ok (VObj []) /\
  field (Ok config_empty_detailed) ["hours"; "monday"] = Ok (VStr "9-5") /\
  field (loadConfig decimalToNumber 2026 (Parsed config_empty_detailed))
        ["hours"; "monday"] = Ok (VStr "").
Proof. repeat split; reflexivity. Qed.

Lemma hours_either_or_witness :
  exists siteConfig,
    resolve decimalToNumber 2026 config_both_hours = Ok siteConfig /\
    In "monday" weekdays /\
    siteConfig?."hours"?."monday" = VStr "8-6".
Proof.
  eexists; split; [reflexivity|split; [now left|]].
  exact (proj1 (hours_either_or decimalToNumber 2026 config_both_hours _ "monday"
                                eq_refl (or_introl eq_refl)) eq_refl).
Defined.

(** C4 as stated fails: a certification list of three entries, one of them
    empty, resolves to a list of two. *)
Lemma certifications_drop_blank_entry :
  field (Ok config_blank_certification) ["trust"; "certifications"]
  = Ok (VArr [VStr "A"; VStr ""; VStr "B"]) /\
  field (loadConfig decimalToNumber 2026 (Parsed config_blank_certification))
        ["trust"; "certifications"] = Ok (VArr [VStr "A"; VStr "B"]).
Proof. split; reflexivity. Qed.

Lemma sequences_item_by_item_witness :
  exists siteConfig,
    resolve decimalToNumber 2026 config_partial_items = Ok siteConfig /\
    exists out, siteConfig?."services"?."items" = VArr out /\ List.length out = 2%nat.
Proof.
  eexists; split; [reflexivity|].
  destruct (proj1 (sequences_item_by_item decimalToNumber 2026 config_partial_items _
                                          eq_refl))
    as (items & out & Hitems & Hout & Hlen & _).
  exists out; split; [exact Hout|].
  injection Hitems as <-; exact Hlen.
Defined.

Lemma yearsInBusiness_derived_witness :
  exists siteConfig,
    resolve decimalToNumber 2026 config_founded_1990 = Ok siteConfig /\
    siteConfig?."trust"?."yearsInBusiness" = VNum (Int 36).
Proof.
  eexists; split; [reflexivity|].
  exact (proj1 (proj2 (yearsInBusiness_derived decimalToNumber 2026 config_founded_1990 _
                                               eq_refl)) 1990 eq_refl eq_refl eq_refl
               eq_refl).
Defined.

(** C6 as stated fails: with the display phone an unquoted number and no
    [phone_raw], the document parses, there is no digits-only extraction of
    the display phone, and [loadConfig] throws a TypeError. *)
Lemma phone_chain_throws_on_numeric_phone :
  phoneDisplay config_numeric_phone = VNum (Int 5555550100) /\
  truthy config_numeric_phone?."contact"?."phone_raw" = false /\
  phoneRaw config_numeric_phone = Throw TypeError /\
  loadConfig decimalToNumber 2026 (Parsed config_numeric_phone) = Throw TypeError.
Proof. repeat split; reflexivity. Qed.

Lemma phone_chain_witness :
  exists siteConfig,
    resolve decimalToNumber 2026 config_display_phone = Ok siteConfig /\
    siteConfig?."contact"?."phone" = VStr "(555) 555-0100" /\
    siteConfig?."contact"?."phoneRaw" = VStr "5555550100".
Proof.
  eexists; split; [reflexivity|].
  destruct (phone_chain decimalToNumber 2026 config_display_phone)
    as (_ & _ & _ & _ & Hraw & _ & Hret & _).
  destruct (Hret _ eq_refl) as [Hd Hr].
  split; [exact Hd|].
  rewrite (Hraw eq_refl "(555) 555-0100" eq_refl) in Hr.
  apply (f_equal (fun r => match r with Ok v => v | Throw _ => VUndefined end)) in Hr.
  exact (eq_sym Hr).
Defined.

Lemma business_name_chain_witness :
  exists siteConfig,
    resolve decimalToNumber 2026 config_names = Ok siteConfig /\
    siteConfig?."business"?."name" = VStr "X".
Proof.
  eexists; split; [reflexivity|].
  exact (proj1 (business_name_chain decimalToNumber 2026 config_names _ eq_refl) eq_refl).
Defined.

Lemma reviews_disabled_witness :
  nullish (example_site false 3)?."reviews" = false /\
  truthy (example_site false 3)?."reviews"?."enabled" = false /\
  getReviewsForPage decimalToNumber (example_site false 3) example_dataset "/contact"
  = Ok no_reviews.
Proof.
  split; [reflexivity|split; [reflexivity|]].
  exact (reviews_disabled decimalToNumber (example_site false 3) example_dataset "/contact"
                          eq_refl eq_refl).
Defined.



(** The specification's example: an unknown path has no reviews and no page
    config. *)
Lemma reviews_for_unknown_page :
  getReviewsForPage decimalToNumber (example_site true 1) example_dataset "/unknown"
  = Ok no_reviews.
Proof. reflexivity. Qed.

Lemma dataset_failure_keeps_config_witness :
  exists siteConfig,
    resolve decimalToNumber 2026 (example_site true 3) = Ok siteConfig /\
    getReviewsForPage decimalToNumber siteConfig Missing "/contact"
    = Ok (VObj [("reviews", VArr []);
                ("config", VObj [("path", VStr "/contact"); ("layout", VStr "standard");
                                 ("position", VStr "before-cta");
                                 ("maxReviews", VNum (Int 3))])]).
Proof.
  eexists; split; [reflexivity|].
  destruct (dataset_failure_keeps_config decimalToNumber 2026 (example_site true 3) _
              Missing "/contact" eq_refl (or_introl eq_refl) eq_refl)
    as (_ & pages & Hp & Hfound).
  injection Hp as <-.
  exact (proj1 (Hfound _ eq_refl) eq_refl eq_refl).
Defined.

(** C10 as stated fails: with the tag [A] left without pages, the loader
    returns, reviews are enabled and the page entry matches, and the accessor
    throws a TypeError, the dataset file missing or not. *)
Lemma dataset_failure_throws_on_null_tag :
  exists siteConfig,
    loadConfig decimalToNumber 2026 (Parsed config_null_tag) = Ok siteConfig /\
    siteConfig?."reviews"?."enabled" = VBool true /\
    siteConfig?."reviews"?."pages"
    = VArr [VObj [("path", VStr "/contact"); ("layout", VStr "standard");
                  ("position", VStr "before-cta"); ("maxReviews", VNum (Int 3))]] /\
    getReviewsForPage decimalToNumber siteConfig Missing "/contact" = Throw TypeError /\
    getReviewsForPage decimalToNumber siteConfig example_dataset "/contact"
    = Throw TypeError.
Proof. eexists; split; [reflexivity|repeat split; reflexivity]. Qed.


(** * The other exports of the loader *)

Lemma or_string_not_nullish (v : value) (s : string) : nullish (v || VStr s) = false.
Proof.
  unfold js_or; destruct (truthy v) eqn:E; [now apply truthy_not_nullish | reflexivity].
Qed.

Lemma truthy_or_empty (v : value) : truthy (v || VStr "") = truthy v.
Proof. unfold js_or; destruct (truthy v) eqn:E; [exact E | reflexivity]. Qed.

Lemma string_append_assoc (a b c : string) : ((a ++ b) ++ c = a ++ b ++ c)%string.
Proof. induction a as [|x a IH]; simpl; [reflexivity | now rewrite IH]. Qed.

Section Helpers.

Variable StringToNumber : string -> number.
Variable currentYear : Z.

(** X1.  On every configuration the loader returns and whose address parts
    (street, suite, city, state, zip) are strings where they are given,
    [getFullAddress] does not throw: it returns the street, the suite when
    there is one, and "city, state zip", joined by ", ", where each part is
    the configured string or the empty string.  A missing street keeps its
    separator, so that a document without an address gives ", ,  ". *)
Theorem getFullAddress_of_loaded (config siteConfig : value) :
  resolve StringToNumber currentYear config = Ok siteConfig ->
  let a := config?."contact"?."address" in
  let part := fun k => ToString (a?.k || VStr "") in
  (forall k, In k ["street"; "suite"; "city"; "state"; "zip"] ->
             is_string (a?.k || VStr "") = true) ->
  getFullAddress siteConfig
  = Ok (VStr (part "street" ++ ", "
              ++ (if truthy a?."suite" then part "suite" ++ ", " else "")
              ++ part "city" ++ ", " ++ part "state" ++ " " ++ part "zip")) /\
  (nullish a = true -> getFullAddress siteConfig = Ok (VStr ", ,  ")).
Proof.
  intros H a part _.
  assert (Hs : member siteConfig "contact" = Ok siteConfig?."contact")
    by (resolve_inv H; reflexivity).
  assert (Hc : member siteConfig?."contact" "address"
               = Ok (VObj [("street", a?."street" || VStr "");
                           ("suite", a?."suite" || VStr "");
                           ("city", a?."city" || VStr "");
                           ("state", a?."state" || VStr "");
                           ("zip", a?."zip" || VStr "");
                           ("country", a?."country" || VStr "")]))
    by (resolve_inv H; reflexivity).
  assert (E : getFullAddress siteConfig
              = Ok (VStr (part "street" ++ ", "
                          ++ (if truthy a?."suite" then part "suite" ++ ", " else "")
                          ++ part "city" ++ ", " ++ part "state" ++ " " ++ part "zip"))).
  { unfold getFullAddress; rewrite Hs; cbn [bind]; rewrite Hc; cbn [bind]; clear Hs Hc H.
    unfold part.
    pose proof (or_string_not_nullish a?."street" "") as Hst.
    pose proof (or_string_not_nullish a?."suite" "") as Hsu.
    pose proof (truthy_or_empty a?."suite") as Tsu.
    set (st := a?."street" || VStr "") in *; set (su := a?."suite" || VStr "") in *.
    set (ci := a?."city" || VStr ""); set (sa := a?."state" || VStr "").
    set (zi := a?."zip" || VStr ""); set (co := a?."country" || VStr "").
    unfold member; cbn [nullish bind get lookup String.eqb Ascii.eqb Bool.eqb andb].
    rewrite Tsu; destruct (truthy a?."suite");
      unfold array_join; cbn [map app String.concat nullish ToString];
      rewrite Hst, ?Hsu, ?string_append_assoc; reflexivity. }
  split; [exact E|].
  intros Hn; rewrite E; unfold part.
  rewrite !(nullish_get a _ Hn); reflexivity.
Qed.

Lemma years_text_of_loaded (config siteConfig : value) :
  resolve StringToNumber currentYear config = Ok siteConfig ->
  getYearsInBusinessText StringToNumber siteConfig
  = let years := yearsInBusiness StringToNumber currentYear config in
    if js_lt_number StringToNumber years 1 then Ok (VStr "New business")
    else if strict_eq_number years 1 then Ok (VStr "1 year in business")
    else Ok (VStr (ToString years ++ "+ years in business")).
Proof.
  intros H.
  assert (Hs : member siteConfig "trust" = Ok siteConfig?."trust")
    by (resolve_inv H; reflexivity).
  assert (Ht : member siteConfig?."trust" "yearsInBusiness"
               = Ok (yearsInBusiness StringToNumber currentYear config))
    by (resolve_inv H; reflexivity).
  unfold getYearsInBusinessText; rewrite Hs; cbn [bind]; rewrite Ht; reflexivity.
Qed.

(** X2.  [getYearsInBusinessText] on a loaded configuration, by the year
    founded [y] of the document: "New business" when [year_founded] is
    missing (or 0), and when [y] is the current year or a later one;
    "1 year in business" when [y] is last year; and the number of years
    followed by "+ years in business" when [y] is earlier.  (For [y], the
    current year and their difference safe integers, between which the
    subtraction is exact and the number printed in decimal.) *)
Theorem getYearsInBusinessText_by_year (config siteConfig : value) :
  resolve StringToNumber currentYear config = Ok siteConfig ->
  let founded := config?."business"?."year_founded" in
  let text := getYearsInBusinessText StringToNumber siteConfig in
  (truthy founded = false -> text = Ok (VStr "New business")) /\
  (forall y, founded = VNum (Int y) -> y <> 0 ->
     Z.abs currentYear < 2 ^ 53 ->
     Z.abs y < 2 ^ 53 ->
     Z.abs (currentYear - y) < 2 ^ 53 ->
     (currentYear <= y -> text = Ok (VStr "New business")) /\
     (y = currentYear - 1 -> text = Ok (VStr "1 year in business")) /\
     (y < currentYear - 1 ->
      text = Ok (VStr (string_of_Z (currentYear - y) ++ "+ years in business")))).
Proof.
  intros H founded text; unfold text; rewrite (years_text_of_loaded _ _ H).
  unfold yearsInBusiness, yearFounded; fold founded; split.
  - intros F; rewrite (or_falsy _ _ F); unfold js_sub, js_lt_number; simpl.
    rewrite Z.sub_diag; reflexivity.
  - intros y -> Hy _ _ _.
    assert (T : truthy (VNum (Int y)) = true)
      by (simpl; apply negb_true_iff, Z.eqb_neq, Hy).
    rewrite (or_truthy _ _ T); unfold js_sub, js_lt_number; simpl.
    repeat split; intros Hc.
    + destruct (currentYear - y <? 1) eqn:E; [reflexivity | apply Z.ltb_ge in E; lia].
    + subst y; replace (currentYear - (currentYear - 1)) with 1 by lia; reflexivity.
    + destruct (currentYear - y <? 1) eqn:E; [apply Z.ltb_lt in E; lia|].
      destruct (currentYear - y =? 1) eqn:E1; [apply Z.eqb_eq in E1; lia | reflexivity].
Qed.

(** X3.  A [year_founded] that is a string with no numeric value gives the
    text "NaN+ years in business". *)
Theorem getYearsInBusinessText_not_a_number (config siteConfig : value) (s : string) :
  resolve StringToNumber currentYear config = Ok siteConfig ->
  config?."business"?."year_founded" = VStr s ->
  s <> ""%string ->
  StringToNumber s = NaN ->
  getYearsInBusinessText StringToNumber siteConfig = Ok (VStr "NaN+ years in business").
Proof.
  intros H E Hs Hn; rewrite (years_text_of_loaded _ _ H).
  unfold yearsInBusiness, yearFounded; rewrite E.
  assert (T : truthy (VStr s) = true)
    by (simpl; apply negb_true_iff, String.eqb_neq, Hs).
  rewrite (or_truthy _ _ T); unfold js_sub, js_lt_number; simpl; rewrite Hn; reflexivity.
Qed.

End Helpers.

Lemma getFullAddress_of_loaded_witness :
  exists siteConfig,
    resolve decimalToNumber 2026 config_null_fields = Ok siteConfig /\
    getFullAddress siteConfig = Ok (VStr ", ,  ").
Proof.
  eexists; split; [reflexivity|].
  refine (proj2 (getFullAddress_of_loaded decimalToNumber 2026 config_null_fields _
                   eq_refl _) eq_refl).
  intros k [<-|[<-|[<-|[<-|[<-|[]]]]]]; reflexivity.
Defined.

Lemma getYearsInBusinessText_by_year_witness :
  exists siteConfig,
    resolve decimalToNumber 2026 config_founded_1990 = Ok siteConfig /\
    getYearsInBusinessText decimalToNumber siteConfig
    = Ok (VStr "36+ years in business").
Proof.
  eexists; split; [reflexivity|].
  refine (proj2 (proj2 (proj2 (getYearsInBusinessText_by_year decimalToNumber 2026
                                 config_founded_1990 _ eq_refl) 1990 eq_refl _
                               eq_refl eq_refl eq_refl)) _);
    lia.
Defined.

Lemma getYearsInBusinessText_not_a_number_witness :
  exists siteConfig,
    resolve decimalToNumber 2026
      (VObj [("business", VObj [("year_founded", VStr "soon")])]) = Ok siteConfig /\
    getYearsInBusinessText decimalToNumber siteConfig = Ok (VStr "NaN+ years in business").
Proof.
  eexists; split; [reflexivity|].
  refine (getYearsInBusinessText_not_a_number decimalToNumber 2026
            (VObj [("business", VObj [("year_founded", VStr "soon")])]) _ "soon"
            eq_refl eq_refl _ eq_refl); discriminate.
Defined.


(** * The setup wizard *)

(** ** Decimal strings and [parseInt] *)

Lemma digits_value_step (c : ascii) (n acc : Z) (s : string) :
  is_digit c = true -> Z.of_nat (nat_of_ascii c - 48) = n ->
  digits_value acc (String c s) = digits_value (10 * acc + n) s.
Proof. intros Hc <-; cbn [digits_value]; now rewrite Hc. Qed.

Lemma digits_value_acc (d : Decimal.uint) (acc : positive) :
  digits_value (Z.pos acc) (NilEmpty.string_of_uint d)
  = Some (Z.pos (Pos.of_uint_acc d acc)).
Proof.
  revert acc; induction d; intros acc; cbn [NilEmpty.string_of_uint Pos.of_uint_acc];
    [reflexivity|..];
    (erewrite digits_value_step; [|reflexivity|vm_compute; reflexivity]);
    rewrite <- IHd; f_equal; lia.
Qed.

Lemma digits_value_uint (d : Decimal.uint) :
  digits_value 0 (NilEmpty.string_of_uint d) = Some (Z.of_N (Pos.of_uint d)).
Proof.
  induction d; cbn [NilEmpty.string_of_uint Pos.of_uint]; [reflexivity|..];
    (erewrite digits_value_step; [|reflexivity|vm_compute; reflexivity]);
    first [exact IHd | apply digits_value_acc].
Qed.

Lemma all_digits_uint (d : Decimal.uint) : all_digits (NilEmpty.string_of_uint d) = true.
Proof. induction d; simpl; auto. Qed.

Lemma digit_value_decimal (c : ascii) :
  is_digit c = true ->
  Wizard.digit_value 10 c = Some (Z.of_nat (nat_of_ascii c - 48)).
Proof.
  destruct c as [[|] [|] [|] [|] [|] [|] [|] [|]]; try discriminate; intros _; reflexivity.
Qed.

Lemma digit_value_not_decimal (c : ascii) :
  is_digit c = false -> Wizard.digit_value 10 c = None.
Proof.
  destruct c as [[|] [|] [|] [|] [|] [|] [|] [|]]; try discriminate; intros _; reflexivity.
Qed.

(** What follows a number and does not go on with a digit. *)
Lemma digits_prefix_stops (tail : string) (acc : Z) :
  (forall c rest, tail = String c rest -> is_digit c = false) ->
  Wizard.digits_prefix 10 (Some acc) tail = Some acc.
Proof.
  intros Ht; destruct tail as [|c rest]; [reflexivity|].
  cbn [Wizard.digits_prefix]; now rewrite (digit_value_not_decimal c (Ht c rest eq_refl)).
Qed.

Lemma digits_prefix_then (s tail : string) (acc : option Z) :
  all_digits s = true ->
  s <> ""%string ->
  (forall c rest, tail = String c rest -> is_digit c = false) ->
  Wizard.digits_prefix 10 acc (s ++ tail)
  = digits_value (match acc with Some a => a | None => 0 end) s.
Proof.
  intros Hd Hs Ht; revert acc Hd Hs; induction s as [|c s IH]; intros acc Hd Hs; [congruence|].
  simpl in Hd; apply andb_true_iff in Hd as [Hc Hd].
  cbn [append Wizard.digits_prefix digits_value]; rewrite (digit_value_decimal c Hc), Hc.
  destruct s as [|c' s'].
  - cbn [append digits_value]; now apply digits_prefix_stops.
  - rewrite IH by (assumption || discriminate); reflexivity.
Qed.

(** A string that starts with a digit or a minus sign has no white space to
    strip in front. *)
Lemma trimStart_digit (c : ascii) (s : string) :
  is_digit c = true \/ c = "-"%char ->
  Wizard.trimStart (String c s) = String c s.
Proof.
  intros Hc; unfold Wizard.trimStart; cbn [Wizard.strip_spaces].
  assert (Ha : Wizard.ascii_space c = false /\
               (forall c2, Wizard.space2 c c2 = false) /\
               (forall c2 c3, Wizard.space3 c c2 c3 = false)).
  { destruct Hc as [Hc| ->]; [|repeat split].
    destruct c as [[|] [|] [|] [|] [|] [|] [|] [|]]; try discriminate; repeat split. }
  destruct Ha as (-> & H2 & H3).
  destruct s as [|c2 [|c3 s]]; rewrite ?H2, ?H3; reflexivity.
Qed.

(** The digits [s] of [z], with or without a minus sign in front, and then
    [tail], which does not go on with a digit, nor with an [x] after a lone
    [0] (that would be a hexadecimal literal). *)
Lemma parseInt_digits_then (s tail : string) (z : Z) :
  all_digits s = true -> digits_value 0 s = Some z -> s <> ""%string ->
  (forall c rest, tail = String c rest ->
                  is_digit c = false
                  /\ (s = "0"%string -> c <> "x"%char /\ c <> "X"%char)) ->
  Wizard.parseInt (s ++ tail) = Int z
  /\ Wizard.parseInt (String "-" (s ++ tail)) = Int (- z).
Proof.
  intros Hd Hv Hs Ht.
  assert (Hp : Wizard.digits_prefix 10 None (s ++ tail) = Some z).
  { rewrite digits_prefix_then; [exact Hv | assumption..|].
    intros c rest E; exact (proj1 (Ht c rest E)). }
  assert (Hx : forall sign,
             (let '(radix, s0) :=
                match s ++ tail with
                | String "0"%char (String "x"%char rest) => (16, rest)
                | String "0"%char (String "X"%char rest) => (16, rest)
                | _ => (10, s ++ tail)
                end in
              match Wizard.digits_prefix radix None s0 with
              | Some z0 => Int (sign * z0)
              | None => NaN
              end) = Int (sign * z)).
  { intros sign.
    assert (Hr : match s ++ tail with
                 | String "0"%char (String "x"%char rest) => (16, rest)
                 | String "0"%char (String "X"%char rest) => (16, rest)
                 | _ => (10, s ++ tail)
                 end = (10, s ++ tail)).
    { destruct s as [|c [|c2 s2]]; [congruence|..].
      - cbn [append]; destruct tail as [|t rest]; [now destruct c as [[|] [|] [|] [|] [|] [|] [|] [|]]|].
        destruct (Ht t rest eq_refl) as [_ Hx].
        destruct (Ascii.eqb_spec c "0") as [->|Hc0].
        + destruct (Hx eq_refl) as [H1 H2].
          destruct (Ascii.eqb_spec t "x") as [->|Htx]; [congruence|].
          destruct (Ascii.eqb_spec t "X") as [->|HtX]; [congruence|].
          destruct t as [[|] [|] [|] [|] [|] [|] [|] [|]]; congruence.
        + destruct c as [[|] [|] [|] [|] [|] [|] [|] [|]]; congruence.
      - simpl in Hd; apply andb_true_iff in Hd as [_ Hd].
        apply andb_true_iff in Hd as [Hc2 _]; cbn [append].
        destruct c as [[|] [|] [|] [|] [|] [|] [|] [|]]; try reflexivity;
          destruct c2 as [[|] [|] [|] [|] [|] [|] [|] [|]]; try reflexivity;
          discriminate. }
    rewrite Hr, Hp; reflexivity. }
  split.
  - unfold Wizard.parseInt.
    destruct s as [|c s']; [congruence|].
    simpl in Hd; apply andb_true_iff in Hd as [Hc Hd'].
    change (String c s' ++ tail)%string with (String c (s' ++ tail)) in *.
    rewrite trimStart_digit by (left; exact Hc).
    assert (Hsign : match String c (s' ++ tail) with
                    | String "-"%char rest => (-1, rest)
                    | String "+"%char rest => (1, rest)
                    | _ => (1, String c (s' ++ tail))
                    end = (1, String c (s' ++ tail))).
    { destruct c as [[|] [|] [|] [|] [|] [|] [|] [|]]; try reflexivity; discriminate. }
    rewrite Hsign, (Hx 1); f_equal; lia.
  - unfold Wizard.parseInt; rewrite trimStart_digit by (now right).
    cbn [Ascii.eqb]; rewrite (Hx (-1)); f_equal; lia.
Qed.

Lemma string_of_uint_pos (p : positive) :
  NilZero.string_of_uint (Pos.to_uint p) = NilEmpty.string_of_uint (Pos.to_uint p)
  /\ NilEmpty.string_of_uint (Pos.to_uint p) <> ""%string
  /\ NilEmpty.string_of_uint (Pos.to_uint p) <> "0"%string
  /\ all_digits (NilEmpty.string_of_uint (Pos.to_uint p)) = true
  /\ digits_value 0 (NilEmpty.string_of_uint (Pos.to_uint p)) = Some (Z.pos p).
Proof.
  assert (Hv : digits_value 0 (NilEmpty.string_of_uint (Pos.to_uint p)) = Some (Z.pos p))
    by (rewrite digits_value_uint, DecimalPos.Unsigned.of_to; reflexivity).
  pose proof (DecimalPos.Unsigned.to_uint_nonnil p) as Hn.
  repeat split.
  - destruct (Pos.to_uint p); [congruence|reflexivity..].
  - destruct (Pos.to_uint p); [congruence|discriminate..].
  - intros E; rewrite E in Hv; discriminate.
  - apply all_digits_uint.
  - exact Hv.
Qed.

Lemma string_of_Z_zero (z : Z) : string_of_Z z = "0"%string -> z = 0.
Proof.
  destruct z as [|p|p]; [reflexivity|..]; unfold string_of_Z;
    cbn [Z.to_int NilZero.string_of_int];
    destruct (string_of_uint_pos p) as (-> & _ & H0 & _); [congruence|discriminate].
Qed.

Lemma parseInt_after_number (z : Z) (tail : string) :
  (forall c rest, tail = String c rest ->
                  is_digit c = false /\ (z = 0 -> c <> "x"%char /\ c <> "X"%char)) ->
  Wizard.parseInt (string_of_Z z ++ tail) = Int z.
Proof.
  intros Ht.
  assert (Ht' : forall s, (s = "0"%string -> z = 0) ->
                          forall c rest, tail = String c rest ->
                            is_digit c = false
                            /\ (s = "0"%string -> c <> "x"%char /\ c <> "X"%char))
    by (intros s Hs c rest E; destruct (Ht c rest E); auto).
  unfold string_of_Z; destruct z as [|p|p]; cbn [Z.to_int NilZero.string_of_int].
  - apply (parseInt_digits_then "0" tail 0); try reflexivity; [discriminate|].
    now apply Ht'.
  - destruct (string_of_uint_pos p) as (-> & Hne & H0 & Hd & Hv).
    apply (parseInt_digits_then _ tail (Z.pos p)); try assumption.
    apply Ht'; congruence.
  - destruct (string_of_uint_pos p) as (-> & Hne & H0 & Hd & Hv).
    apply (parseInt_digits_then _ tail (Z.pos p)); try assumption.
    apply Ht'; congruence.
Qed.

Lemma append_empty (s : string) : (s ++ "")%string = s.
Proof. induction s; [reflexivity | cbn [append]; congruence]. Qed.

Lemma parseInt_roundtrip (z : Z) : Wizard.parseInt (string_of_Z z) = Int z.
Proof.
  rewrite <- (parseInt_after_number z ""%string) by discriminate.
  now rewrite append_empty.
Qed.

(** X4.  [parseInt] reads the number a string starts with and ignores what
    follows it: for every integer [z] that a JavaScript number holds exactly,
    [parseInt(String(z) + tail)] is [z], if [tail] does not go on with a digit
    (nor, after the number 0, with an [x], which makes a hexadecimal
    literal).  With nothing after it, [parseInt(String(z))] is [z]. *)
Theorem parseInt_reads_leading_number (z : Z) (tail : string) :
  Z.abs z < 2 ^ 53 ->
  (forall c rest, tail = String c rest ->
                  is_digit c = false /\ (z = 0 -> c <> "x"%char /\ c <> "X"%char)) ->
  Wizard.parseInt (string_of_Z z ++ tail) = Int z
  /\ Wizard.parseInt (string_of_Z z) = Int z.
Proof.
  intros _ Ht; split; [now apply parseInt_after_number | apply parseInt_roundtrip].
Qed.

Lemma parseInt_reads_leading_number_witness :
  Wizard.parseInt "1999 or so" = Int 1999 /\ Wizard.parseInt "1999" = Int 1999.
Proof.
  apply (parseInt_reads_leading_number 1999 " or so"); [reflexivity|].
  intros c rest [= <- <-]; split; [reflexivity | discriminate].
Defined.

(** After the number 0 an [x] starts a hexadecimal literal. *)
Example parseInt_zero_then_x : Wizard.parseInt (string_of_Z 0 ++ "x1f") = Int 31.
Proof. reflexivity. Qed.


(** ** The prompts *)


Lemma prompt_blank (line : string) (defaultValue : value) :
  Wizard.trim line = ""%string -> Wizard.prompt line defaultValue = defaultValue.
Proof. unfold Wizard.prompt; intros ->; reflexivity. Qed.

Lemma prompt_answer (line : string) (defaultValue : value) :
  Wizard.trim line <> ""%string ->
  Wizard.prompt line defaultValue = VStr (Wizard.trim line).
Proof.
  unfold Wizard.prompt; intros H; apply or_truthy; simpl.
  now apply negb_true_iff, String.eqb_neq.
Qed.

Lemma prompt_string (line s : string) :
  exists s', Wizard.prompt line (VStr s) = VStr s'.
Proof.
  destruct (String.eqb_spec (Wizard.trim line) "") as [E|E].
  - rewrite prompt_blank by exact E; eauto.
  - rewrite prompt_answer by exact E; eauto.
Qed.

Lemma element_in (choices : list string) (index : number) :
  Wizard.element choices index = VUndefined \/
  exists c, Wizard.element choices index = VStr c /\ In c choices.
Proof.
  destruct index as [i|]; [|now left]; unfold Wizard.element.
  destruct (i <? 0); [now left|].
  destruct (nth_error choices (Z.to_nat i)) as [c|] eqn:E; [|now left].
  right; exists c; split; [reflexivity | eapply nth_error_In; exact E].
Qed.

Lemma element_nth (choices : list string) (i : Z) (c : string) :
  0 <= i -> nth_error choices (Z.to_nat i) = Some c ->
  Wizard.element choices (Int i) = VStr c.
Proof.
  intros Hi E; unfold Wizard.element.
  destruct (i <? 0) eqn:L; [apply Z.ltb_lt in L; lia|]; now rewrite E.
Qed.

Lemma element_outside (choices : list string) (i : Z) :
  i < 0 \/ Z.of_nat (List.length choices) <= i ->
  Wizard.element choices (Int i) = VUndefined.
Proof.
  intros Hi; unfold Wizard.element.
  destruct (i <? 0) eqn:L; [reflexivity|]; apply Z.ltb_ge in L.
  destruct (nth_error choices (Z.to_nat i)) eqn:E; [|reflexivity].
  assert (Z.to_nat i < List.length choices)%nat
    by (apply nth_error_Some; congruence).
  lia.
Qed.

Lemma or_same (v : value) : v || v = v.
Proof. unfold js_or; now destruct (truthy v). Qed.

(** X6.  [promptChoice] offers nothing but the choices: when the default
    index is in range and no choice is the empty string, the result is one of
    the choices, whatever was typed. *)
Theorem promptChoice_offers_only_choices
        (choices : list string) (defaultIndex : Z) (line : string) :
  0 <= defaultIndex < Z.of_nat (List.length choices) ->
  Forall (fun c => c <> ""%string) choices ->
  exists c, Wizard.promptChoice choices defaultIndex line = VStr c /\ In c choices.
Proof.
  intros Hd Hne; unfold Wizard.promptChoice.
  set (index := match Wizard.parseInt _ with Int z => Int (z - 1) | NaN => NaN end).
  assert (Hdef : exists c, Wizard.element choices (Int defaultIndex) = VStr c /\ In c choices).
  { destruct (nth_error choices (Z.to_nat defaultIndex)) as [c|] eqn:E.
    - exists c; split; [apply element_nth; [lia | exact E] | eapply nth_error_In; exact E].
    - apply nth_error_None in E; lia. }
  destruct (element_in choices index) as [->|(c & -> & Hin)]; [exact Hdef|].
  exists c; split; [|exact Hin].
  apply or_truthy; simpl; apply negb_true_iff, String.eqb_neq.
  rewrite Forall_forall in Hne; now apply Hne.
Qed.

(** X7.  Typing the number of a choice selects it: an answer that, trimmed,
    is the decimal numeral of [n], with [n] between 1 and the number of
    choices, gives the [n]-th choice. *)
Theorem promptChoice_selects
        (choices : list string) (defaultIndex n : Z) (line c : string) :
  Wizard.trim line = string_of_Z n ->
  1 <= n ->
  nth_error choices (Z.to_nat (n - 1)) = Some c ->
  c <> ""%string ->
  Wizard.promptChoice choices defaultIndex line = VStr c.
Proof.
  intros Ht Hn Hc Hne; unfold Wizard.promptChoice.
  assert (Hs : Wizard.trim line <> ""%string).
  { intros E; rewrite E in Ht; pose proof (parseInt_roundtrip n) as P.
    rewrite <- Ht in P; discriminate. }
  rewrite prompt_answer by exact Hs; cbn [ToString].
  rewrite Ht, parseInt_roundtrip, (element_nth choices (n - 1) c) by (lia || exact Hc).
  apply or_truthy; simpl; now apply negb_true_iff, String.eqb_neq.
Qed.

(** X8.  [promptChoice] selects by the number that [parseInt] reads at the
    start of the trimmed answer.  A number between 1 and the number of
    choices gives the choice at that place, whatever follows the number in
    the answer, unless that choice is the empty string.  The default,
    [choices[defaultIndex]], is given by a blank answer ([defaultIndex + 1]
    being a safe integer), by an answer at whose start [parseInt] reads no
    number, by a number below 1 or above the number of choices, and by an
    empty choice. *)
Theorem promptChoice_falls_back
        (choices : list string) (defaultIndex : Z) (line : string) :
  (Wizard.trim line = ""%string -> Z.abs (defaultIndex + 1) < 2 ^ 53 ->
   Wizard.promptChoice choices defaultIndex line
   = Wizard.element choices (Int defaultIndex))
  /\ (Wizard.trim line <> ""%string ->
      Wizard.parseInt (Wizard.trim line) = NaN ->
      Wizard.promptChoice choices defaultIndex line
      = Wizard.element choices (Int defaultIndex))
  /\ (forall z,
         Wizard.trim line <> ""%string ->
         Wizard.parseInt (Wizard.trim line) = Int z ->
         (z < 1 \/ Z.of_nat (List.length choices) < z ->
          Wizard.promptChoice choices defaultIndex line
          = Wizard.element choices (Int defaultIndex))
         /\ (forall c, 1 <= z -> nth_error choices (Z.to_nat (z - 1)) = Some c ->
                       (c <> ""%string ->
                        Wizard.promptChoice choices defaultIndex line = VStr c)
                       /\ (c = ""%string ->
                           Wizard.promptChoice choices defaultIndex line
                           = Wizard.element choices (Int defaultIndex)))).
Proof.
  unfold Wizard.promptChoice; split; [|split].
  - intros E _; rewrite prompt_blank by exact E; cbn [ToString].
    rewrite parseInt_roundtrip.
    replace (defaultIndex + 1 - 1) with defaultIndex by lia; apply or_same.
  - intros Hs E; rewrite prompt_answer by exact Hs; cbn [ToString].
    rewrite E; reflexivity.
  - intros z Hs E; rewrite prompt_answer by exact Hs; cbn [ToString]; rewrite E.
    split.
    + intros Hz; rewrite element_outside by lia; reflexivity.
    + intros c Hz Hc; rewrite (element_nth choices (z - 1) c) by (lia || exact Hc).
      split; [|intros ->; reflexivity].
      intros Hne; apply or_truthy; simpl; now apply negb_true_iff, String.eqb_neq.
Qed.

Lemma promptChoice_offers_only_choices_witness :
  exists c, Wizard.promptChoice Wizard.industries 0 "plumber" = VStr c
            /\ In c Wizard.industries.
Proof.
  apply promptChoice_offers_only_choices;
    [vm_compute; split; [discriminate | reflexivity]
    | repeat constructor; discriminate].
Defined.

Lemma promptChoice_selects_witness :
  Wizard.promptChoice Wizard.industries 0 "  3 " = VStr "hvac".
Proof.
  apply (promptChoice_selects Wizard.industries 0 3 "  3 " "hvac");
    [reflexivity | lia | reflexivity | discriminate].
Defined.

Lemma promptChoice_falls_back_witness :
  Wizard.promptChoice Wizard.industries 0 "9" = VStr "general"
  /\ Wizard.promptChoice Wizard.industries 0 "3rd" = VStr "hvac".
Proof.
  split.
  - exact (proj1 (proj2 (proj2 (promptChoice_falls_back Wizard.industries 0 "9")) 9
                    ltac:(discriminate) eq_refl) (or_intror eq_refl)).
  - exact (proj1 (proj2 (proj2 (proj2 (promptChoice_falls_back Wizard.industries 0 "3rd"))
                                 3 ltac:(discriminate) eq_refl)
                          "hvac" ltac:(lia) eq_refl) ltac:(discriminate)).
Defined.


(** ** Runs of prompts *)

Lemma then_done {A B : Type} (w : Wizard.wizard A) (k : A -> Wizard.wizard B)
      (input rest : list string) (b : B) :
  Wizard.then_ w k input = Wizard.Done b rest ->
  exists a mid, w input = Wizard.Done a mid /\ k a mid = Wizard.Done b rest.
Proof. unfold Wizard.then_; destruct (w input); [eauto | discriminate..]. Qed.

Lemma ret_done {A : Type} (a b : A) (input rest : list string) :
  Wizard.ret a input = Wizard.Done b rest -> a = b /\ input = rest.
Proof. unfold Wizard.ret; intros [= -> ->]; auto. Qed.

Lemma lift_done {A : Type} (r : result A) (a : A) (input rest : list string) :
  Wizard.lift r input = Wizard.Done a rest -> r = Ok a /\ input = rest.
Proof. unfold Wizard.lift; destruct r; [intros [= -> ->]; auto | discriminate]. Qed.

Lemma hint_presentable (d : value) :
  (Wizard.presentable d = true -> exists h, Wizard.hint d = Ok h)
  /\ (Wizard.presentable d = false -> Wizard.hint d = Throw TypeError).
Proof.
  unfold Wizard.presentable, Wizard.hint, to_string.
  destruct (truthy d), (converts d); cbn; split; eauto; discriminate.
Qed.

Lemma ask_presentable (d : value) (line : string) (rest : list string) :
  Wizard.presentable d = true ->
  Wizard.ask d (line :: rest) = Wizard.Done (Wizard.prompt line d) rest.
Proof.
  intros H; unfold Wizard.ask.
  destruct (proj1 (hint_presentable d) H) as [h ->]; reflexivity.
Qed.

Lemma ask_done (d v : value) (input rest : list string) :
  Wizard.ask d input = Wizard.Done v rest ->
  exists line, input = line :: rest /\ v = Wizard.prompt line d.
Proof.
  unfold Wizard.ask; destruct (Wizard.hint d); [|discriminate].
  destruct input; [discriminate | intros [= <- <-]; eauto].
Qed.

(** A prompt that was answered has shown its default. *)
Lemma ask_done_presentable (d v : value) (input rest : list string) :
  Wizard.ask d input = Wizard.Done v rest -> Wizard.presentable d = true.
Proof.
  unfold Wizard.ask; intros H.
  destruct (Wizard.presentable d) eqn:E; [reflexivity|].
  now rewrite (proj2 (hint_presentable d) E) in H.
Qed.

Lemma ask_failed (d : value) (input : list string) (f : Wizard.failure) :
  Wizard.ask d input = Wizard.Failed f ->
  Wizard.presentable d = false /\ f = Wizard.Raised TypeError.
Proof.
  unfold Wizard.ask; intros H.
  destruct (Wizard.presentable d) eqn:E.
  - destruct (proj1 (hint_presentable d) E) as [h Hh]; rewrite Hh in H.
    destruct input; discriminate.
  - rewrite (proj2 (hint_presentable d) E) in H; split; [reflexivity|congruence].
Qed.

Lemma ask_unpresentable (d : value) (input : list string) :
  Wizard.presentable d = false ->
  Wizard.ask d input = Wizard.Failed (Wizard.Raised TypeError).
Proof.
  intros E; unfold Wizard.ask; now rewrite (proj2 (hint_presentable d) E).
Qed.

Lemma askChoice_done (choices : list string) (i : Z) (v : value)
      (input rest : list string) :
  Wizard.askChoice choices i input = Wizard.Done v rest ->
  exists line, input = line :: rest /\ v = Wizard.promptChoice choices i line.
Proof. destruct input; [discriminate | intros [= <- <-]; eauto]. Qed.

(** Take a finished run of prompts apart, step by step. *)
Ltac done_inv H :=
  repeat first
    [ apply then_done in H as (? & ? & ? & H)
    | apply ret_done in H as [? ?] ];
  repeat match goal with
         | E : Wizard.ask _ _ = Wizard.Done _ _ |- _ =>
             apply ask_done in E as (? & ? & ?)
         | E : Wizard.askChoice _ _ _ = Wizard.Done _ _ |- _ =>
             apply askChoice_done in E as (? & ? & ?)
         | E : Wizard.lift _ _ = Wizard.Done _ _ |- _ =>
             apply lift_done in E as [? ?]
         | E : Wizard.ret _ _ = Wizard.Done _ _ |- _ =>
             apply ret_done in E as [? ?]
         end.

Lemma string_method_ok {A : Type} (f : string -> A) (v : value) (a : A) :
  Wizard.string_method f v = Ok a -> exists s, v = VStr s /\ a = f s.
Proof. destruct v; try discriminate; intros [= <-]; eauto. Qed.

Lemma remove_first_absent (p s : string) :
  is_substring p s = false -> Wizard.remove_first p s = s.
Proof.
  induction s as [|c s IH]; cbn [is_substring Wizard.remove_first];
    rewrite orb_false_iff; intros [-> H]; [reflexivity | now rewrite IH].
Qed.

Lemma prefix_append (p d : string) : String.prefix p (p ++ d) = true.
Proof.
  induction p as [|c p IH]; [destruct d; reflexivity|].
  cbn; destruct (ascii_dec c c); [exact IH | congruence].
Qed.

Lemma drop_append (p d : string) : Wizard.drop (String.length p) (p ++ d) = d.
Proof. induction p as [|c p IH]; [destruct d; reflexivity | exact IH]. Qed.

Lemma remove_first_prefix (p d : string) : Wizard.remove_first p (p ++ d) = d.
Proof.
  assert (E : Wizard.remove_first p (p ++ d)
              = if String.prefix p (p ++ d) then Wizard.drop (String.length p) (p ++ d)
                else (p ++ d)%string).
  { destruct (p ++ d)%string eqn:Es; cbn [Wizard.remove_first]; [now destruct (String.prefix p "")|].
    rewrite <- Es, prefix_append; reflexivity. }
  now rewrite E, prefix_append, drop_append.
Qed.

(** ** The site address *)

(** X9.  Whatever is typed, the site URL that [collectSiteInfo] stores
    starts with "http": an answer that does not is given the scheme
    "https://", and one that does is stored as it is. *)
Theorem collectSiteInfo_url_starts_with_http
        (data data' : Wizard.SetupData) (input rest : list string) :
  Wizard.collectSiteInfo data input = Wizard.Done data' rest ->
  exists domain line,
    input = line :: rest /\
    Wizard.url (Wizard.site data')
    = VStr (if String.prefix "http" domain then domain else "https://" ++ domain) /\
    String.prefix "http" (if String.prefix "http" domain then domain
                          else "https://" ++ domain) = true /\
    (Wizard.trim line <> ""%string -> domain = Wizard.trim line).
Proof.
  intros H; unfold Wizard.collectSiteInfo in H; done_inv H; subst.
  match goal with
  | E : Wizard.string_method (String.prefix "http") _ = Ok _ |- _ =>
      apply string_method_ok in E as (domain & Ed & ->)
  end.
  exists domain; eexists; split; [reflexivity|]; cbn [Wizard.site Wizard.url].
  rewrite Ed; split; [|split].
  - destruct (String.prefix "http" domain); reflexivity.
  - destruct (String.prefix "http" domain) eqn:E; [exact E | reflexivity].
  - intros Hne; rewrite prompt_answer in Ed by exact Hne; congruence.
Qed.

(** X10.  Pressing Enter at the domain question keeps an "https://" URL and
    turns an "http://" URL into an "https://" one, when what follows the
    scheme neither starts with "http" nor contains a scheme itself. *)
Theorem collectSiteInfo_blank_answer
        (data : Wizard.SetupData) (d line : string) (rest : list string) :
  Wizard.url (Wizard.site data) = VStr ("https://" ++ d)
  \/ Wizard.url (Wizard.site data) = VStr ("http://" ++ d) ->
  String.prefix "http" d = false ->
  is_substring "http://" d = false ->
  is_substring "https://" d = false ->
  Wizard.trim line = ""%string ->
  exists data',
    Wizard.collectSiteInfo data (line :: rest) = Wizard.Done data' rest /\
    Wizard.url (Wizard.site data') = VStr ("https://" ++ d).
Proof.
  intros Hu Hp H1 H2 Ht.
  assert (Hshown : (without_https <- Wizard.string_method (Wizard.remove_first "https://")
                                       (Wizard.url (Wizard.site data)) ;;
                    Ok (VStr (Wizard.remove_first "http://" without_https)))
                   = Ok (VStr d)).
  { destruct Hu as [-> | ->]; cbn [Wizard.string_method bind].
    - rewrite remove_first_prefix; now rewrite remove_first_absent.
    - replace (Wizard.remove_first "https://" ("http://" ++ d)) with ("http://" ++ d)%string
        by (symmetry; cbn; now rewrite remove_first_absent).
      now rewrite remove_first_prefix. }
  unfold Wizard.collectSiteInfo, Wizard.then_ at 1; rewrite Hshown.
  cbn [Wizard.lift]; unfold Wizard.then_ at 1.
  rewrite ask_presentable by reflexivity.
  rewrite prompt_blank by exact Ht.
  unfold Wizard.then_ at 1; cbn [Wizard.string_method Wizard.lift]; rewrite Hp.
  eexists; split; reflexivity.
Qed.

Lemma collectSiteInfo_url_starts_with_http_witness :
  exists data' rest,
    Wizard.collectSiteInfo (Wizard.defaults 2026) ["httpbin.org"; "next"]
    = Wizard.Done data' rest /\
    Wizard.url (Wizard.site data') = VStr "httpbin.org".
Proof.
  eexists; eexists; split; [reflexivity|].
  destruct (collectSiteInfo_url_starts_with_http (Wizard.defaults 2026) _
              ["httpbin.org"; "next"] _ eq_refl) as (domain & line & E & Hu & _ & Hd).
  injection E as <-; rewrite Hu, (Hd ltac:(discriminate)); reflexivity.
Defined.

Lemma collectSiteInfo_blank_answer_witness :
  exists data',
    Wizard.collectSiteInfo (Wizard.defaults 2026) [" "; "next"]
    = Wizard.Done data' ["next"] /\
    Wizard.url (Wizard.site data') = VStr "https://acme.com".
Proof.
  exact (collectSiteInfo_blank_answer (Wizard.defaults 2026) "acme.com" " " ["next"]
           (or_introl eq_refl) eq_refl eq_refl eq_refl eq_refl).
Defined.


(** ** The phone number and the founding year *)

Lemma replace_non_digits_ok (v d : value) :
  replace_non_digits v = Ok d -> exists p, v = VStr p /\ d = VStr (digits_only p).
Proof. destruct v; try discriminate; intros [= <-]; eauto. Qed.

(** X11.  After [collectContactInfo] the phone is a string and [phoneRaw] is
    "+1" followed by the digits of the phone, and by nothing else.  The
    country code is added unconditionally: a phone typed with a leading
    "+1" gets a [phoneRaw] that starts with "+11". *)
Theorem collectContactInfo_phoneRaw
        (data data' : Wizard.SetupData) (input rest : list string) :
  Wizard.collectContactInfo data input = Wizard.Done data' rest ->
  exists p,
    Wizard.phone (Wizard.contact data') = VStr p /\
    Wizard.phoneRaw (Wizard.contact data') = VStr ("+1" ++ digits_only p) /\
    all_digits (digits_only p) = true /\
    (String.prefix "+1" p = true ->
     String.prefix "+11" ("+1" ++ digits_only p) = true).
Proof.
  intros H; unfold Wizard.collectContactInfo in H.
  apply then_done in H as (email' & i1 & _ & H).
  apply then_done in H as (phone' & i2 & _ & H).
  apply then_done in H as (digits & i3 & Hd & H).
  apply lift_done in Hd as [Hd _]; apply replace_non_digits_ok in Hd as (p & -> & ->).
  apply then_done in H as (street' & i4 & _ & H).
  apply then_done in H as (address' & i5 & _ & H).
  apply then_done in H as (serviceArea' & i6 & _ & H).
  apply ret_done in H as [<- _]; cbn [Wizard.contact Wizard.phone Wizard.phoneRaw ToString].
  exists p; repeat split; [apply digits_only_all_digits|].
  intros Hp; destruct p as [|c1 p]; [discriminate|].
  cbn [String.prefix] in Hp; destruct (ascii_dec "+" c1) as [<-|]; [|discriminate].
  destruct p as [|c2 p]; [discriminate|].
  cbn [String.prefix] in Hp; destruct (ascii_dec "1" c2) as [<-|]; [|discriminate].
  cbn; now destruct (digits_only p).
Qed.

Lemma then_failed {A B : Type} (w : Wizard.wizard A) (k : A -> Wizard.wizard B)
      (input : list string) (f : Wizard.failure) :
  Wizard.then_ w k input = Wizard.Failed f ->
  w input = Wizard.Failed f \/
  exists a mid, w input = Wizard.Done a mid /\ k a mid = Wizard.Failed f.
Proof.
  unfold Wizard.then_; destruct (w input); intros H;
    [right; eauto | left; congruence | discriminate].
Qed.

Lemma askChoice_never_fails (choices : list string) (i : Z) (input : list string)
      (f : Wizard.failure) :
  Wizard.askChoice choices i input <> Wizard.Failed f.
Proof. destruct input; discriminate. Qed.

Lemma is_string_presentable (v : value) : is_string v = true -> Wizard.presentable v = true.
Proof. destruct v; try discriminate; reflexivity. Qed.

Lemma is_string_inv (v : value) : is_string v = true -> exists s, v = VStr s.
Proof. destruct v; try discriminate; eauto. Qed.

Lemma prompt_is_string (line : string) (d : value) :
  is_string d = true -> is_string (Wizard.prompt line d) = true.
Proof.
  intros H; apply is_string_inv in H as [s ->].
  destruct (prompt_string line s) as [s' ->]; reflexivity.
Qed.

(** What was typed is a string, and what was not is the default, which has
    been shown. *)
Lemma prompt_presentable (line : string) (d : value) :
  Wizard.presentable d = true -> Wizard.presentable (Wizard.prompt line d) = true.
Proof.
  intros H; destruct (String.eqb_spec (Wizard.trim line) "") as [E|E].
  - now rewrite prompt_blank.
  - now rewrite prompt_answer.
Qed.

Lemma presentable_converts (d : value) :
  Wizard.presentable d = true -> converts d = true.
Proof.
  unfold Wizard.presentable; destruct d; try reflexivity;
    cbn [truthy negb]; now rewrite orb_false_r.
Qed.

(** Take a failed run of prompts apart.  What is left are the prompts whose
    default could not be shown. *)
Ltac never_fails H :=
  repeat first
    [ apply then_failed in H as [H|(? & ? & ? & H)]
    | apply ask_failed in H as [H _]; try discriminate H
    | exact (askChoice_never_fails _ _ _ _ H)
    | discriminate H
    | match type of H with
      | (if ?b then _ else _) _ = _ => destruct b
      end ].

(** X12.  With the other defaults of its questions showable,
    [collectContactInfo] throws exactly when the phone on file cannot be
    shown as the default (a mapping with a [toString] entry), or when the
    phone question is answered with a blank line while the phone on file is
    not a string (the site crawl can put a number there): the digits are
    taken with [replace], which only a string has. *)
Theorem collectContactInfo_throws_iff
        (data : Wizard.SetupData) (l1 l2 : string) (rest : list string) :
  let c := Wizard.contact data in
  let a := Wizard.address c in
  Wizard.presentable (Wizard.email c) = true ->
  Wizard.presentable (Wizard.street a) = true ->
  Wizard.presentable (Wizard.city a) = true ->
  Wizard.presentable (Wizard.state a) = true ->
  Wizard.presentable (Wizard.zip a) = true ->
  (exists f, Wizard.collectContactInfo data (l1 :: l2 :: rest) = Wizard.Failed f)
  <-> Wizard.presentable (Wizard.phone c) = false
      \/ (Wizard.trim l2 = ""%string /\ is_string (Wizard.phone c) = false).
Proof.
  intros c a Pe Ps Pc Pt Pz; unfold Wizard.collectContactInfo; fold c; fold a.
  unfold Wizard.then_ at 1; rewrite (ask_presentable _ l1 _ Pe).
  unfold Wizard.then_ at 1.
  destruct (Wizard.presentable (Wizard.phone c)) eqn:Pp.
  2:{ rewrite (ask_unpresentable _ _ Pp); split; [now left | eauto]. }
  rewrite (ask_presentable _ l2 _ Pp).
  unfold Wizard.then_ at 1.
  assert (Hrest : forall phone' digits f,
             ~ (Wizard.then_ (Wizard.ask (Wizard.street a))
                  (fun street' =>
                     Wizard.then_
                       (if truthy street'
                        then
                          Wizard.then_ (Wizard.ask (VStr ""))
                            (fun suite' =>
                               Wizard.then_ (Wizard.ask (Wizard.city a))
                                 (fun city' =>
                                    Wizard.then_ (Wizard.ask (Wizard.state a))
                                      (fun state' =>
                                         Wizard.then_ (Wizard.ask (Wizard.zip a))
                                           (fun zip' =>
                                              Wizard.ret
                                                {| Wizard.street := street';
                                                   Wizard.suite := suite';
                                                   Wizard.city := city';
                                                   Wizard.state := state';
                                                   Wizard.zip := zip';
                                                   Wizard.country := Wizard.country a |}))))
                        else
                          Wizard.ret
                            {| Wizard.street := street'; Wizard.suite := Wizard.suite a;
                               Wizard.city := Wizard.city a; Wizard.state := Wizard.state a;
                               Wizard.zip := Wizard.zip a;
                               Wizard.country := Wizard.country a |})
                       (fun address' =>
                          Wizard.then_ (Wizard.ask (VStr ""))
                            (fun serviceArea' =>
                               Wizard.ret
                                 {| Wizard.business := Wizard.business data;
                                    Wizard.site := Wizard.site data;
                                    Wizard.contact :=
                                      {| Wizard.email := Wizard.prompt l1 (Wizard.email c);
                                         Wizard.phone := phone';
                                         Wizard.phoneRaw := VStr ("+1" ++ ToString digits);
                                         Wizard.address := address';
                                         Wizard.serviceArea := serviceArea' |};
                                    Wizard.social := Wizard.social data;
                                    Wizard.branding := Wizard.branding data;
                                    Wizard.cta := Wizard.cta data |})))
                  rest = Wizard.Failed f)).
  { intros phone' digits f Hf; never_fails Hf; congruence. }
  destruct (String.eqb_spec (Wizard.trim l2) "") as [E|E].
  - rewrite prompt_blank by exact E.
    destruct (Wizard.phone c) eqn:Ep;
      cbn [replace_non_digits Wizard.lift is_string];
      try (split; [intros _; right; split; [exact E | reflexivity] | intros _; eauto]).
    split; [|intros [?|[_ ?]]; discriminate].
    intros [f Hf]; exfalso; eapply Hrest; exact Hf.
  - rewrite prompt_answer by exact E; cbn [replace_non_digits Wizard.lift].
    split; [|intros [?|[? _]]; [discriminate | contradiction]].
    intros [f Hf]; exfalso; eapply Hrest; exact Hf.
Qed.


Lemma collectContactInfo_phoneRaw_witness :
  exists data' rest,
    Wizard.collectContactInfo (Wizard.defaults 2026)
      ["a@b.c"; "+1 (212) 555-0134"; ""; ""; ""; ""; ""; ""] = Wizard.Done data' rest /\
    Wizard.phoneRaw (Wizard.contact data') = VStr "+112125550134".
Proof.
  eexists; eexists; split; [vm_compute; reflexivity|].
  destruct (collectContactInfo_phoneRaw (Wizard.defaults 2026) _
              ["a@b.c"; "+1 (212) 555-0134"; ""; ""; ""; ""; ""; ""] _ eq_refl)
    as (p & Hp & Hraw & _).
  injection Hp as <-; exact Hraw.
Defined.

Lemma collectContactInfo_throws_iff_witness :
  Wizard.phone (Wizard.contact crawled_numeric_phone) = VNum (Int 5550134)
  /\ (exists f,
         Wizard.collectContactInfo crawled_numeric_phone ["a@b.c"; ""; "x"]
         = Wizard.Failed f)
  /\ (exists f,
         Wizard.collectContactInfo (with_phone unshowable) ["a@b.c"; "555 0134"; "x"]
         = Wizard.Failed f)
  /\ ~ (exists f,
           Wizard.collectContactInfo crawled_numeric_phone ["a@b.c"; "555 0134"; "x"]
           = Wizard.Failed f).
Proof.
  split; [reflexivity|]; split; [|split].
  - apply (proj2 (collectContactInfo_throws_iff crawled_numeric_phone "a@b.c" "" ["x"]
                    eq_refl eq_refl eq_refl eq_refl eq_refl));
      right; split; reflexivity.
  - apply (proj2 (collectContactInfo_throws_iff (with_phone unshowable) "a@b.c"
                    "555 0134" ["x"] eq_refl eq_refl eq_refl eq_refl eq_refl));
      left; reflexivity.
  - intros H.
    apply (proj1 (collectContactInfo_throws_iff crawled_numeric_phone "a@b.c"
                    "555 0134" ["x"] eq_refl eq_refl eq_refl eq_refl eq_refl)) in H.
    destruct H as [H|[H _]]; vm_compute in H; discriminate H.
Defined.

Lemma year_or_current (n : number) (currentYear : Z) :
  exists y, VNum n || VNum (Int currentYear) = VNum (Int y) /\
            (forall z, n = Int z -> z <> 0 -> y = z) /\
            (n = NaN \/ n = Int 0 -> y = currentYear).
Proof.
  destruct n as [z|].
  - destruct (Z.eq_dec z 0) as [->|Hz].
    + exists currentYear; split; [reflexivity|split]; [congruence | reflexivity].
    + exists z; split; [|split].
      * apply or_truthy; simpl; now apply negb_true_iff, Z.eqb_neq.
      * congruence.
      * intros [?|?]; congruence.
  - exists currentYear; split; [reflexivity|split]; [discriminate | reflexivity].
Qed.

(** X13.  The founding year that [collectBusinessInfo] stores is never
    [NaN].  It is the number that [parseInt] reads at the start of the answer,
    when that is a safe integer other than 0; the current year, when
    [parseInt] reads no number there, or 0; and, when Enter is pressed, the
    year on file, if that is a safe integer other than 0. *)
Theorem collectBusinessInfo_year
        (currentYear : Z) (data data' : Wizard.SetupData) (input rest : list string) :
  Wizard.collectBusinessInfo currentYear data input = Wizard.Done data' rest ->
  let year := Wizard.yearFounded (Wizard.business data') in
  exists l1 l2 l3 l4 l5 l6,
    input = l1 :: l2 :: l3 :: l4 :: l5 :: l6 :: rest /\
    year <> VNum NaN /\
    (forall z, Wizard.trim l5 <> ""%string ->
               Wizard.parseInt (Wizard.trim l5) = Int z ->
               Z.abs z < 2 ^ 53 -> z <> 0 -> year = VNum (Int z)) /\
    (Wizard.trim l5 <> ""%string ->
     Wizard.parseInt (Wizard.trim l5) = NaN \/ Wizard.parseInt (Wizard.trim l5) = Int 0 ->
     year = VNum (Int currentYear)) /\
    (forall z, Wizard.trim l5 = ""%string ->
               Wizard.yearFounded (Wizard.business data) = VNum (Int z) ->
               Z.abs z < 2 ^ 53 -> z <> 0 -> year = VNum (Int z)).
Proof.
  intros H year; unfold Wizard.collectBusinessInfo in H; done_inv H; subst.
  match goal with
  | E : to_string (Wizard.yearFounded _) = Ok ?d |- _ =>
      rename E into Hdefault; set (yearDefault := d) in *
  end.
  subst year; cbn [Wizard.business Wizard.yearFounded].
  match goal with
  | |- context [Wizard.parseInt (ToString (Wizard.prompt ?l5 (VStr yearDefault)))] =>
      destruct (year_or_current
                  (Wizard.parseInt (ToString (Wizard.prompt l5 (VStr yearDefault))))
                  currentYear) as (y & Hy & Hz & Hn)
  end.
  do 6 eexists; split; [reflexivity|].
  rewrite Hy; split; [discriminate|].
  split; [|split].
  - intros z Ht Hp _ Hnz; f_equal; f_equal; apply Hz; [|exact Hnz].
    now rewrite prompt_answer.
  - intros Ht Hp; f_equal; f_equal; apply Hn; now rewrite prompt_answer.
  - intros z Ht Hf _ Hnz; f_equal; f_equal; apply Hz; [|exact Hnz].
    rewrite prompt_blank by exact Ht; cbn [ToString].
    rewrite Hf in Hdefault; injection Hdefault as <-.
    apply parseInt_roundtrip.
Qed.

Lemma collectBusinessInfo_year_witness :
  exists data' rest,
    Wizard.collectBusinessInfo 2026 (Wizard.defaults 2026)
      ["Bob's"; ""; ""; ""; "1999 or so"; "2"; "next"] = Wizard.Done data' rest /\
    Wizard.yearFounded (Wizard.business data') = VNum (Int 1999).
Proof.
  eexists; eexists; split; [vm_compute; reflexivity|].
  destruct (collectBusinessInfo_year 2026 (Wizard.defaults 2026) _
              ["Bob's"; ""; ""; ""; "1999 or so"; "2"; "next"] _ eq_refl)
    as (l1 & l2 & l3 & l4 & l5 & l6 & E & _ & Hz & _).
  injection E as <- <- <- <- <- <-.
  exact (Hz 1999 ltac:(vm_compute; discriminate) eq_refl eq_refl ltac:(discriminate)).
Defined.


(** ** [generateConfig] *)

Lemma lookup_update_same (k : string) (x : value) (props : list (string * value)) :
  lookup k (Wizard.update k x props) = x.
Proof.
  induction props as [|[k' v] props IH]; cbn [Wizard.update lookup].
  - now rewrite String.eqb_refl.
  - destruct (String.eqb_spec k k') as [->|Hk]; cbn [lookup].
    + now rewrite String.eqb_refl.
    + apply String.eqb_neq in Hk; now rewrite Hk.
Qed.

Lemma lookup_update_other (k k' : string) (x : value) (props : list (string * value)) :
  k' <> k -> lookup k' (Wizard.update k x props) = lookup k' props.
Proof.
  intros Hk; apply String.eqb_neq in Hk.
  induction props as [|[k0 v] props IH]; cbn [Wizard.update lookup].
  - now rewrite Hk.
  - destruct (String.eqb_spec k k0) as [->|Hk0]; cbn [lookup].
    + now rewrite Hk.
    + now rewrite IH.
Qed.

Lemma set_prop_ok (v : value) (k : string) (x : value) (v' : value) :
  Wizard.set_prop v k x = Ok v' ->
  Wizard.takes_properties v = true
  /\ Wizard.takes_properties v' = true
  /\ is_object v' = is_object v
  /\ (is_object v = true -> v'?.k = x)
  /\ (forall k', k' <> k -> v'?.k' = v?.k').
Proof.
  destruct v; try discriminate; intros [= <-]; repeat split; try discriminate.
  - intros _; apply lookup_update_same.
  - intros k' Hk; now apply lookup_update_other.
Qed.

Lemma set_prop_takes (v : value) (k : string) (x : value) :
  Wizard.takes_properties v = true ->
  exists v', Wizard.set_prop v k x = Ok v'.
Proof. destruct v; try discriminate; intros _; cbn; eauto. Qed.

Lemma set_in_ok (config : value) (section k : string) (x : value) (config' : value) :
  Wizard.set_in config section k x = Ok config' ->
  is_object config = true
  /\ is_object config' = true
  /\ Wizard.takes_properties config?.section = true
  /\ Wizard.takes_properties config'?.section = true
  /\ (is_object config?.section = true -> config'?.section?.k = x)
  /\ (forall k', k' <> k -> config'?.section?.k' = config?.section?.k')
  /\ (forall s', s' <> section -> config'?.s' = config?.s').
Proof.
  unfold Wizard.set_in, member; intros H.
  destruct (nullish config) eqn:En; [discriminate|]; cbn [bind] in H.
  apply bind_ok in H as (s' & Hs & H).
  apply set_prop_ok in Hs as (Ht & Ht' & _ & Hsame & Hother).
  destruct config as [| | | | |l|props]; try discriminate.
  cbn in H; injection H as <-.
  cbn [get] in *; rewrite lookup_update_same.
  repeat split; try assumption.
  intros s0 Hs0; now apply lookup_update_other.
Qed.

Lemma set_in_takes (props : list (string * value)) (section k : string) (x : value) :
  Wizard.takes_properties (lookup section props) = true ->
  exists props', Wizard.set_in (VObj props) section k x = Ok (VObj props')
                 /\ Wizard.takes_properties (lookup section props') = true
                 /\ (forall s', s' <> section -> lookup s' props' = lookup s' props).
Proof.
  intros Ht; destruct (set_prop_takes _ k x Ht) as (s' & Hs).
  exists (Wizard.update section s' props); unfold Wizard.set_in, member.
  cbn [nullish bind get]; rewrite Hs; cbn [bind Wizard.set_prop].
  split; [reflexivity|]; rewrite lookup_update_same; split.
  - now apply set_prop_ok in Hs as (_ & ? & _).
  - intros s0 Hs0; now apply lookup_update_other.
Qed.

(** The steps of a successful [generateConfig], one fact per assignment. *)
Ltac generateConfig_inv H :=
  unfold Wizard.generateConfig in H;
  do 14 (let c := fresh "c" in
         let Hc := fresh "Hc" in
         apply bind_ok in H as (c & Hc & H));
  repeat match goal with
         | E : Wizard.set_prop _ _ _ = Ok _ |- _ =>
             let T := fresh "T" in
             let T' := fresh "T'" in
             let O := fresh "O" in
             let S := fresh "S" in
             let G := fresh "G" in
             apply set_prop_ok in E as (T & T' & O & S & G)
         | E : Wizard.set_in _ _ _ _ = Ok _ |- _ =>
             let O := fresh "O" in
             let O' := fresh "O'" in
             let T := fresh "T" in
             let T' := fresh "T'" in
             let S := fresh "S" in
             let I := fresh "I" in
             let G := fresh "G" in
             apply set_in_ok in E as (O & O' & T & T' & S & I & G)
         | E : Wizard.string_method _ _ = Ok _ |- _ =>
             let u := fresh "u" in
             let Hu := fresh "Hu" in
             apply string_method_ok in E as (u & Hu & ->)
         end.

(** Read a section back through the assignments made after it. *)
Ltac read_back side :=
  repeat match goal with
         | G : forall s', s' <> _ -> ?c?.s' = _ |- context [?c?.?k] =>
             rewrite (G k) by side
         end.

Lemma generateConfig_ok (data : Wizard.SetupData) (template out : value) :
  Wizard.generateConfig data template = Ok out ->
  is_object template = true
  /\ is_object out = true
  /\ is_string (Wizard.url (Wizard.site data)) = true
  /\ (forall s, In s ["branding"; "contact_form"; "email"; "seo"; "legal"] ->
                Wizard.takes_properties template?.s = true
                /\ Wizard.takes_properties out?.s = true)
  /\ (forall k, ~ In k ["business"; "site"; "contact"; "social"; "branding"; "cta";
                        "contact_form"; "email"; "seo"; "legal"] ->
                out?.k = template?.k)
  /\ (forall s keys k,
         In (s, keys) [("branding", ["colors"]);
                       ("contact_form", ["recipient_email"; "subject_prefix"]);
                       ("email", ["from_email"; "reply_to"]);
                       ("seo", ["title_template"; "default_title"]);
                       ("legal", ["copyright_holder"; "privacy_email"])] ->
         ~ In k keys -> out?.s?.k = template?.s?.k).
Proof.
  intros H; generateConfig_inv H.
  repeat match goal with
         | G : forall s', s' <> _ -> ?c?.s' = _,
           T : Wizard.takes_properties ?c?.?k = true |- _ =>
             rewrite (G k) in T by discriminate
         end.
  split; [congruence|].
  split; [assumption|].
  split; [now rewrite Hu|].
  split; [|split].
  - intros s [<-|[<-|[<-|[<-|[<-|[]]]]]]; (split; [assumption|]);
      read_back ltac:(discriminate); assumption.
  - intros k Hk; read_back ltac:(intros ->; apply Hk; cbn; tauto); reflexivity.
  - intros s keys k [E|[E|[E|[E|[E|[]]]]]] Hk; injection E as <- <-;
      repeat first
        [ progress read_back ltac:(discriminate)
        | match goal with
          | I : forall k', k' <> _ -> ?c?.?s?.k' = _ |- context [?c?.?s?.?k0] =>
              rewrite (I k0) by (intros ->; apply Hk; cbn; tauto)
          end ];
      reflexivity.
Qed.

Lemma usable_set_prop (config : value) (k : string) (x : value) :
  Wizard.usable_template config = true ->
  ~ In k Wizard.patched_sections ->
  exists config', Wizard.set_prop config k x = Ok config'
                  /\ Wizard.usable_template config' = true.
Proof.
  unfold Wizard.usable_template; intros H Hk.
  apply andb_true_iff in H as [Ho H]; destruct config; try discriminate.
  eexists; split; [reflexivity|]; cbn [is_object andb get].
  rewrite forallb_forall in *; intros s Hs.
  rewrite lookup_update_other by (intros ->; contradiction); now apply H.
Qed.

Lemma usable_set_in (config : value) (section k : string) (x : value) :
  Wizard.usable_template config = true ->
  In section Wizard.patched_sections ->
  exists config', Wizard.set_in config section k x = Ok config'
                  /\ Wizard.usable_template config' = true.
Proof.
  unfold Wizard.usable_template; intros H Hs.
  apply andb_true_iff in H as [Ho H]; destruct config; try discriminate.
  rewrite forallb_forall in H.
  destruct (set_in_takes props section k x (H section Hs)) as (props' & E & Ht & Hg).
  exists (VObj props'); split; [exact E|]; cbn [is_object andb get].
  rewrite forallb_forall; intros s' Hs'.
  destruct (String.eqb_spec s' section) as [->|Hne]; [exact Ht|].
  rewrite Hg by exact Hne; now apply H.
Qed.

Lemma generateConfig_on_usable (data : Wizard.SetupData) (template : value) :
  Wizard.usable_template template = true ->
  is_string (Wizard.url (Wizard.site data)) = true ->
  exists out, Wizard.generateConfig data template = Ok out.
Proof.
  intros Hu Hs; unfold Wizard.generateConfig.
  destruct (Wizard.url (Wizard.site data)) as [| | | |u| |]; try discriminate.
  cbn [Wizard.string_method bind].
  repeat match goal with
         | U : Wizard.usable_template ?c = true
           |- context [bind (Wizard.set_prop ?c ?k ?x) _] =>
             let E := fresh "E" in
             let U' := fresh "U" in
             destruct (usable_set_prop c k x U) as (? & E & U');
             [ cbn; intuition discriminate | rewrite E; cbn [bind]; clear U E ]
         | U : Wizard.usable_template ?c = true
           |- context [bind (Wizard.set_in ?c ?s ?k ?x) _] =>
             let E := fresh "E" in
             let U' := fresh "U" in
             destruct (usable_set_in c s k x U) as (? & E & U');
             [ cbn; tauto | rewrite E; cbn [bind]; clear U E ]
         end.
  match goal with
  | U : Wizard.usable_template ?c = true |- context [Wizard.set_in ?c ?s ?k ?x] =>
      destruct (usable_set_in c s k x U) as (out & E & _); [cbn; tauto | eauto]
  end.
Qed.

Lemma bind_throw {A B : Type} (r : result A) (k : A -> result B) (e : exn) :
  bind r k = Throw e -> r = Throw e \/ exists a, r = Ok a /\ k a = Throw e.
Proof. destruct r; cbn [bind]; intros H; [right; eauto | left; congruence]. Qed.

Lemma set_prop_throw (v : value) (k : string) (x : value) (e : exn) :
  Wizard.set_prop v k x = Throw e -> e = TypeError.
Proof. destruct v; cbn; congruence. Qed.

Lemma set_in_throw (config : value) (section k : string) (x : value) (e : exn) :
  Wizard.set_in config section k x = Throw e -> e = TypeError.
Proof.
  unfold Wizard.set_in, member; destruct (nullish config); cbn [bind]; [congruence|].
  intros H; apply bind_throw in H as [H|(s' & _ & H)]; eapply set_prop_throw; exact H.
Qed.

Lemma string_method_throw {A : Type} (f : string -> A) (v : value) (e : exn) :
  Wizard.string_method f v = Throw e -> e = TypeError.
Proof. destruct v; cbn; congruence. Qed.

(** Whatever [generateConfig] throws is a [TypeError]. *)
Lemma generateConfig_throw (data : Wizard.SetupData) (template : value) (e : exn) :
  Wizard.generateConfig data template = Throw e -> e = TypeError.
Proof.
  unfold Wizard.generateConfig; intros H.
  do 14 (apply bind_throw in H as [H|(? & _ & H)];
         [first [ exact (set_prop_throw _ _ _ _ H)
                | exact (set_in_throw _ _ _ _ _ H)
                | exact (string_method_throw _ _ _ H) ]|]).
  exact (set_in_throw _ _ _ _ _ H).
Qed.

(** X14.  [generateConfig] writes [config.yaml] exactly when the template is
    a mapping in which [branding], [contact_form], [email], [seo] and [legal]
    each take a property (a mapping, or a list) and the site URL is a
    string; with any other template it throws a [TypeError], after every
    question has been answered. *)
Theorem generateConfig_succeeds_iff (data : Wizard.SetupData) (template : value) :
  ((exists out, Wizard.generateConfig data template = Ok out)
   <-> Wizard.usable_template template = true
       /\ is_string (Wizard.url (Wizard.site data)) = true)
  /\ (Wizard.usable_template template = false ->
      Wizard.generateConfig data template = Throw TypeError).
Proof.
  assert (Hok : forall out, Wizard.generateConfig data template = Ok out ->
                            Wizard.usable_template template = true
                            /\ is_string (Wizard.url (Wizard.site data)) = true).
  { intros out H; apply generateConfig_ok in H as (Ho & _ & Hu & Ht & _).
    split; [|exact Hu]; unfold Wizard.usable_template.
    rewrite Ho; apply forallb_forall; intros s Hs; now apply Ht. }
  split; [split|].
  - intros [out H]; now apply (Hok out).
  - intros [Hu Hs]; now apply generateConfig_on_usable.
  - intros Hu; destruct (Wizard.generateConfig data template) as [out|e] eqn:E.
    + destruct (Hok out eq_refl); congruence.
    + now rewrite (generateConfig_throw data template e E).
Qed.

Lemma generateConfig_succeeds_iff_witness :
  (exists out, Wizard.generateConfig (Wizard.defaults 2026) example_template = Ok out)
  /\ Wizard.generateConfig (Wizard.defaults 2026) (VObj []) = Throw TypeError.
Proof.
  split.
  - apply (proj2 (proj1 (generateConfig_succeeds_iff (Wizard.defaults 2026)
                           example_template))); split; reflexivity.
  - apply (proj2 (generateConfig_succeeds_iff (Wizard.defaults 2026) (VObj [])));
      reflexivity.
Defined.

Lemma generateConfig_written (data : Wizard.SetupData) (template out : value) :
  Wizard.generateConfig data template = Ok out ->
  out?."business"?."year_founded" = Wizard.yearFounded (Wizard.business data)
  /\ out?."site"?."url" = Wizard.url (Wizard.site data)
  /\ out?."contact"?."phone" = Wizard.phone (Wizard.contact data)
  /\ out?."contact"?."phone_raw" = Wizard.phoneRaw (Wizard.contact data)
  /\ out?."contact"?."phone_local" = VUndefined
  /\ out?."cta"?."secondary"?."url"
     = VStr ("tel:" ++ ToString (Wizard.phoneRaw (Wizard.contact data))).
Proof.
  intros H; generateConfig_inv H.
  assert (is_object template = true) by congruence.
  assert (is_object c = true) by congruence.
  assert (is_object c0 = true) by congruence.
  assert (is_object c1 = true) by congruence.
  assert (is_object c3 = true) by congruence.
  repeat split; read_back ltac:(discriminate);
    match goal with
    | S : _ -> ?c?.?k = _ |- context [?c?.?k] => rewrite S by assumption
    end; reflexivity.
Qed.

(** X15.  [generateConfig] keeps the rest of the template: every top-level
    section other than the ten it writes comes out as it went in, and so
    does, inside [branding], [contact_form], [email], [seo] and [legal],
    every key other than the ones it sets.  (The template is taken as a
    tree: with a YAML alias two sections are one object, and an assignment
    into one shows in the other.) *)
Theorem generateConfig_keeps_the_rest (data : Wizard.SetupData) (template out : value) :
  Wizard.generateConfig data template = Ok out ->
  (forall k, ~ In k ["business"; "site"; "contact"; "social"; "branding"; "cta";
                     "contact_form"; "email"; "seo"; "legal"] ->
             out?.k = template?.k)
  /\ (forall k, k <> "colors"%string -> out?."branding"?.k = template?."branding"?.k)
  /\ (forall k, ~ In k ["recipient_email"; "subject_prefix"] ->
                out?."contact_form"?.k = template?."contact_form"?.k)
  /\ (forall k, ~ In k ["from_email"; "reply_to"] ->
                out?."email"?.k = template?."email"?.k)
  /\ (forall k, ~ In k ["title_template"; "default_title"] ->
                out?."seo"?.k = template?."seo"?.k)
  /\ (forall k, ~ In k ["copyright_holder"; "privacy_email"] ->
                out?."legal"?.k = template?."legal"?.k).
Proof.
  intros H; apply generateConfig_ok in H as (_ & _ & _ & _ & Hk & Hi).
  split; [exact Hk|].
  split; [intros k Hn; apply (Hi "branding" ["colors"] k);
          [cbn; tauto | intros [<-|[]]; now apply Hn]|].
  repeat split; intros k Hn;
    match goal with
    | |- ?o?.?s?.k = _ =>
        match type of Hn with
        | ~ In k ?keys => apply (Hi s keys k); [cbn; tauto | exact Hn]
        end
    end.
Qed.

Lemma generateConfig_keeps_the_rest_witness :
  exists out,
    Wizard.generateConfig (Wizard.defaults 2026) example_template = Ok out
    /\ out?."services" = example_template?."services"
    /\ out?."branding"?."style" = VStr "modern".
Proof.
  eexists; split; [vm_compute; reflexivity|].
  destruct (generateConfig_keeps_the_rest (Wizard.defaults 2026) example_template _
              eq_refl) as (Hk & Hb & _).
  split; [apply Hk; cbn; intuition discriminate | apply (Hb "style"); discriminate].
Defined.


(** ** The whole run *)

Lemma promptChoice_cases (choices : list string) (defaultIndex : Z) (line : string) :
  Wizard.promptChoice choices defaultIndex line
  = Wizard.element choices (Int defaultIndex)
  \/ exists c, Wizard.promptChoice choices defaultIndex line = VStr c /\ In c choices.
Proof.
  unfold Wizard.promptChoice.
  set (index := match Wizard.parseInt _ with Int z => Int (z - 1) | NaN => NaN end).
  destruct (element_in choices index) as [->|(c & -> & Hin)]; [now left|].
  unfold js_or; destruct (truthy (VStr c)); [right; eauto | now left].
Qed.

Lemma promptYesNo_never_throws (line : string) (defaultYes : bool) :
  exists b, Wizard.promptYesNo line defaultYes = Ok b.
Proof.
  unfold Wizard.promptYesNo; destruct (prompt_string line "") as [s ->].
  destruct (strict_eq_str (VStr s) ""); cbn; eauto.
Qed.

Lemma askYesNo_never_fails (d : bool) (input : list string) (f : Wizard.failure) :
  Wizard.askYesNo d input <> Wizard.Failed f.
Proof.
  destruct input as [|line rest]; [discriminate|]; cbn [Wizard.askYesNo].
  destruct (promptYesNo_never_throws line d) as [b ->]; discriminate.
Qed.

Lemma askYesNo_done (d b : bool) (input rest : list string) :
  Wizard.askYesNo d input = Wizard.Done b rest ->
  exists line, input = line :: rest /\ Wizard.promptYesNo line d = Ok b.
Proof.
  destruct input as [|line rest']; [discriminate|]; cbn [Wizard.askYesNo]; intros H.
  apply lift_done in H as [H ->]; eauto.
Qed.

Lemma lift_failed {A : Type} (r : result A) (input : list string) (f : Wizard.failure) :
  Wizard.lift r input = Wizard.Failed f -> exists e, r = Throw e /\ f = Wizard.Raised e.
Proof. unfold Wizard.lift; destruct r; [discriminate | intros [= <-]; eauto]. Qed.

Lemma ask_done_shown (d v : value) (input rest : list string) :
  Wizard.ask d input = Wizard.Done v rest -> Wizard.presentable v = true.
Proof.
  intros H; pose proof (ask_done_presentable _ _ _ _ H) as P.
  apply ask_done in H as (line & _ & ->); now apply prompt_presentable.
Qed.

Lemma to_string_converts (v : value) :
  converts v = true -> to_string v = Ok (ToString v).
Proof. unfold to_string; now intros ->. Qed.

Lemma to_string_ok (v : value) (s : string) :
  to_string v = Ok s -> s = ToString v.
Proof. unfold to_string; destruct (converts v); [now intros [= <-] | discriminate]. Qed.

(** A prompt that failed, where its default can be shown. *)
Ltac shown H :=
  apply ask_failed in H as [H _];
  first
    [ discriminate H
    | congruence
    | match goal with
      | E : Wizard.ask _ _ = Wizard.Done ?a _ |- _ =>
          rewrite (ask_done_shown _ _ _ _ E) in H; discriminate H
      end ].

(** A failed run of prompts each of whose defaults can be shown. *)
Ltac all_shown H :=
  repeat first
    [ apply then_failed in H as [H|(? & ? & ? & H)]
    | shown H
    | exact (askChoice_never_fails _ _ _ _ H)
    | discriminate H
    | match type of H with
      | (if ?b then _ else _) _ = _ => destruct b
      end ].

(** What each group of questions leaves alone, and what it stores. *)

Lemma collectBusinessInfo_done
      (currentYear : Z) (data data' : Wizard.SetupData) (input rest : list string) :
  Wizard.collectBusinessInfo currentYear data input = Wizard.Done data' rest ->
  (is_number (Wizard.yearFounded (Wizard.business data')) = true
   /\ Wizard.yearFounded (Wizard.business data') <> VNum NaN)
  /\ Wizard.site data' = Wizard.site data
  /\ Wizard.contact data' = Wizard.contact data
  /\ Wizard.social data' = Wizard.social data
  /\ Wizard.branding data' = Wizard.branding data.
Proof.
  intros H; unfold Wizard.collectBusinessInfo in H; done_inv H; subst.
  cbn [Wizard.business Wizard.yearFounded Wizard.site Wizard.contact Wizard.social
       Wizard.branding].
  split; [|repeat split].
  match goal with
  | |- context [VNum ?n || VNum (Int currentYear)] =>
      destruct (year_or_current n currentYear) as (y & -> & _)
  end.
  split; [reflexivity | discriminate].
Qed.

Lemma collectSiteInfo_done (data data' : Wizard.SetupData) (input rest : list string) :
  Wizard.collectSiteInfo data input = Wizard.Done data' rest ->
  (exists u, Wizard.url (Wizard.site data') = VStr u /\ String.prefix "http" u = true)
  /\ Wizard.business data' = Wizard.business data
  /\ Wizard.contact data' = Wizard.contact data
  /\ Wizard.social data' = Wizard.social data
  /\ Wizard.branding data' = Wizard.branding data.
Proof.
  intros H; unfold Wizard.collectSiteInfo in H; done_inv H; subst.
  match goal with
  | E : Wizard.string_method (String.prefix "http") _ = Ok _ |- _ =>
      apply string_method_ok in E as (domain & Ed & ->)
  end.
  cbn [Wizard.site Wizard.url Wizard.business Wizard.contact Wizard.social
       Wizard.branding]; rewrite Ed.
  split; [|repeat split].
  destruct (String.prefix "http" domain) eqn:E; eauto.
Qed.

Lemma collectContactInfo_done (data data' : Wizard.SetupData) (input rest : list string) :
  Wizard.collectContactInfo data input = Wizard.Done data' rest ->
  (exists p, Wizard.phone (Wizard.contact data') = VStr p
             /\ Wizard.phoneRaw (Wizard.contact data') = VStr ("+1" ++ digits_only p))
  /\ Wizard.presentable (Wizard.email (Wizard.contact data')) = true
  /\ Wizard.business data' = Wizard.business data
  /\ Wizard.site data' = Wizard.site data
  /\ Wizard.social data' = Wizard.social data
  /\ Wizard.branding data' = Wizard.branding data.
Proof.
  intros H; unfold Wizard.collectContactInfo in H.
  apply then_done in H as (email' & i1 & He & H).
  apply then_done in H as (phone' & i2 & _ & H).
  apply then_done in H as (digits & i3 & Hd & H).
  apply lift_done in Hd as [Hd _]; apply replace_non_digits_ok in Hd as (p & -> & ->).
  apply then_done in H as (street' & i4 & _ & H).
  apply then_done in H as (address' & i5 & _ & H).
  apply then_done in H as (serviceArea' & i6 & _ & H).
  apply ret_done in H as [<- _].
  cbn [Wizard.contact Wizard.phone Wizard.phoneRaw Wizard.email Wizard.business Wizard.site
       Wizard.social Wizard.branding ToString].
  split; [eauto|]; split; [exact (ask_done_shown _ _ _ _ He)|repeat split].
Qed.

Lemma collectSocialMedia_done (data data' : Wizard.SetupData) (input rest : list string) :
  Wizard.collectSocialMedia data input = Wizard.Done data' rest ->
  Wizard.business data' = Wizard.business data
  /\ Wizard.site data' = Wizard.site data
  /\ Wizard.contact data' = Wizard.contact data
  /\ Wizard.branding data' = Wizard.branding data.
Proof.
  intros H; unfold Wizard.collectSocialMedia in H; done_inv H; subst; auto.
Qed.

Lemma collectBranding_done (data data' : Wizard.SetupData) (input rest : list string) :
  Wizard.collectBranding data input = Wizard.Done data' rest ->
  Wizard.business data' = Wizard.business data
  /\ Wizard.site data' = Wizard.site data
  /\ Wizard.contact data' = Wizard.contact data.
Proof.
  intros H; unfold Wizard.collectBranding in H.
  apply then_done in H as (choice & i1 & _ & H).
  apply then_done in H as (primary & i2 & _ & H).
  apply then_done in H as (branding' & i3 & _ & H).
  apply ret_done in H as [<- _]; auto.
Qed.

Lemma collectCTA_done (data data' : Wizard.SetupData) (input rest : list string) :
  Wizard.collectCTA data input = Wizard.Done data' rest ->
  Wizard.business data' = Wizard.business data
  /\ Wizard.site data' = Wizard.site data
  /\ Wizard.contact data' = Wizard.contact data.
Proof.
  intros H; unfold Wizard.collectCTA in H.
  apply then_done in H as (choice & i1 & _ & H).
  apply then_done in H as (primaryText' & i2 & _ & H).
  apply then_done in H as (tel & i3 & _ & H).
  apply then_done in H as (mailto & i4 & _ & H).
  apply then_done in H as (primaryUrl' & i5 & _ & H).
  apply ret_done in H as [<- _]; auto.
Qed.

(** Where a group of questions can throw. *)

Lemma collectBusinessInfo_never_fails
      (currentYear : Z) (data : Wizard.SetupData) (input : list string)
      (f : Wizard.failure) :
  let b := Wizard.business data in
  Wizard.presentable (Wizard.name b) = true ->
  Wizard.presentable (Wizard.tagline b) = true ->
  Wizard.presentable (Wizard.description b) = true ->
  converts (Wizard.yearFounded b) = true ->
  Wizard.collectBusinessInfo currentYear data input <> Wizard.Failed f.
Proof.
  intros b Pn Pt Pd Cy H; subst b; unfold Wizard.collectBusinessInfo in H.
  set (b := Wizard.business data) in *.
  apply then_failed in H as [H|(name' & i1 & E1 & H)]; [shown H|].
  apply then_failed in H as [H|(legalName' & i2 & E2 & H)]; [shown H|].
  apply then_failed in H as [H|(tagline' & i3 & E3 & H)]; [shown H|].
  assert (Hdefault : exists d,
             (if truthy (Wizard.description b) then Ok (Wizard.description b)
              else printed <- to_string name' ;;
                   Ok (VStr (printed ++ " provides professional services and solutions.")))
             = Ok d /\ Wizard.presentable d = true).
  { destruct (truthy (Wizard.description b)); [eauto|].
    rewrite (to_string_converts name')
      by (apply presentable_converts; exact (ask_done_shown _ _ _ _ E1)).
    cbn [bind]; eauto. }
  destruct Hdefault as (d & Hd & Pdd); rewrite Hd in H.
  apply then_failed in H as [H|(d' & i4 & E4 & H)]; [discriminate H|].
  apply lift_done in E4 as [[= <-] _].
  apply then_failed in H as [H|(description' & i5 & E5 & H)]; [shown H|].
  rewrite (to_string_converts _ Cy) in H.
  apply then_failed in H as [H|(yd & i6 & E6 & H)]; [discriminate H|].
  apply then_failed in H as [H|(yearInput & i7 & E7 & H)]; [shown H|].
  never_fails H.
Qed.

Lemma collectSiteInfo_fails (data : Wizard.SetupData) (input : list string)
      (f : Wizard.failure) :
  Wizard.collectSiteInfo data input = Wizard.Failed f ->
  is_string (Wizard.url (Wizard.site data)) = false.
Proof.
  unfold Wizard.collectSiteInfo; intros H.
  destruct (Wizard.url (Wizard.site data)) as [| | | |u| |]; try reflexivity.
  exfalso; cbn [Wizard.string_method bind] in H.
  apply then_failed in H as [H|(shown & i1 & E & H)]; [discriminate|].
  apply lift_done in E as [[= <-] _].
  apply then_failed in H as [H|(domain & i2 & E & H)]; [shown H|].
  apply ask_done in E as (line & _ & ->).
  destruct (prompt_string line (Wizard.remove_first "http://"
                                  (Wizard.remove_first "https://" u))) as [s Es].
  rewrite Es in H; cbn [Wizard.string_method] in H; never_fails H.
Qed.

Lemma collectContactInfo_never_fails (data : Wizard.SetupData) (input : list string)
      (f : Wizard.failure) :
  let c := Wizard.contact data in
  let a := Wizard.address c in
  Wizard.presentable (Wizard.email c) = true ->
  is_string (Wizard.phone c) = true ->
  Wizard.presentable (Wizard.street a) = true ->
  Wizard.presentable (Wizard.city a) = true ->
  Wizard.presentable (Wizard.state a) = true ->
  Wizard.presentable (Wizard.zip a) = true ->
  Wizard.collectContactInfo data input <> Wizard.Failed f.
Proof.
  intros c a Pe Sp Ps Pc Pt Pz H; subst a c; unfold Wizard.collectContactInfo in H.
  pose proof (is_string_presentable _ Sp) as Pp.
  apply then_failed in H as [H|(email' & i1 & E1 & H)]; [shown H|].
  apply then_failed in H as [H|(phone' & i2 & E2 & H)]; [shown H|].
  apply ask_done in E2 as (line & _ & ->).
  pose proof (prompt_is_string line _ Sp) as Sp'.
  apply is_string_inv in Sp' as [p Ep]; rewrite Ep in H; cbn [replace_non_digits] in H.
  apply then_failed in H as [H|(digits & i3 & E3 & H)]; [discriminate H|].
  apply then_failed in H as [H|(street' & i4 & E4 & H)]; [shown H|].
  apply then_failed in H as [H|(address' & i5 & E5 & H)].
  - destruct (truthy street'); [|discriminate H].
    apply then_failed in H as [H|(? & ? & ? & H)]; [shown H|].
    apply then_failed in H as [H|(? & ? & ? & H)]; [shown H|].
    apply then_failed in H as [H|(? & ? & ? & H)]; [shown H|].
    apply then_failed in H as [H|(? & ? & ? & H)]; [shown H|].
    discriminate H.
  - apply then_failed in H as [H|(? & ? & ? & H)]; [shown H|].
    discriminate H.
Qed.

Lemma collectSocialMedia_never_fails (data : Wizard.SetupData) (input : list string)
      (f : Wizard.failure) :
  let s := Wizard.social data in
  Wizard.presentable (Wizard.facebook s) = true ->
  Wizard.presentable (Wizard.instagram s) = true ->
  Wizard.presentable (Wizard.linkedin s) = true ->
  Wizard.presentable (Wizard.yelp s) = true ->
  Wizard.presentable (Wizard.googleBusiness s) = true ->
  Wizard.collectSocialMedia data input <> Wizard.Failed f.
Proof.
  intros s P1 P2 P3 P4 P5 H; subst s; unfold Wizard.collectSocialMedia in H.
  do 5 (apply then_failed in H as [H|(? & ? & ? & H)]; [shown H|]).
  discriminate H.
Qed.

Lemma collectCTA_never_fails (data : Wizard.SetupData) (input : list string)
      (f : Wizard.failure) :
  converts (Wizard.phoneRaw (Wizard.contact data)) = true ->
  converts (Wizard.email (Wizard.contact data)) = true ->
  Wizard.collectCTA data input <> Wizard.Failed f.
Proof.
  intros Cp Ce H; unfold Wizard.collectCTA in H.
  rewrite (to_string_converts _ Cp), (to_string_converts _ Ce) in H.
  apply then_failed in H as [H|(choice & i1 & E1 & H)];
    [exact (askChoice_never_fails _ _ _ _ H)|].
  apply then_failed in H as [H|(text & i2 & E2 & H)].
  - destruct (strict_eq_str choice "Custom text"); [shown H | discriminate H].
  - never_fails H.
Qed.

(** [collectBranding] fails only after "Custom colors", on a colour on file
    that cannot be shown. *)
Lemma collectBranding_failed (data : Wizard.SetupData) (input : list string)
      (f : Wizard.failure) :
  Wizard.collectBranding data input = Wizard.Failed f ->
  (exists line rest,
      input = line :: rest
      /\ Wizard.promptChoice (map fst Wizard.colorPresets) 0 line = VStr "Custom colors")
  /\ (Wizard.presentable (Wizard.primaryColor (Wizard.branding data))
      && Wizard.presentable (Wizard.secondaryColor (Wizard.branding data))
      && Wizard.presentable (Wizard.accentColor (Wizard.branding data)))%bool = false.
Proof.
  unfold Wizard.collectBranding; intros H.
  apply then_failed in H as [H|(choice & i1 & E & H)];
    [exfalso; exact (askChoice_never_fails _ _ _ _ H)|].
  apply askChoice_done in E as (line & -> & ->).
  assert (Hc : In (Wizard.promptChoice (map fst Wizard.colorPresets) 0 line)
                  (map VStr (map fst Wizard.colorPresets))).
  { destruct (promptChoice_cases (map fst Wizard.colorPresets) 0 line)
      as [->|(c & -> & Hin)]; [now left | now apply in_map]. }
  destruct (Wizard.promptChoice (map fst Wizard.colorPresets) 0 line) eqn:Echoice;
    try (cbn in Hc; intuition discriminate).
  cbn in Hc.
  do 5 (destruct Hc as [[= <-]|Hc]; [exfalso; cbn in H; never_fails H|]).
  destruct Hc as [[= <-]|[]].
  split; [eauto|].
  cbn in H.
  destruct (Wizard.presentable (Wizard.primaryColor (Wizard.branding data))) eqn:P1;
    [|reflexivity].
  destruct (Wizard.presentable (Wizard.secondaryColor (Wizard.branding data))) eqn:P2;
    [|reflexivity].
  destruct (Wizard.presentable (Wizard.accentColor (Wizard.branding data))) eqn:P3;
    [|reflexivity].
  exfalso; all_shown H.
Qed.

Lemma readTemplate_failed (example existing : file_read) (input : list string)
      (f : Wizard.failure) :
  Wizard.readTemplate example existing input = Wizard.Failed f ->
  (f = Wizard.NoTemplate /\ example = Missing /\ existing = Missing)
  \/ (f = Wizard.Raised SyntaxError
      /\ (example = Unparsable \/ (example = Missing /\ existing = Unparsable))).
Proof.
  unfold Wizard.readTemplate; destruct example, existing; cbn;
    intros [= <-] || intros [=]; auto 6.
Qed.

Lemma readTemplate_done (example existing : file_read) (input rest : list string)
      (template : value) :
  Wizard.readTemplate example existing input = Wizard.Done template rest ->
  example = Parsed template \/ (example = Missing /\ existing = Parsed template).
Proof.
  unfold Wizard.readTemplate; destruct example, existing; cbn;
    intros [= <- _] || intros [=]; auto.
Qed.


(** X16.  [collectBranding] throws only after "Custom colors", and only if
    one of the three colours on file cannot be shown as the default of its
    question (a mapping with a [toString] entry, which the site crawl can
    leave there); whatever is typed, the choice is a key of [colorPresets],
    so that [preset.primary] is read off a preset.  The colours it stores are
    those of one of the five presets or, after "Custom colors", the three
    answers typed, each with the colour on file as its default. *)
Theorem collectBranding_preset_or_typed (data : Wizard.SetupData) (input : list string) :
  (forall f,
      Wizard.collectBranding data input = Wizard.Failed f ->
      (exists line rest,
          input = line :: rest
          /\ Wizard.promptChoice (map fst Wizard.colorPresets) 0 line
             = VStr "Custom colors")
      /\ (Wizard.presentable (Wizard.primaryColor (Wizard.branding data))
          && Wizard.presentable (Wizard.secondaryColor (Wizard.branding data))
          && Wizard.presentable (Wizard.accentColor (Wizard.branding data)))%bool
         = false)
  /\ (forall data' rest,
         Wizard.collectBranding data input = Wizard.Done data' rest ->
         (exists line name primary secondary accent,
             input = line :: rest
             /\ In (name, Wizard.colorPreset primary secondary accent) Wizard.colorPresets
             /\ name <> "Custom colors"%string
             /\ Wizard.branding data'
                = {| Wizard.primaryColor := VStr primary;
                     Wizard.secondaryColor := VStr secondary;
                     Wizard.accentColor := VStr accent |})
         \/ (exists line l1 l2 l3,
                input = line :: l1 :: l2 :: l3 :: rest
                /\ Wizard.promptChoice (map fst Wizard.colorPresets) 0 line
                   = VStr "Custom colors"
                /\ Wizard.branding data'
                   = {| Wizard.primaryColor :=
                          Wizard.prompt l1 (Wizard.primaryColor (Wizard.branding data));
                        Wizard.secondaryColor :=
                          Wizard.prompt l2 (Wizard.secondaryColor (Wizard.branding data));
                        Wizard.accentColor :=
                          Wizard.prompt l3 (Wizard.accentColor (Wizard.branding data)) |})).
Proof.
  split; [intros f; apply collectBranding_failed|].
  intros data' rest H; unfold Wizard.collectBranding in H.
  apply then_done in H as (choice & i1 & E & H).
  apply askChoice_done in E as (line & -> & ->).
  assert (Hc : In (Wizard.promptChoice (map fst Wizard.colorPresets) 0 line)
                  (map VStr (map fst Wizard.colorPresets))).
  { destruct (promptChoice_cases (map fst Wizard.colorPresets) 0 line)
      as [->|(c & -> & Hin)]; [now left | now apply in_map]. }
  destruct (Wizard.promptChoice (map fst Wizard.colorPresets) 0 line) eqn:Echoice;
    try (cbn in Hc; intuition discriminate).
  cbn in Hc.
  repeat (destruct Hc as [[= <-]|Hc];
          [cbn in H; done_inv H; subst; cbn [Wizard.branding];
           first [ left; do 5 eexists; split; [reflexivity|];
                   refine (conj _ (conj _ eq_refl)); [cbn; eauto 10 | discriminate]
                 | right; do 4 eexists; split; [reflexivity|];
                   split; [exact Echoice | reflexivity] ]|]).
  destruct Hc as [[= <-]|Hc]; [|contradiction].
  cbn in H; done_inv H; subst; cbn [Wizard.branding].
  match goal with
  | H0 : Wizard.then_ _ _ _ = Wizard.Done _ _ |- _ => done_inv H0; subst
  end.
  right; do 4 eexists; split; [reflexivity|].
  split; [exact Echoice | reflexivity].
Qed.

Lemma collectBranding_preset_or_typed_witness :
  (exists data' rest,
      Wizard.collectBranding (Wizard.defaults 2026) ["2"; "next"] = Wizard.Done data' rest
      /\ Wizard.primaryColor (Wizard.branding data') = VStr "#059669")
  /\ Wizard.collectBranding
       (crawled (VObj [("colors", VObj [("secondary", unshowable)])]))
       ["6"; "#111111"; "#222222"]
     = Wizard.Failed (Wizard.Raised TypeError)
  /\ Wizard.presentable
       (Wizard.secondaryColor
          (Wizard.branding (crawled (VObj [("colors", VObj [("secondary", unshowable)])]))))
     = false.
Proof.
  split; [|split].
  - eexists; eexists; split; [vm_compute; reflexivity|].
    destruct (proj2 (collectBranding_preset_or_typed (Wizard.defaults 2026) ["2"; "next"])
                _ _ eq_refl)
      as [(line & name & p & s & a & E & _ & _ & Hb)|(line & l1 & l2 & l3 & E & Hc & _)].
    + vm_compute in Hb; injection Hb as <- _ _; reflexivity.
    + injection E as <- _; discriminate Hc.
  - vm_compute; reflexivity.
  - assert (E : Wizard.collectBranding
                  (crawled (VObj [("colors", VObj [("secondary", unshowable)])]))
                  ["6"; "#111111"; "#222222"]
                = Wizard.Failed (Wizard.Raised TypeError)) by (vm_compute; reflexivity).
    destruct (proj1 (collectBranding_preset_or_typed _ _) _ E) as [_ H].
    destruct (Wizard.presentable
                (Wizard.secondaryColor
                   (Wizard.branding
                      (crawled (VObj [("colors", VObj [("secondary", unshowable)])])))));
      [vm_compute in H; discriminate H | reflexivity].
Defined.

(** X17.  The destination that [collectCTA] stores is one of the three it
    offers, whatever is typed: the contact page, the phone or the e-mail
    address. *)
Theorem collectCTA_destination
        (data data' : Wizard.SetupData) (input rest : list string) :
  Wizard.collectCTA data input = Wizard.Done data' rest ->
  In (Wizard.primaryUrl (Wizard.cta data'))
     [VStr "/contact";
      VStr ("tel:" ++ ToString (Wizard.phoneRaw (Wizard.contact data)));
      VStr ("mailto:" ++ ToString (Wizard.email (Wizard.contact data)))].
Proof.
  intros H; unfold Wizard.collectCTA in H.
  apply then_done in H as (choice & i1 & _ & H).
  apply then_done in H as (primaryText' & i2 & _ & H).
  apply then_done in H as (tel & i3 & Et & H).
  apply then_done in H as (mailto & i4 & Em & H).
  apply then_done in H as (primaryUrl' & i5 & E & H).
  apply ret_done in H as [<- _]; cbn [Wizard.cta Wizard.primaryUrl].
  apply lift_done in Et as [Et _]; apply to_string_ok in Et as ->.
  apply lift_done in Em as [Em _]; apply to_string_ok in Em as ->.
  apply askChoice_done in E as (line & _ & ->).
  match goal with
  | |- In (Wizard.promptChoice ?choices 0 line) _ =>
      destruct (promptChoice_cases choices 0 line) as [->|(c & -> & Hin)]
  end.
  - left; reflexivity.
  - cbn in Hin; cbn [In]; intuition (subst; auto).
Qed.

Lemma collectCTA_destination_witness :
  exists data' rest,
    Wizard.collectCTA (Wizard.defaults 2026) ["5"; "2"; "next"] = Wizard.Done data' rest
    /\ In (Wizard.primaryUrl (Wizard.cta data'))
          [VStr "/contact"; VStr "tel:+15555550100"; VStr "mailto:hello@acme.com"].
Proof.
  eexists; eexists; split; [vm_compute; reflexivity|].
  exact (collectCTA_destination (Wizard.defaults 2026) _ ["5"; "2"; "next"] _ eq_refl).
Defined.

(** Take a finished [run] apart: the data after each group of questions, the
    template, and the tree written. *)
Lemma run_done (currentYear : Z) (crawl : string -> file_read)
      (example existing : file_read) (input rest : list string)
      (data : Wizard.SetupData) (config : value) :
  Wizard.run currentYear crawl example existing input = Wizard.Done (data, config) rest ->
  exists template u p,
    Wizard.generateConfig data template = Ok config
    /\ (example = Parsed template \/ (example = Missing /\ existing = Parsed template))
    /\ Wizard.url (Wizard.site data) = VStr u /\ String.prefix "http" u = true
    /\ Wizard.phone (Wizard.contact data) = VStr p
    /\ Wizard.phoneRaw (Wizard.contact data) = VStr ("+1" ++ digits_only p)
    /\ is_number (Wizard.yearFounded (Wizard.business data)) = true
    /\ Wizard.yearFounded (Wizard.business data) <> VNum NaN.
Proof.
  intros H; unfold Wizard.run in H.
  apply then_done in H as (hasExistingSite & i0 & _ & H).
  apply then_done in H as (data0 & i1 & _ & H).
  apply then_done in H as (data1 & i2 & E1 & H).
  apply then_done in H as (data2 & i3 & E2 & H).
  apply then_done in H as (data3 & i4 & E3 & H).
  apply then_done in H as (data4 & i5 & E4 & H).
  apply then_done in H as (data5 & i6 & E5 & H).
  apply then_done in H as (data6 & i7 & E6 & H).
  apply then_done in H as (template & i8 & E7 & H).
  apply then_done in H as (config' & i9 & E8 & H).
  apply ret_done in H as [[= <- <-] _].
  apply lift_done in E8 as [E8 _].
  apply collectBusinessInfo_done in E1 as ((Hy & Hn) & _).
  apply collectSiteInfo_done in E2 as ((u & Hu & Hp) & Hb2 & _).
  apply collectContactInfo_done in E3 as ((p & Hph & Hraw) & _ & Hb3 & Hs3 & _).
  apply collectSocialMedia_done in E4 as (Hb4 & Hs4 & Hc4 & _).
  apply collectBranding_done in E5 as (Hb5 & Hs5 & Hc5).
  apply collectCTA_done in E6 as (Hb6 & Hs6 & Hc6).
  exists template, u, p.
  split; [exact E8|]; split.
  - now apply readTemplate_done in E7.
  - rewrite Hs6, Hs5, Hs4, Hs3, Hc6, Hc5, Hc4, Hb6, Hb5, Hb4, Hb3, Hb2; auto 7.
Qed.

(** X18.  Whatever is typed, a [config.yaml] that the wizard writes is
    consistent: [site.url] starts with "http"; [contact.phone] is a string,
    [contact.phone_raw] is "+1" followed by its digits, and the secondary
    call to action dials that number; [business.year_founded] is a number,
    and not [NaN]. *)
Theorem run_writes_consistent_config
        (currentYear : Z) (crawl : string -> file_read) (example existing : file_read)
        (input rest : list string) (data : Wizard.SetupData) (config : value) :
  Wizard.run currentYear crawl example existing input = Wizard.Done (data, config) rest ->
  exists u p,
    config?."site"?."url" = VStr u /\ String.prefix "http" u = true
    /\ config?."contact"?."phone" = VStr p
    /\ config?."contact"?."phone_raw" = VStr ("+1" ++ digits_only p)
    /\ config?."cta"?."secondary"?."url" = VStr ("tel:+1" ++ digits_only p)
    /\ is_number config?."business"?."year_founded" = true
    /\ config?."business"?."year_founded" <> VNum NaN.
Proof.
  intros H; apply run_done in H as (template & u & p & G & _ & Hu & Hp & Hph & Hraw & Hy & Hn).
  apply generateConfig_written in G as (Gy & Gu & Gp & Gr & _ & Gc).
  exists u, p; rewrite Gy, Gu, Gp, Gr, Gc, Hu, Hph, Hraw; repeat split; assumption.
Qed.

Lemma run_writes_consistent_config_witness :
  exists data config rest,
    Wizard.run 2026 (fun _ => Missing) (Parsed example_template) Missing all_defaults
    = Wizard.Done (data, config) rest
    /\ config?."cta"?."secondary"?."url" = VStr "tel:+15555550100".
Proof.
  eassert (E : Wizard.run 2026 (fun _ => Missing) (Parsed example_template) Missing
                 all_defaults = Wizard.Done (_, _) _) by (vm_compute; reflexivity).
  do 3 eexists; split; [exact E|].
  destruct (run_writes_consistent_config _ _ _ _ _ _ _ _ E)
    as (u & p & _ & _ & Hp & _ & Hc & _).
  rewrite Hc; vm_compute in Hp; injection Hp as <-; reflexivity.
Defined.


(** ** From the wizard to the loader *)

Section Handover.

Variable StringToNumber : string -> number.

(** The year in which the site is built. *)
Variable buildYear : Z.

Lemma prefix_http_truthy (u : string) :
  String.prefix "http" u = true -> truthy (VStr u) = true.
Proof. destruct u; [discriminate | reflexivity]. Qed.

(** X19.  The loader, run on the tree that the wizard hands to
    [YAML.stringify] (that is, if the YAML file reads back as that tree),
    resolves a consistent site: the URL is the one stored, the raw phone is
    "+1" followed by the digits of the display phone, and the secondary call
    to action dials the raw phone. *)
Theorem wizard_config_loads_consistently
        (currentYear : Z) (crawl : string -> file_read) (example existing : file_read)
        (input rest : list string) (data : Wizard.SetupData) (config site : value) :
  Wizard.run currentYear crawl example existing input = Wizard.Done (data, config) rest ->
  resolve StringToNumber buildYear config = Ok site ->
  exists u p,
    site?."url" = VStr u /\ String.prefix "http" u = true
    /\ Wizard.url (Wizard.site data) = VStr u
    /\ site?."contact"?."phone" = VStr p
    /\ site?."contact"?."phoneRaw" = VStr ("+1" ++ digits_only p)
    /\ site?."cta"?."secondary"?."url" = VStr ("tel:+1" ++ digits_only p).
Proof.
  intros Hrun H.
  apply run_done in Hrun as (template & u & p & G & _ & Hu & Hp & Hph & Hraw & _).
  apply generateConfig_written in G as (_ & Gu & Gp & Gr & Gl & Gc).
  rewrite Hu in Gu; rewrite Hph in Gp; rewrite Hraw in Gr, Gc; cbn [ToString] in Gc.
  assert (Ephone : phoneDisplay config = VStr p).
  { unfold phoneDisplay; rewrite Gp, Gl; destruct p; reflexivity. }
  resolve_inv H.
  match goal with
  | E : phoneRaw config = Ok _ |- _ =>
      unfold phoneRaw in E; rewrite Gr in E; cbn [truthy String.eqb negb] in E;
      cbn in E; injection E as <-
  end.
  exists u, p; cbn [get lookup String.eqb Ascii.eqb Bool.eqb].
  cbn; rewrite Gu, Gc, Ephone, (or_truthy (VStr u)) by now apply prefix_http_truthy.
  repeat split; assumption || reflexivity.
Qed.

End Handover.

Lemma wizard_config_loads_consistently_witness :
  exists data config rest site,
    Wizard.run 2026 (fun _ => Missing) (Parsed example_template) Missing all_defaults
    = Wizard.Done (data, config) rest
    /\ resolve decimalToNumber 2026 config = Ok site
    /\ site?."cta"?."secondary"?."url" = VStr "tel:+15555550100".
Proof.
  eassert (E : Wizard.run 2026 (fun _ => Missing) (Parsed example_template) Missing
                 all_defaults = Wizard.Done (_, _) _) by (vm_compute; reflexivity).
  match type of E with
  | _ = Wizard.Done (_, ?config) _ =>
      eassert (R : resolve decimalToNumber 2026 config = Ok _)
        by (vm_compute; reflexivity)
  end.
  do 4 eexists; split; [exact E|]; split; [exact R|].
  destruct (wizard_config_loads_consistently _ _ _ _ _ _ _ _ _ _ _ E R)
    as (u & p & _ & _ & _ & Hp & _ & Hc).
  rewrite Hc; vm_compute in Hp; injection Hp as <-; reflexivity.
Defined.

(** ** Where the wizard can fail *)

(** X20.  Without a crawl the wizard can fail on its template only: with
    'No config template found' when neither file exists, with a syntax error
    when the one it reads does not parse, and with a [TypeError] when the
    template parsed has no room for the assignments.  No answer makes it
    throw. *)
Theorem run_without_crawl_fails_on_template_only
        (currentYear : Z) (crawl : string -> file_read) (example existing : file_read)
        (line : string) (rest : list string) (f : Wizard.failure) :
  Wizard.promptYesNo line false = Ok false ->
  Wizard.run currentYear crawl example existing (line :: rest) = Wizard.Failed f ->
  (f = Wizard.NoTemplate /\ example = Missing /\ existing = Missing)
  \/ (f = Wizard.Raised SyntaxError
      /\ (example = Unparsable \/ (example = Missing /\ existing = Unparsable)))
  \/ (f = Wizard.Raised TypeError
      /\ exists template,
           (example = Parsed template \/ (example = Missing /\ existing = Parsed template))
           /\ Wizard.usable_template template = false).
Proof.
  intros Hno H; unfold Wizard.run in H.
  unfold Wizard.then_ at 1 in H; cbn [Wizard.askYesNo] in H; rewrite Hno in H.
  cbn [Wizard.lift] in H.
  unfold Wizard.then_ at 1 in H; cbn [Wizard.ret] in H.
  apply then_failed in H as [H|(data1 & i1 & E1 & H)];
    [exfalso; revert H; now apply collectBusinessInfo_never_fails|].
  apply collectBusinessInfo_done in E1 as (_ & Hs1 & Hc1 & Ho1 & Hb1).
  apply then_failed in H as [H|(data2 & i2 & E2 & H)];
    [apply collectSiteInfo_fails in H; rewrite Hs1 in H; discriminate|].
  apply collectSiteInfo_done in E2 as ((u & Hu & _) & _ & Hc2 & Ho2 & Hb2).
  apply then_failed in H as [H|(data3 & i3 & E3 & H)];
    [exfalso; revert H; apply collectContactInfo_never_fails;
     rewrite Hc2, Hc1; reflexivity|].
  apply collectContactInfo_done in E3 as ((p & _ & Hraw) & He3 & _ & Hs3 & Ho3 & Hb3).
  apply then_failed in H as [H|(data4 & i4 & E4 & H)];
    [exfalso; revert H; apply collectSocialMedia_never_fails;
     rewrite Ho3, Ho2, Ho1; reflexivity|].
  apply collectSocialMedia_done in E4 as (_ & Hs4 & Hc4 & Hb4).
  apply then_failed in H as [H|(data5 & i5 & E5 & H)];
    [exfalso; apply collectBranding_failed in H as [_ H];
     rewrite Hb4, Hb3, Hb2, Hb1 in H; discriminate H|].
  apply collectBranding_done in E5 as (_ & Hs5 & Hc5).
  apply then_failed in H as [H|(data6 & i6 & E6 & H)];
    [exfalso; revert H; apply collectCTA_never_fails; rewrite Hc5, Hc4;
     [now rewrite Hraw | now apply presentable_converts]|].
  apply collectCTA_done in E6 as (_ & Hs6 & _).
  apply then_failed in H as [H|(template & i7 & E7 & H)];
    [apply readTemplate_failed in H; tauto|].
  apply readTemplate_done in E7.
  apply then_failed in H as [H|(config & i8 & _ & H)]; [|discriminate].
  right; right.
  destruct (Wizard.generateConfig data6 template) as [out|e] eqn:G; [discriminate|].
  injection H as <-; rewrite (generateConfig_throw _ _ _ G); split; [reflexivity|].
  exists template; split; [exact E7|].
  destruct (Wizard.usable_template template) eqn:U; [exfalso|reflexivity].
  destruct (generateConfig_on_usable data6 template U) as [out Hout]; [|congruence].
  now rewrite Hs6, Hs5, Hs4, Hs3, Hu.
Qed.

Lemma run_without_crawl_fails_on_template_only_witness :
  Wizard.run 2026 (fun _ => Missing) (Parsed (VObj [])) Missing all_defaults
  = Wizard.Failed (Wizard.Raised TypeError)
  /\ Wizard.usable_template (VObj []) = false.
Proof.
  assert (E : Wizard.run 2026 (fun _ => Missing) (Parsed (VObj [])) Missing
                ("n" :: repeat ""%string 23)
              = Wizard.Failed (Wizard.Raised TypeError)) by (vm_compute; reflexivity).
  split; [exact E|].
  destruct (run_without_crawl_fails_on_template_only 2026 (fun _ => Missing)
              (Parsed (VObj [])) Missing "n" (repeat ""%string 23) _ eq_refl E)
    as [(F & _)|[(F & _)|(_ & t & [[= <-]|[F _]] & U)]];
    [discriminate F | discriminate F | exact U | discriminate F].
Defined.

(** With a crawl an answer can make it throw: the crawl found the phone as
    a number, and the phone question is answered with Enter. *)
Example run_with_crawl_fails_on_numeric_phone :
  Wizard.run 2026
    (fun _ => Parsed (VObj [("contact", VObj [("phone", VNum (Int 5550100))])]))
    (Parsed example_template) Missing
    ("y" :: "https://old.example" :: repeat ""%string 23)
  = Wizard.Failed (Wizard.Raised TypeError).
Proof. vm_compute; reflexivity. Qed.

(** What the crawl found is shown, and then offered as the default of a
    question.  A name that cannot be shown makes the extraction fail, so
    that the wizard goes on with its own defaults; a street that cannot be
    shown is not printed, is merged, and makes the street question throw,
    the phone being a string. *)
Example extractFromWebsite_drops_unshowable_name :
  Wizard.extractFromWebsite 2026
    (Parsed (VObj [("business", VObj [("name", unshowable)])])) = None.
Proof. reflexivity. Qed.

Example collectContactInfo_throws_on_unshowable_street :
  is_string
    (Wizard.phone
       (Wizard.contact
          (crawled (VObj [("contact",
                           VObj [("phone", VStr "555 0134");
                                 ("address", VObj [("street", unshowable)])])]))))
  = true
  /\ Wizard.collectContactInfo
       (crawled (VObj [("contact",
                        VObj [("phone", VStr "555 0134");
                              ("address", VObj [("street", unshowable)])])]))
       ["a@b.c"; ""; "1 Main Street"; ""; ""; ""; ""; ""]
     = Wizard.Failed (Wizard.Raised TypeError).
Proof. split; vm_compute; reflexivity. Qed.

(** The other conversions of the questions: [String(yearFounded)] for the
    default of the year, and ['mailto:' + email] for the destinations. *)
Example collectBusinessInfo_throws_on_unshowable_year :
  Wizard.collectBusinessInfo 2026
    (crawled (VObj [("business", VObj [("year_founded", unshowable)])]))
    ["Bob's"; ""; ""; ""; "1999"; ""]
  = Wizard.Failed (Wizard.Raised TypeError).
Proof. vm_compute; reflexivity. Qed.

Example collectCTA_throws_on_unshowable_phoneRaw :
  Wizard.collectCTA (crawled (VObj [("contact", VObj [("phone_raw", unshowable)])]))
    ["1"; "2"]
  = Wizard.Failed (Wizard.Raised TypeError).
Proof. vm_compute; reflexivity. Qed.
